(** * TPPO trainer (marft/algorithms/tppo_trainer.py): model and properties

    The trainer is embedded over idealised floating-point numbers: a
    [float] is a real number, a signed infinity or NaN.  Finite
    arithmetic is exact (no rounding, no overflow); the special values
    follow IEEE 754, so that [0/0], comparisons with NaN and the like
    behave as they do in Python, numpy and torch.  What machine
    arithmetic owes to rounding, overflow or underflow (the sign of a
    difference of nearly equal numbers, an [exp] that overflows) is not
    decided here: the properties below are about control flow, special
    values, and identities of the formulas that the code meets up to
    rounding.

    Tensors are nested lists indexed [batch][agent][token].  Elementwise
    operations pair the entries position by position; the tensors a call
    receives are taken to have matching shapes (torch's shape errors and
    broadcasting between tensors are outside the model).

    The effects of a call (gradient zeroing, backward passes, gradient
    clipping, optimizer steps, prints) are recorded, in order, in a
    [history]; everything the multi-agent system computes is a function
    of the history so far. *)

From Stdlib Require Import Reals Lra Lia ZArith List String Bool.
Import ListNotations.

Set Implicit Arguments.

(** ** Python exceptions and results *)

Inductive exn : Type :=
| ZeroDivisionError
| IndexError
| KeyError
| UnboundLocalError.

Inductive result (A : Type) : Type :=
| Ok (a : A)
| Raise (e : exn).

Arguments Ok {A} a.
Arguments Raise {A} e.

Definition bind {A B : Type} (m : result A) (k : A -> result B) : result B :=
  match m with
  | Ok a => k a
  | Raise e => Raise e
  end.

Notation "x <- m ;; k" := (bind m (fun x => k))
  (at level 61, m at next level, right associativity).
Notation "' p <- m ;; k" := (bind m (fun x => let p := x in k))
  (at level 61, p pattern, m at next level, right associativity).

(** ** Idealised floating-point numbers *)

Module Float.

Open Scope R_scope.

Inductive float : Type :=
| Fin (r : R)
| Inf (neg : bool)
| NaN.

Definition Rltb (a b : R) : bool := if Rlt_dec a b then true else false.
Definition Reqb (a b : R) : bool := if Req_dec_T a b then true else false.

Definition of_Z (z : Z) : float := Fin (IZR z).

Definition is_nan (x : float) : bool :=
match x with NaN => true | _ => false end.

Definition is_finite (x : float) : bool :=
match x with Fin _ => true | _ => false end.

Definition opp (x : float) : float :=
match x with
| Fin a => Fin (- a)
| Inf s => Inf (negb s)
| NaN => NaN
end.

Definition add (x y : float) : float :=
match x, y with
| Fin a, Fin b => Fin (a + b)
| Fin _, Inf s => Inf s
| Inf s, Fin _ => Inf s
| Inf s, Inf t => if Bool.eqb s t then Inf s else NaN
| _, _ => NaN
end.

Definition sub (x y : float) : float := add x (opp y).

Definition mul (x y : float) : float :=
match x, y with
| Fin a, Fin b => Fin (a * b)
| Fin a, Inf s => if Reqb a 0 then NaN else Inf (xorb s (Rltb a 0))
| Inf s, Fin b => if Reqb b 0 then NaN else Inf (xorb s (Rltb b 0))
| Inf s, Inf t => Inf (xorb s t)
| _, _ => NaN
end.

(** Zero carries no sign here: a zero divisor counts as [+0]. *)
Definition div (x y : float) : float :=
match x, y with
| Fin a, Fin b =>
    if Reqb b 0 then (if Reqb a 0 then NaN else Inf (Rltb a 0))
    else Fin (a / b)
| Fin _, Inf _ => Fin 0
| Inf s, Fin b => Inf (xorb s (Rltb b 0))
| _, _ => NaN
end.

Definition exp (x : float) : float :=
match x with
| Fin a => Fin (Rtrigo_def.exp a)
| Inf false => Inf false
| Inf true => Fin 0
| NaN => NaN
end.

Definition log (x : float) : float :=
match x with
| Fin a => if Reqb a 0 then Inf true
           else if Rltb a 0 then NaN else Fin (ln a)
| Inf false => Inf false
| Inf true => NaN
| NaN => NaN
end.

Definition sqrt (x : float) : float :=
match x with
| Fin a => if Rltb a 0 then NaN else Fin (R_sqrt.sqrt a)
| Inf false => Inf false
| Inf true => NaN
| NaN => NaN
end.

(** [torch.max(a, b)] and [torch.min(a, b)], elementwise: NaN wins. *)
Definition max (x y : float) : float :=
match x, y with
| NaN, _ | _, NaN => NaN
| Inf false, _ | _, Inf false => Inf false
| Inf true, z | z, Inf true => z
| Fin a, Fin b => Fin (Rmax a b)
end.

Definition min (x y : float) : float :=
match x, y with
| NaN, _ | _, NaN => NaN
| Inf true, _ | _, Inf true => Inf true
| Inf false, z | z, Inf false => z
| Fin a, Fin b => Fin (Rmin a b)
end.

(** [torch.clamp(x, lo, hi)] is [min(max(x, lo), hi)]. *)
Definition clamp (x : float) (lo hi : R) : float :=
min (max x (Fin lo)) (Fin hi).

(** Comparisons: any comparison with NaN is false. *)
Definition ltb (x y : float) : bool :=
match x, y with
| Fin a, Fin b => Rltb a b
| Fin _, Inf s => negb s
| Inf s, Fin _ => s
| Inf s, Inf t => s && negb t
| _, _ => false
end.

Definition gtb (x y : float) : bool := ltb y x.

Definition eqb (x y : float) : bool :=
match x, y with
| Fin a, Fin b => Reqb a b
| Inf s, Inf t => Bool.eqb s t
| _, _ => false
end.

End Float.

Import Float.

Declare Scope float_scope.
Delimit Scope float_scope with fl.
Bind Scope float_scope with float.
Infix "+" := Float.add : float_scope.
Infix "-" := Float.sub : float_scope.
Infix "*" := Float.mul : float_scope.
Infix "/" := Float.div : float_scope.
Notation "- x" := (Float.opp x) : float_scope.

(** ** Tensors *)

Section Lists.
Context {A B C : Type}.

Definition map2 (f : A -> B -> C) (l1 : list A) (l2 : list B) : list C :=
  map (fun p => f (fst p) (snd p)) (combine l1 l2).
End Lists.

Definition tensor (A : Type) : Type := list (list (list A)).

Definition tmap {A B} (f : A -> B) (t : tensor A) : tensor B :=
  map (map (map f)) t.

Definition tmap2 {A B C} (f : A -> B -> C) (t1 : tensor A) (t2 : tensor B)
  : tensor C :=
  map2 (map2 (map2 f)) t1 t2.

Definition fsum (l : list float) : float :=
  fold_right Float.add (Fin 0) l.

Definition zsum (l : list Z) : Z := fold_right Z.add 0%Z l.

Definition flatten {A} (t : tensor A) : list A := List.concat (List.concat t).

(** [t.sum()] for a float tensor and for an integer tensor. *)
Definition tsum (t : tensor float) : float := fsum (flatten t).
Definition tsumZ (t : tensor Z) : Z := zsum (flatten t).

(** A float tensor times an integer tensor. *)
Definition tmul_mask (t : tensor float) (mask : tensor Z) : tensor float :=
  tmap2 (fun x m => (x * of_Z m)%fl) t mask.

(** [(v * mask).sum() / mask.sum()] *)
Definition masked_mean (v : tensor float) (mask : tensor Z) : float :=
  (tsum (tmul_mask v mask) / of_Z (tsumZ mask))%fl.

(** ** Python integers, sequences and values *)

Open Scope Z_scope.

(** [a // b] and [a % b] on integers: floor division, as [Z.div]. *)
Definition py_floordiv (a b : Z) : result Z :=
  if b =? 0 then Raise ZeroDivisionError else Ok (a / b).

Definition py_mod (a b : Z) : result Z :=
  if b =? 0 then Raise ZeroDivisionError else Ok (a mod b).

(** [a / b] on integers: true division, a float. *)
Definition py_truediv (a b : Z) : result float :=
  if b =? 0 then Raise ZeroDivisionError
  else Ok (Fin (IZR a / IZR b)).

(** [range(start, stop, step)] for [step <> 0]; the step of the trainer's
    ranges is never 0, and [[]] stands for that case. *)
Definition py_range (start stop step : Z) : list Z :=
  let n :=
    if 0 <? step then (stop - start + step - 1) / step
    else if step <? 0 then (start - stop - step - 1) / (- step)
    else 0 in
  map (fun i => start + Z.of_nat i * step) (seq 0 (Z.to_nat n)).

(** [l[start:stop]] with Python's treatment of negative and large
    indices. *)
Definition py_slice {A} (l : list A) (start stop : Z) : list A :=
  let len := Z.of_nat (List.length l) in
  let norm i := if i <? 0 then Z.max (i + len) 0 else Z.min i len in
  firstn (Z.to_nat (norm stop - norm start)) (skipn (Z.to_nat (norm start)) l).

(** [l[i]] *)
Definition py_getitem {A} (l : list A) (i : Z) : result A :=
  let len := Z.of_nat (List.length l) in
  let j := if i <? 0 then i + len else i in
  if (j <? 0) || (len <=? j) then Raise IndexError
  else match nth_error l (Z.to_nat j) with
       | Some a => Ok a
       | None => Raise IndexError
       end.

(** [t[:, a:a+1]] *)
Definition py_agent_slice {A} (t : tensor A) (a : Z) : tensor A :=
  map (fun row => py_slice row a (a + 1)) t.

(** A number as Python sees it: an [int], a [float], or a 0-dimensional
    torch tensor. *)
Inductive pyval : Type :=
| PyInt (z : Z)
| PyFloat (x : float)
| PyTensor (x : float).

Definition py_add (u v : pyval) : pyval :=
  match u, v with
  | PyInt a, PyInt b => PyInt (a + b)
  | PyInt a, PyFloat y => PyFloat (of_Z a + y)
  | PyFloat x, PyInt b => PyFloat (x + of_Z b)
  | PyFloat x, PyFloat y => PyFloat (x + y)
  | PyInt a, PyTensor y => PyTensor (of_Z a + y)
  | PyFloat x, PyTensor y => PyTensor (x + y)
  | PyTensor x, PyInt b => PyTensor (x + of_Z b)
  | PyTensor x, PyFloat y => PyTensor (x + y)
  | PyTensor x, PyTensor y => PyTensor (x + y)
  end.

(** [v / n] for an integer [n]: Python numbers raise on [n = 0], a tensor
    divides as floats do. *)
Definition py_div_int (v : pyval) (n : Z) : result pyval :=
  match v with
  | PyInt a => x <- py_truediv a n ;; Ok (PyFloat x)
  | PyFloat x =>
      if n =? 0 then Raise ZeroDivisionError else Ok (PyFloat (x / of_Z n))
  | PyTensor x => Ok (PyTensor (x / of_Z n))
  end.

(** A [dict] with string keys, in insertion order. *)
Definition dict (V : Type) : Type := list (string * V).

Fixpoint dict_get {V} (d : dict V) (k : string) : result V :=
  match d with
  | [] => Raise KeyError
  | (k', v) :: d' => if String.eqb k k' then Ok v else dict_get d' k
  end.

Fixpoint dict_set {V} (d : dict V) (k : string) (v : V) : dict V :=
  match d with
  | [] => [(k, v)]
  | (k', v') :: d' =>
      if String.eqb k k' then (k', v) :: d' else (k', v') :: dict_set d' k v
  end.

Definition dict_keys {V} (d : dict V) : list string := map fst d.

(** ** numpy reductions that skip NaN *)

Definition not_nan (l : list float) : list float :=
  filter (fun x => negb (is_nan x)) l.

Definition count (l : list float) : float := of_Z (Z.of_nat (List.length l)).

Definition nanmean (l : list float) : float :=
  (fsum (not_nan l) / count (not_nan l))%fl.

Definition nanvar (l : list float) : float :=
  let avg := nanmean l in
  (fsum (map (fun x => ((x - avg) * (x - avg))%fl) (not_nan l))
   / count (not_nan l))%fl.

Definition nanstd (l : list float) : float := Float.sqrt (nanvar l).

(** ** The trainer's collaborators *)

(** What an optimizer or a gradient utility acts on. *)
Inductive optimizer : Type :=
| CriticOpt
| PolicyOpt (role : string).

Inductive params (Agent : Type) : Type :=
| CriticParams
| AgentParams (a : Agent).

Arguments CriticParams {Agent}.
Arguments AgentParams {Agent} a.

Inductive network : Type :=
| Critic
| Policy.

(** The effects of the trainer, in program order: a forward pass of the
    critic or of the agents, [loss.backward()] on a loss of the critic or
    of the agents, and the calls on optimizers and gradients. *)
Inductive event (Agent : Type) : Type :=
| ZeroGrad (o : optimizer)
| Forward (n : network)
| Backward (n : network) (loss : float)
| ClipGradNorm (p : params Agent) (max_norm : R)
| OptStep (o : optimizer)
| Print (msg : string).

Arguments ZeroGrad {Agent} o.
Arguments Forward {Agent} n.
Arguments Backward {Agent} n loss.
Arguments ClipGradNorm {Agent} p max_norm.
Arguments OptStep {Agent} o.
Arguments Print {Agent} msg.

Definition history (Agent : Type) : Type := list (event Agent).

(** A minibatch, as [buffer.sample] yields it. *)
Record sample (Obs Act : Type) : Type := {
  observations : list Obs;
  actions : list Act;
  rollout_observations : list Obs;
  log_probs : tensor float;
  value_preds : tensor float;
  returns : tensor float;
  advantages : tensor float;
  action_tokens : tensor Z
}.

(** The multi-agent system, torch and [marft.utils.util], as the trainer
    uses them.  [huber_loss] and [mse_loss] act entry by entry;
    [clip_grad_norm_] and [get_gard_norm] give the norm they return, the
    clipping itself being an event of the history.  A [Buffer] is the
    state of the experience buffer; [buffer_sample] gives the minibatches
    of one call of [buffer.sample] and the buffer after it. *)
Class Backend : Type := {
  Obs : Type;
  Act : Type;
  Agent : Type;
  role : Agent -> string;
  num_agents : Z;
  agents : list Agent;
  pad_token_id : Z;
  get_token_values :
    history Agent -> list Obs -> tensor Z -> tensor float;
  get_token_logits :
    history Agent -> list Obs -> tensor Z -> option Z -> tensor (list float);
  log_softmax : list float -> list float;
  gather : list float -> Z -> float;
  categorical_entropy : list float -> float;
  huber_loss : float -> R -> float;
  mse_loss : float -> float;
  clip_grad_norm_ : history Agent -> params Agent -> R -> float;
  get_gard_norm : history Agent -> params Agent -> float;
  Buffer : Type;
  buffer_sample : Buffer -> Z -> list (sample Obs Act) * Buffer
}.

(** The fields [__init__] copies from [args], and the keys of the
    [policy_optimizer] dict. *)
Record trainer : Type := {
  num_agent : Z;
  warmup_steps : Z;
  agent_iteration_interval : Z;
  clip_param : R;
  ppo_epoch : Z;
  num_mini_batch : Z;
  value_loss_coef : R;
  max_grad_norm : R;
  huber_delta : R;
  entropy_coef : R;
  _use_max_grad_norm : bool;
  _use_huber_loss : bool;
  gradient_cp_steps : Z;
  policy_optimizer : dict unit
}.

Record args : Type := {
  arg_warmup_steps : Z;
  arg_agent_iteration_interval : Z;
  arg_clip_param : R;
  arg_ppo_epoch : Z;
  arg_num_mini_batch : Z;
  arg_value_loss_coef : R;
  arg_max_grad_norm : R;
  arg_huber_delta : R;
  arg_entropy_coef : R;
  arg_use_max_grad_norm : bool;
  arg_use_huber_loss : bool;
  arg_gradient_cp_steps : Z
}.

Section Trainer.
Context {B : Backend}.

(** [__init__]: one optimizer per role of [mas.agents].  Loading saved
    optimizer states (lines 45-46) is file input and is left out. *)
Definition init (a : args) : trainer :=
  {| num_agent := num_agents;
     warmup_steps := arg_warmup_steps a;
     agent_iteration_interval := arg_agent_iteration_interval a;
     clip_param := arg_clip_param a;
     ppo_epoch := arg_ppo_epoch a;
     num_mini_batch := arg_num_mini_batch a;
     value_loss_coef := arg_value_loss_coef a;
     max_grad_norm := arg_max_grad_norm a;
     huber_delta := arg_huber_delta a;
     entropy_coef := arg_entropy_coef a;
     _use_max_grad_norm := arg_use_max_grad_norm a;
     _use_huber_loss := arg_use_huber_loss a;
     gradient_cp_steps := arg_gradient_cp_steps a;
     policy_optimizer :=
       fold_left (fun d ag => dict_set d (role ag) tt) agents [] |}.

Variable self : trainer.

Definition cal_token_mask (action_tokens_batch : tensor Z) : tensor Z :=
  tmap (fun tok => Z.b2z (negb (tok =? pad_token_id))) action_tokens_batch.

Definition cal_policy_loss
    (log_prob_infer log_prob_batch advantages_batch entropy : tensor float)
    (token_mask : tensor Z) : float * float * float :=
  let log_ratio := tmap2 Float.sub log_prob_infer log_prob_batch in
  let imp_weights := tmap Float.exp log_ratio in
  let approx_kl :=
    tmap2 Float.sub (tmap (fun w => (w - Fin 1)%fl) imp_weights) log_ratio in
  let surr1 :=
    tmap2 Float.mul
      (tmap (fun w =>
               (- Float.clamp w (1 - clip_param self) (1 + clip_param self))%fl)
            imp_weights)
      advantages_batch in
  let surr2 := tmap2 Float.mul (tmap Float.opp imp_weights) advantages_batch in
  let surr := tmap2 Float.max surr1 surr2 in
  let policy_loss :=
    tmap2 Float.sub surr
      (tmap (fun e => (Fin (entropy_coef self) * e)%fl) entropy) in
  let policy_loss := masked_mean policy_loss token_mask in
  let approx_kl := masked_mean approx_kl token_mask in
  let entropy_value := masked_mean entropy token_mask in
  (policy_loss, approx_kl, entropy_value).

Definition cal_value_loss
    (values_infer value_preds_batch return_batch : tensor float)
    (token_mask : tensor Z) : float :=
  let value_pred_clipped :=
    tmap2 Float.add value_preds_batch
      (tmap (fun d => Float.clamp d (- clip_param self) (clip_param self))
            (tmap2 Float.sub values_infer value_preds_batch)) in
  let error_clipped := tmap2 Float.sub return_batch value_pred_clipped in
  let error_unclipped := tmap2 Float.sub return_batch values_infer in
  let value_loss_clipped :=
    if _use_huber_loss self
    then tmap (fun e => huber_loss e (huber_delta self)) error_clipped
    else tmap mse_loss error_clipped in
  let value_loss_unclipped :=
    if _use_huber_loss self
    then tmap (fun e => huber_loss e (huber_delta self)) error_unclipped
    else tmap mse_loss error_unclipped in
  let value_loss := tmap2 Float.max value_loss_clipped value_loss_unclipped in
  let value_loss := masked_mean value_loss token_mask in
  (value_loss * Fin (value_loss_coef self))%fl.

(** *** [ppo_update] *)

(** Lines 87-90: the agent the rotation selects, [None] for a joint
    update. *)
Definition agent_to_train_of (global_steps : Z) : result (option Z) :=
  if 0 <? agent_iteration_interval self then
    time_slice <- py_floordiv global_steps (agent_iteration_interval self) ;;
    a <- py_mod (time_slice + 1) (num_agent self) ;;
    Ok (Some a)
  else Ok None.

(** Lines 95-99. *)
Definition normalize_advantages (advantages : tensor float) : tensor float :=
  let advantages_copy :=
    tmap (fun a => if Float.eqb a (Fin 0) then NaN else a) advantages in
  let mean_advantages := nanmean (flatten advantages_copy) in
  let std_advantages := nanstd (flatten advantages_copy) in
  tmap (fun a =>
          ((a - mean_advantages) / (std_advantages + Fin 1e-8))%fl)
       advantages.

(** Lines 105-109. *)
Definition cp_batch_size_of (h : history Agent) (batch_size : Z)
  : result (history Agent * Z) :=
  cp_batch_size <- py_floordiv batch_size (gradient_cp_steps self) ;;
  if cp_batch_size =? 0
  then Ok (h ++ [Print "gradient_cp_steps > batch_size, set cp_batch_size = 1"%string], 1)
  else Ok (h, cp_batch_size).

(** Lines 116-118 (and 146-148). *)
Definition chunk_end (start cp_batch_size batch_size : Z) : Z :=
  let end_ := start + cp_batch_size in
  if batch_size <? end_ then batch_size else end_.

(** Lines 115-126: the critic loop, over the starts that
    [range(0, batch_size, cp_batch_size)] gives. *)
Fixpoint critic_loop (starts : list Z) (batch_size cp_batch_size : Z)
    (rollout_obs : list Obs) (action_toks : tensor Z)
    (value_preds_ returns_ : tensor float) (token_mask : tensor Z)
    (h : history Agent) (value_loss : pyval)
  : result (history Agent * pyval) :=
  match starts with
  | [] => Ok (h, value_loss)
  | start :: rest =>
      let end_ := chunk_end start cp_batch_size batch_size in
      cp_weight <- py_truediv (end_ - start) batch_size ;;
      let cp_obs_batch := py_slice rollout_obs start end_ in
      let cp_action_tokens_batch := py_slice action_toks start end_ in
      let cp_value_preds_batch := py_slice value_preds_ start end_ in
      let cp_returns_batch := py_slice returns_ start end_ in
      let cp_token_mask := py_slice token_mask start end_ in
      let values_infer :=
        get_token_values h cp_obs_batch cp_action_tokens_batch in
      let h := h ++ [Forward Critic] in
      let cp_value_loss :=
        cal_value_loss values_infer cp_value_preds_batch cp_returns_batch
                       cp_token_mask in
      let cp_value_loss := (cp_value_loss * cp_weight)%fl in
      critic_loop rest batch_size cp_batch_size rollout_obs action_toks
        value_preds_ returns_ token_mask
        (h ++ [Backward Critic cp_value_loss])
        (py_add value_loss (PyFloat cp_value_loss))
  end.

(** Lines 128-133: the critic's gradient norm and optimizer step. *)
Definition critic_step (h : history Agent) : history Agent * float :=
  let '(h, critic_grad_norm) :=
    if _use_max_grad_norm self
    then (h ++ [ClipGradNorm CriticParams (max_grad_norm self)],
          clip_grad_norm_ h CriticParams (max_grad_norm self))
    else (h, get_gard_norm h CriticParams) in
  (h ++ [OptStep CriticOpt], critic_grad_norm).

(** Lines 87-133: everything up to the warmup test.  Gives the history,
    [agent_to_train], [cp_batch_size], [value_loss] and
    [critic_grad_norm].  [to_cuda] (line 102) moves the arrays to the
    device and changes no value. *)
Definition critic_update (h : history Agent) (smp : sample Obs Act)
    (global_steps : Z)
  : result (history Agent * option Z * Z * pyval * float) :=
  agent_to_train <- agent_to_train_of global_steps ;;
  let token_mask := cal_token_mask (action_tokens smp) in
  let batch_size := Z.of_nat (List.length (rollout_observations smp)) in
  '(h, cp_batch_size) <- cp_batch_size_of h batch_size ;;
  let h := h ++ [ZeroGrad CriticOpt] in
  '(h, value_loss) <-
    critic_loop (py_range 0 batch_size cp_batch_size) batch_size
      cp_batch_size (rollout_observations smp) (action_tokens smp)
      (value_preds smp) (returns smp) token_mask h (PyInt 0) ;;
  let '(h, critic_grad_norm) := critic_step h in
  Ok (h, agent_to_train, cp_batch_size, value_loss, critic_grad_norm).

(** The running totals of the policy loop. *)
Record policy_acc : Type := {
  total_approx_kl : float;
  total_entropy : float;
  policy_loss : float
}.

(** [t[:, a:a+1]] when an agent is selected, [t] otherwise. *)
Definition select_agent {A} (agent_to_train : option Z) (t : tensor A)
  : tensor A :=
  match agent_to_train with
  | Some a => py_agent_slice t a
  | None => t
  end.

(** Lines 145-166: the policy loop. *)
Fixpoint policy_loop (starts : list Z) (batch_size cp_batch_size : Z)
    (agent_to_train : option Z)
    (rollout_obs : list Obs) (action_toks : tensor Z)
    (advantages_ log_probs_ : tensor float) (token_mask : tensor Z)
    (h : history Agent) (acc : policy_acc)
  : result (history Agent * policy_acc) :=
  match starts with
  | [] => Ok (h, acc)
  | start :: rest =>
      let end_ := chunk_end start cp_batch_size batch_size in
      cp_weight <- py_truediv (end_ - start) batch_size ;;
      let cp_obs_batch := py_slice rollout_obs start end_ in
      let cp_action_tokens_batch := py_slice action_toks start end_ in
      let cp_adv_batch := py_slice advantages_ start end_ in
      let cp_log_prob_batch := py_slice log_probs_ start end_ in
      let cp_token_mask := py_slice token_mask start end_ in
      let logits_infer :=
        get_token_logits h cp_obs_batch cp_action_tokens_batch
                         agent_to_train in
      let h := h ++ [Forward Policy] in
      let pi_log_prob := tmap log_softmax logits_infer in
      let cp_action_tokens_batch :=
        select_agent agent_to_train cp_action_tokens_batch in
      let cp_log_prob_batch := select_agent agent_to_train cp_log_prob_batch in
      let cp_adv_batch := select_agent agent_to_train cp_adv_batch in
      let cp_token_mask := select_agent agent_to_train cp_token_mask in
      let log_prob_infer := tmap2 gather pi_log_prob cp_action_tokens_batch in
      let entropy := tmap categorical_entropy logits_infer in
      let '(cp_policy_loss, approx_kl, cp_entropy) :=
        cal_policy_loss log_prob_infer cp_log_prob_batch cp_adv_batch
                        entropy cp_token_mask in
      let cp_policy_loss := (cp_policy_loss * cp_weight)%fl in
      policy_loop rest batch_size cp_batch_size agent_to_train
        rollout_obs action_toks advantages_ log_probs_ token_mask
        (h ++ [Backward Policy cp_policy_loss])
        {| total_approx_kl :=
             (total_approx_kl acc + approx_kl * cp_weight)%fl;
           total_entropy := (total_entropy acc + cp_entropy * cp_weight)%fl;
           policy_loss := (policy_loss acc + cp_policy_loss)%fl |}
  end.

(** Lines 140-166: zero the agents' gradients and accumulate over the
    chunks.  The normalized advantages, the token mask and the batch size
    are those of lines 95-105, functions of the sample alone. *)
Definition policy_accumulate (h : history Agent) (smp : sample Obs Act)
    (agent_to_train : option Z) (cp_batch_size : Z)
  : result (history Agent * policy_acc) :=
  let advantages_ := normalize_advantages (advantages smp) in
  let token_mask := cal_token_mask (action_tokens smp) in
  let batch_size := Z.of_nat (List.length (rollout_observations smp)) in
  let h :=
    h ++ map (fun k => ZeroGrad (PolicyOpt k))
             (dict_keys (policy_optimizer self)) in
  policy_loop (py_range 0 batch_size cp_batch_size) batch_size
    cp_batch_size agent_to_train (rollout_observations smp)
    (action_tokens smp) advantages_ (log_probs smp) token_mask h
    {| total_approx_kl := Fin 0; total_entropy := Fin 0;
       policy_loss := Fin 0 |}.

(** [self.policy_optimizer[agent.role].step()] *)
Definition policy_opt_step (h : history Agent) (agent : Agent)
  : result (history Agent) :=
  _ <- dict_get (policy_optimizer self) (role agent) ;;
  Ok (h ++ [OptStep (PolicyOpt (role agent))]).

(** Lines 173-174 and 178-179: clip the agent's gradient and step its
    optimizer; the norm is what [clip_grad_norm_] returned. *)
Definition agent_step (h : history Agent) (agent : Agent)
  : result (history Agent * float) :=
  let policy_grad_norm :=
    clip_grad_norm_ h (AgentParams agent) (max_grad_norm self) in
  let h := h ++ [ClipGradNorm (AgentParams agent) (max_grad_norm self)] in
  h <- policy_opt_step h agent ;;
  Ok (h, policy_grad_norm).

(** Lines 177-180: the variable [policy_grad_norm] is bound by the
    loop body only; [total_policy_grad_norm] starts at [0.]. *)
Fixpoint joint_step (ags : list Agent) (h : history Agent)
    (policy_grad_norm : option float) (total_policy_grad_norm : float)
  : result (history Agent * option float * float) :=
  match ags with
  | [] => Ok (h, policy_grad_norm, total_policy_grad_norm)
  | agent :: rest =>
      '(h, norm) <- agent_step h agent ;;
      joint_step rest h (Some norm) (total_policy_grad_norm + norm)%fl
  end.

(** Lines 171-180.  Gives the history, the variable [policy_grad_norm]
    (unbound when the joint loop ran over no agent) and
    [total_policy_grad_norm]. *)
Definition policy_commit (h : history Agent) (agent_to_train : option Z)
  : result (history Agent * option float * float) :=
  match agent_to_train with
  | Some a =>
      agent <- py_getitem agents a ;;
      '(h, policy_grad_norm) <- agent_step h agent ;;
      Ok (h, Some policy_grad_norm, policy_grad_norm)
  | None => joint_step agents h None (Fin 0)
  end.

(** The threshold of line 168. *)
Definition kl_threshold : float := Fin 1.7e-6.

Definition diagnostics : Type :=
  (pyval * pyval * pyval * pyval * pyval * pyval)%type.

Definition ppo_update (h : history Agent) (smp : sample Obs Act)
    (global_steps : Z) : result (history Agent * diagnostics) :=
  '(h, agent_to_train, cp_batch_size, value_loss, critic_grad_norm) <-
    critic_update h smp global_steps ;;
  if global_steps <? warmup_steps self then
    Ok (h, (value_loss, PyFloat critic_grad_norm,
            PyInt 0, PyInt 0, PyInt 0, PyInt 0))
  else
    '(h, acc) <- policy_accumulate h smp agent_to_train cp_batch_size ;;
    if Float.gtb (total_approx_kl acc) kl_threshold then
      Ok (h, (value_loss, PyFloat critic_grad_norm, PyInt 0, PyInt 0,
              PyFloat (total_approx_kl acc), PyFloat (total_entropy acc)))
    else
      '(h, policy_grad_norm, total_policy_grad_norm) <-
        policy_commit h agent_to_train ;;
      match policy_grad_norm with
      | None => Raise UnboundLocalError
      | Some policy_grad_norm =>
          Ok (h, (value_loss, PyFloat critic_grad_norm,
                  PyFloat (policy_loss acc), PyTensor policy_grad_norm,
                  PyFloat (total_approx_kl acc),
                  PyFloat (total_entropy acc)))
      end.

(** *** [train] *)

Definition train_info0 : dict pyval :=
  [("value_loss"%string, PyFloat (Fin 0));
   ("value_grad_norm"%string, PyFloat (Fin 0));
   ("policy_loss"%string, PyFloat (Fin 0));
   ("policy_grad_norm"%string, PyFloat (Fin 0));
   ("entropy"%string, PyFloat (Fin 0));
   ("approx_kl"%string, PyFloat (Fin 0))].

(** [d[k] += v] *)
Definition dict_iadd (d : dict pyval) (k : string) (v : pyval)
  : result (dict pyval) :=
  old <- dict_get d k ;;
  Ok (dict_set d k (py_add old v)).

(** Lines 203-213. *)
Fixpoint minibatch_loop (data_generator : list (sample Obs Act))
    (global_steps : Z) (h : history Agent) (train_info : dict pyval)
    (update_time : Z) : result (history Agent * dict pyval * Z) :=
  match data_generator with
  | [] => Ok (h, train_info, update_time)
  | smp :: rest =>
      '(h, (value_loss, value_grad_norm, policy_loss_, policy_grad_norm,
            approx_kl, entropy)) <- ppo_update h smp global_steps ;;
      train_info <- dict_iadd train_info "value_loss" value_loss ;;
      train_info <- dict_iadd train_info "value_grad_norm" value_grad_norm ;;
      train_info <- dict_iadd train_info "policy_loss" policy_loss_ ;;
      train_info <- dict_iadd train_info "policy_grad_norm" policy_grad_norm ;;
      train_info <- dict_iadd train_info "entropy" entropy ;;
      train_info <- dict_iadd train_info "approx_kl" approx_kl ;;
      minibatch_loop rest global_steps h train_info (update_time + 1)
  end.

(** Lines 201-213, over the [ppo_epoch] passes. *)
Fixpoint epoch_loop (epochs : nat) (buffer : Buffer) (global_steps : Z)
    (h : history Agent) (train_info : dict pyval) (update_time : Z)
  : result (history Agent * Buffer * dict pyval * Z) :=
  match epochs with
  | O => Ok (h, buffer, train_info, update_time)
  | S epochs' =>
      let '(data_generator, buffer) :=
        buffer_sample buffer (num_mini_batch self) in
      '(h, train_info, update_time) <-
        minibatch_loop data_generator global_steps h train_info
                       update_time ;;
      epoch_loop epochs' buffer global_steps h train_info update_time
  end.

(** Lines 215-216. *)
Fixpoint divide_all (keys : list string) (train_info : dict pyval)
    (update_time : Z) : result (dict pyval) :=
  match keys with
  | [] => Ok train_info
  | k :: rest =>
      v <- dict_get train_info k ;;
      q <- py_div_int v update_time ;;
      divide_all rest (dict_set train_info k q) update_time
  end.

Definition train (h : history Agent) (buffer : Buffer) (global_steps : Z)
  : result (history Agent * Buffer * dict pyval) :=
  '(h, buffer, train_info, update_time) <-
    epoch_loop (Z.to_nat (ppo_epoch self)) buffer global_steps h
               train_info0 0 ;;
  train_info <- divide_all (dict_keys train_info) train_info update_time ;;
  Ok (h, buffer, train_info).

End Trainer.

(** ** Reading histories *)

Section Observations.
Context {B : Backend}.

(** The events of the policy side: forward and backward passes of the
    agents, and the calls on their gradients and optimizers. *)
Definition policy_event (e : event Agent) : bool :=
  match e with
  | Forward Policy | Backward Policy _ => true
  | ZeroGrad (PolicyOpt _) | OptStep (PolicyOpt _) => true
  | ClipGradNorm (AgentParams _) _ => true
  | _ => false
  end.

Definition policy_opt_step_event (e : event Agent) : bool :=
  match e with
  | OptStep (PolicyOpt _) => true
  | _ => false
  end.

(** A stretch of history without any event of the policy side, and one
    without a step of a policy optimizer. *)
Definition quiet (e : history Agent) : Prop :=
  Forall (fun ev => policy_event ev = false) e.

Definition no_policy_step (e : history Agent) : Prop :=
  Forall (fun ev => policy_opt_step_event ev = false) e.

(** What [agent_step] adds to the history for one agent. *)
Definition agent_step_events (self : trainer) (agent : Agent)
  : history Agent :=
  [ClipGradNorm (AgentParams agent) (max_grad_norm self);
   OptStep (PolicyOpt (role agent))].

(** The norms [clip_grad_norm_] returns to the joint loop, agent by
    agent. *)
Fixpoint joint_norms (self : trainer) (h : history Agent) (ags : list Agent)
  : list float :=
  match ags with
  | [] => []
  | agent :: rest =>
      clip_grad_norm_ h (AgentParams agent) (max_grad_norm self)
      ::
      joint_norms self (h ++ agent_step_events self agent) rest
  end.

(** Every agent of the system has its optimizer in the dict. *)
Definition optimizers_registered (self : trainer) : Prop :=
  forall agent, In agent agents ->
                dict_get (policy_optimizer self) (role agent) = Ok tt.

(** [buffer.sample] yields no minibatch in any of the next [epochs]
    calls. *)
Fixpoint yields_nothing (epochs : nat) (buffer : Buffer) (n : Z) : Prop :=
  match epochs with
  | O => True
  | S epochs' =>
      fst (buffer_sample buffer n) = []
      /\ yields_nothing epochs' (snd (buffer_sample buffer n)) n
  end.

(** The inputs on which lines 87-109 raise nothing: a rotation needs
    [num_agent <> 0] for its [%], and [//] needs
    [gradient_cp_steps <> 0]. *)
Definition divisors_nonzero (self : trainer) : Prop :=
  (0 < agent_iteration_interval self -> num_agent self <> 0)
  /\ gradient_cp_steps self <> 0.
End Observations.

(** ** A small system for concrete runs

    Two agents and a shared critic over a two-token vocabulary (token 0 is
    the pad token).  The critic predicts 0 everywhere; the agents' logits
    are uniform, so every log-probability is [- ln 2] and every entropy
    [ln 2].  Gradient norms are 1.  The buffer is the list of the
    minibatch lists its next calls yield. *)

Module Demo.

Definition role_of (a : nat) : string :=
  match a with
  | O => "reasoner"%string
  | _ => "actor"%string
  end.

Definition huber (e : float) (d : R) : float :=
  match e with
  | Fin x =>
      if Rle_dec (Rabs x) d then Fin (x * x / 2)
      else Fin (d * (Rabs x - d / 2))
  | Inf _ => Inf false
  | NaN => NaN
  end.

Definition mse (e : float) : float := (e * e / Fin 2)%fl.

Definition sample_t : Type := sample unit unit.

#[export] Instance backend : Backend := {|
  Obs := unit;
  Act := unit;
  Agent := nat;
  role := role_of;
  num_agents := 2;
  agents := [0%nat; 1%nat];
  pad_token_id := 0;
  get_token_values := fun _ _ toks => tmap (fun _ => Fin 0) toks;
  get_token_logits := fun _ _ toks a =>
    tmap (fun _ => [Fin 0; Fin 0])
         (match a with Some i => py_agent_slice toks i | None => toks end);
  log_softmax := map (fun _ => Fin (- ln 2));
  gather := fun l i => nth (Z.to_nat i) l NaN;
  categorical_entropy := fun _ => Fin (ln 2);
  huber_loss := huber;
  mse_loss := mse;
  clip_grad_norm_ := fun _ _ _ => Fin 1;
  get_gard_norm := fun _ _ => Fin 1;
  Buffer := list (list sample_t);
  buffer_sample := fun b _ =>
    match b with
    | [] => ([], [])
    | x :: b' => (x, b')
    end
|}.

Definition demo_args (interval warmup cp_steps : Z) (clip : bool) : args :=
  {| arg_warmup_steps := warmup;
     arg_agent_iteration_interval := interval;
     arg_clip_param := 0.2;
     arg_ppo_epoch := 1;
     arg_num_mini_batch := 1;
     arg_value_loss_coef := 1;
     arg_max_grad_norm := 0.5;
     arg_huber_delta := 10;
     arg_entropy_coef := 0.01;
     arg_use_max_grad_norm := clip;
     arg_use_huber_loss := false;
     arg_gradient_cp_steps := cp_steps |}.

Definition demo_trainer (interval warmup cp_steps : Z) (clip : bool)
  : trainer :=
  init (demo_args interval warmup cp_steps clip).

(** A minibatch from its per-row data; observations carry nothing. *)
Definition mk_sample (lp vp ret adv : tensor float) (toks : tensor Z)
  : sample_t :=
  {| observations := map (fun _ => tt) toks;
     actions := map (fun _ => tt) toks;
     rollout_observations := map (fun _ => tt) toks;
     log_probs := lp;
     value_preds := vp;
     returns := ret;
     advantages := adv;
     action_tokens := toks |}.

(** One row, both agents acting with one token each.  In [near_sample]
    the stored log-probabilities are those the agents give now
    ([- ln 2]); in [far_sample] they are lower by 2; in [pad_sample]
    every token is the pad token. *)
Definition near_sample : sample_t :=
  mk_sample [[[Fin (- ln 2)]; [Fin (- ln 2)]]]
            [[[Fin 0]; [Fin 0]]] [[[Fin 1]; [Fin 1]]]
            [[[Fin 1]; [Fin (-1)]]] [[[1]; [1]]].

Definition far_sample : sample_t :=
  mk_sample [[[Fin (- ln 2 - 2)]; [Fin (- ln 2 - 2)]]]
            [[[Fin 0]; [Fin 0]]] [[[Fin 1]; [Fin 1]]]
            [[[Fin 1]; [Fin (-1)]]] [[[1]; [1]]].

Definition pad_sample : sample_t :=
  mk_sample [[[Fin (- ln 2)]; [Fin (- ln 2)]]]
            [[[Fin 0]; [Fin 0]]] [[[Fin 1]; [Fin 1]]]
            [[[Fin 1]; [Fin (-1)]]] [[[0]; [0]]].

(** Two rows and two chunks.  In [even_sample] no token is padding; in
    [uneven_sample] the second agent's token of the first row is. *)
Definition even_sample : sample_t :=
  mk_sample
    [[[Fin (- ln 2)]; [Fin (- ln 2)]]; [[Fin (- ln 2)]; [Fin (- ln 2)]]]
    [[[Fin 0]; [Fin 0]]; [[Fin 0]; [Fin 0]]]
    [[[Fin 2]; [Fin 2]]; [[Fin 0]; [Fin 0]]]
    [[[Fin 1]; [Fin (-1)]]; [[Fin 1]; [Fin (-1)]]]
    [[[1]; [1]]; [[1]; [1]]].

Definition uneven_sample : sample_t :=
  mk_sample
    [[[Fin (- ln 2)]; [Fin (- ln 2)]]; [[Fin (- ln 2)]; [Fin (- ln 2)]]]
    [[[Fin 0]; [Fin 0]]; [[Fin 0]; [Fin 0]]]
    [[[Fin 2]; [Fin 2]]; [[Fin 0]; [Fin 0]]]
    [[[Fin 1]; [Fin (-1)]]; [[Fin 1]; [Fin (-1)]]]
    [[[1]; [0]]; [[1]; [1]]].

End Demo.

(** ** The policy loss, in the words of its description

    The importance ratio, the per-token approximate KL and the per-token
    loss as formulas of the ratio; [cal_policy_loss] is compared with
    them. *)

Section PolicyLossFormulas.
Variables (eps coef : R).

Definition ratio_of (log_prob_infer log_prob_old : tensor float)
  : tensor float :=
  tmap2 (fun a b => Float.exp (a - b)%fl) log_prob_infer log_prob_old.

Definition token_kl (r : float) : float := ((r - Fin 1) - Float.log r)%fl.

Definition token_surrogate (r A : float) : float :=
  Float.max (- Float.clamp r (1 - eps) (1 + eps) * A)%fl (- r * A)%fl.

Definition token_losses (r A entropy : tensor float) : tensor float :=
  tmap2 (fun s e => (s - Fin coef * e)%fl) (tmap2 token_surrogate r A)
        entropy.
End PolicyLossFormulas.

(** What a sum of masked-out entries can be. *)
Definition zero_or_nan (x : float) : Prop := x = Fin 0 \/ x = NaN.

(** A mask as [cal_token_mask] makes them: every entry is 0 or 1. *)
Definition binary_mask (mask : tensor Z) : Prop :=
  Forall (fun m => m = 0 \/ m = 1) (flatten mask).

(** ** Statistics of the non-zero advantages, over the reals *)

Definition rsum (l : list R) : R := fold_right Rplus 0%R l.

Definition nonzero (l : list R) : list R :=
  filter (fun a => negb (Reqb a 0)) l.

Definition rlen (l : list R) : R := IZR (Z.of_nat (List.length l)).

Definition rmean (l : list R) : R := (rsum l / rlen l)%R.

(** The population standard deviation. *)
Definition rstd (l : list R) : R :=
  R_sqrt.sqrt
    (rsum (map (fun x => (x - rmean l) * (x - rmean l))%R l) / rlen l)%R.

(** The lengths of a tensor along its three axes. *)
Definition shape {A} (t : tensor A) : list (list nat) :=
  map (map (@List.length A)) t.

(** ** Chunks of a batch *)

(** [n] rows from row [s] on: what [t[s : s + n]] is. *)
Definition rows {A} (s n : nat) (l : list A) : list A := firstn n (skipn s l).

Definition to_R (x : float) : R :=
  match x with
  | Fin r => r
  | _ => 0%R
  end.

Definition finite_tensor (t : tensor float) : Prop :=
  Forall (Forall (Forall (fun x => is_finite x = true))) t.

(** The number [(v * mask).sum()] is when [v] is finite. *)
Definition rdot (v : tensor float) (mask : tensor Z) : R :=
  rsum (map to_R (flatten (tmul_mask v mask))).

Section Chunks.
Context {B : Backend}.
Variable self : trainer.

(** The per-token value loss: what [cal_value_loss] reduces by its masked
    mean, lines 71-80. *)
Definition value_loss_tokens
    (values_infer value_preds_batch return_batch : tensor float)
  : tensor float :=
  let value_pred_clipped :=
    tmap2 Float.add value_preds_batch
      (tmap (fun d => Float.clamp d (- clip_param self) (clip_param self))
            (tmap2 Float.sub values_infer value_preds_batch)) in
  let error_clipped := tmap2 Float.sub return_batch value_pred_clipped in
  let error_unclipped := tmap2 Float.sub return_batch values_infer in
  let value_loss_clipped :=
    if _use_huber_loss self
    then tmap (fun e => huber_loss e (huber_delta self)) error_clipped
    else tmap mse_loss error_clipped in
  let value_loss_unclipped :=
    if _use_huber_loss self
    then tmap (fun e => huber_loss e (huber_delta self)) error_unclipped
    else tmap mse_loss error_unclipped in
  tmap2 Float.max value_loss_clipped value_loss_unclipped.

(** The per-token policy loss of lines 152-161, from the logits. *)
Definition policy_loss_tokens (agent_to_train : option Z)
    (logits_infer : tensor (list float)) (action_toks : tensor Z)
    (advantages_ log_probs_ : tensor float) : tensor float :=
  let pi_log_prob := tmap log_softmax logits_infer in
  let log_prob_infer :=
    tmap2 gather pi_log_prob (select_agent agent_to_train action_toks) in
  let entropy := tmap categorical_entropy logits_infer in
  token_losses (clip_param self) (entropy_coef self)
    (ratio_of log_prob_infer (select_agent agent_to_train log_probs_))
    (select_agent agent_to_train advantages_) entropy.

(** Forward and backward passes: the events of an accumulation loop. *)
Definition pass_event (e : event Agent) : bool :=
  match e with
  | Forward _ | Backward _ _ => true
  | _ => false
  end.

(** The forward passes work row by row, and no pass in between changes
    what they compute. *)
Definition rowwise_values (h : history Agent) (obs : list Obs)
    (toks : tensor Z) : Prop :=
  forall e start stop,
    Forall (fun ev => pass_event ev = true) e ->
    get_token_values (h ++ e) (py_slice obs start stop)
                     (py_slice toks start stop)
    = py_slice (get_token_values h obs toks) start stop.

Definition rowwise_logits (h : history Agent) (obs : list Obs)
    (toks : tensor Z) (agent_to_train : option Z) : Prop :=
  forall e start stop,
    Forall (fun ev => pass_event ev = true) e ->
    get_token_logits (h ++ e) (py_slice obs start stop)
                     (py_slice toks start stop) agent_to_train
    = py_slice (get_token_logits h obs toks agent_to_train) start stop.

(** [gradient_cp_steps] divides the batch size evenly. *)
Definition evenly_divided (batch_size : Z) : Prop :=
  0 < gradient_cp_steps self /\ 0 < batch_size
  /\ batch_size mod gradient_cp_steps self = 0.

(** A per-token loss and its mask, one row per batch entry, the loss
    finite, and every chunk's mask with the same sum [m], not 0. *)
Definition even_chunks (loss : tensor float) (mask : tensor Z)
    (batch_size cp_batch_size m : Z) : Prop :=
  finite_tensor loss
  /\ Z.of_nat (List.length loss) = batch_size
  /\ Z.of_nat (List.length mask) = batch_size
  /\ m <> 0
  /\ forall start, In start (py_range 0 batch_size cp_batch_size) ->
       tsumZ (py_slice mask start (start + cp_batch_size)) = m.
End Chunks.

(** The weight of a chunk of [c] rows in a batch of [k * c]. *)
Definition chunk_weight (c k : nat) : R :=
  (IZR (Z.of_nat c) / IZR (Z.of_nat (k * c)))%R.

(** Every chunk of [c] rows of the mask sums to [m]. *)
Definition chunk_sums (c k : nat) (m : Z) (mask : tensor Z) : Prop :=
  forall j, (j < k)%nat -> tsumZ (rows (j * c) c mask) = m.

(** What chunk [j] adds to [value_loss] and to [policy_loss]. *)
Definition value_chunk_term (coef : R) (c k : nat) (m : Z)
    (loss : tensor float) (mask : tensor Z) (j : nat) : R :=
  (rdot (rows (j * c) c loss) (rows (j * c) c mask) / IZR m
   * coef * chunk_weight c k)%R.

Definition policy_chunk_term (c k : nat) (m : Z)
    (loss : tensor float) (mask : tensor Z) (j : nat) : R :=
  (rdot (rows (j * c) c loss) (rows (j * c) c mask) / IZR m
   * chunk_weight c k)%R.

From Stdlib Require Import Ascii.
From Stdlib Require Decimal DecimalString DecimalZ.

(** ** Further definitions: chunks, configurations, reference runs *)

(** The chunks of lines 115-121 of a batch-indexed array, in order. *)
Definition chunks_of {A} (l : list A) (batch_size cp_batch_size : Z)
  : list (list A) :=
  map (fun start =>
         py_slice l start (chunk_end start cp_batch_size batch_size))
      (py_range 0 batch_size cp_batch_size).

(** [end - start] for every chunk: the numerators of the weights. *)
Definition chunk_sizes (batch_size cp_batch_size : Z) : list Z :=
  map (fun start => chunk_end start cp_batch_size batch_size - start)
      (py_range 0 batch_size cp_batch_size).

(** The per-token approximate KL and entropy of lines 152-161, from the
    logits. *)
Section KlTokens.
Context {B : Backend}.

Definition kl_tokens (agent_to_train : option Z)
    (logits_infer : tensor (list float)) (action_toks : tensor Z)
    (log_probs_ : tensor float) : tensor float :=
  tmap token_kl
       (ratio_of (tmap2 gather (tmap log_softmax logits_infer)
                        (select_agent agent_to_train action_toks))
                 (select_agent agent_to_train log_probs_)).

Definition entropy_tokens (logits_infer : tensor (list float))
  : tensor float :=
  tmap categorical_entropy logits_infer.

End KlTokens.

(** The effects of one [ppo_update], phase by phase.  [erase] forgets the
    loss [backward()] was called on, so that a trace can be compared with
    a pattern. *)
Section Traces.
Context {B : Backend}.

Definition erase (e : event Agent) : event Agent :=
  match e with
  | Backward n _ => Backward n (Fin 0)
  | e => e
  end.

(** One forward and one backward pass per chunk. *)
Definition passes (n : network) (chunks : nat) : history Agent :=
  List.concat (repeat [Forward n; Backward n (Fin 0)] chunks).

(** Lines 113-133. *)
Definition critic_trace (self : trainer) (chunks : nat) : history Agent :=
  [ZeroGrad CriticOpt] ++ passes Critic chunks
  ++ (if _use_max_grad_norm self
      then [ClipGradNorm CriticParams (max_grad_norm self)] else [])
  ++ [OptStep CriticOpt].

(** Lines 140-166. *)
Definition policy_trace (self : trainer) (chunks : nat) : history Agent :=
  map (fun k => ZeroGrad (PolicyOpt k)) (dict_keys (policy_optimizer self))
  ++ passes Policy chunks.

(** Lines 171-180, for the agents [ags] that are stepped. *)
Definition commit_trace (self : trainer) (ags : list Agent)
  : history Agent :=
  flat_map (agent_step_events self) ags.

(** The agents a commit steps: the selected one, or all of them. *)
Definition trained_agents (agent_to_train : option Z) : list Agent :=
  match agent_to_train with
  | Some a =>
      match py_getitem agents a with
      | Ok agent => [agent]
      | Raise _ => []
      end
  | None => agents
  end.

(** [cp_batch_size] after lines 105-109. *)
Definition cp_batch_size_value (self : trainer) (batch_size : Z) : Z :=
  if batch_size / gradient_cp_steps self =? 0 then 1
  else batch_size / gradient_cp_steps self.

(** A trainer on which no line of [ppo_update] can raise: the divisors
    of lines 88-89 and 105 are not 0, every agent has its optimizer, there
    is an agent, and with a rotation [num_agent] is the length of
    [mas.agents]. *)
Definition well_configured (self : trainer) : Prop :=
  divisors_nonzero self
  /\ optimizers_registered self
  /\ agents <> []
  /\ (0 < agent_iteration_interval self ->
      num_agent self = Z.of_nat (List.length agents)).

End Traces.

(** ** The critic update, chunk by chunk *)

Section CriticReference.
Context {B : Backend}.
Variable self : trainer.

(** What lines 107-109 print. *)
Definition cp_warning (batch_size : Z) : history Agent :=
  if batch_size / gradient_cp_steps self =? 0
  then [Print "gradient_cp_steps > batch_size, set cp_batch_size = 1"%string]
  else [].

(** The value loss each chunk of lines 115-126 sends to [backward()], in
    order: the masked mean of the chunk's per-token losses, times
    [value_loss_coef], times the chunk's weight.  The critic's forward
    pass of a chunk sees the passes of the chunks before it. *)
Fixpoint chunk_value_losses (starts : list Z) (batch_size cp_batch_size : Z)
    (rollout_obs : list Obs) (action_toks : tensor Z)
    (value_preds_ returns_ : tensor float) (token_mask : tensor Z)
    (h : history Agent) : list float :=
  match starts with
  | [] => []
  | start :: rest =>
      let end_ := chunk_end start cp_batch_size batch_size in
      let values_infer :=
        get_token_values h (py_slice rollout_obs start end_)
                         (py_slice action_toks start end_) in
      let loss :=
        (masked_mean
           (value_loss_tokens self values_infer
              (py_slice value_preds_ start end_)
              (py_slice returns_ start end_))
           (py_slice token_mask start end_)
         * Fin (value_loss_coef self)
         * Fin (IZR (end_ - start) / IZR batch_size))%fl in
      loss
      :: chunk_value_losses rest batch_size cp_batch_size rollout_obs
           action_toks value_preds_ returns_ token_mask
           (h ++ [Forward Critic; Backward Critic loss])
  end.

(** The forward and backward passes of the critic for these losses. *)
Definition critic_passes (losses : list float) : history Agent :=
  flat_map (fun loss => [Forward Critic; Backward Critic loss]) losses.

End CriticReference.

(** Every token of the minibatch is the pad token. *)
Definition all_pad {B : Backend} (toks : tensor Z) : Prop :=
  Forall (fun tok => tok = pad_token_id) (flatten toks).

Definition all_zero (mask : tensor Z) : Prop :=
  Forall (fun m => m = 0) (flatten mask).

(** A Python number, not a tensor. *)
Definition is_number (v : pyval) : Prop :=
  match v with
  | PyTensor _ => False
  | _ => True
  end.

(** ** [train] against a reference run *)

Section ReferenceRun.
Context {B : Backend}.
Variable self : trainer.

(** The six values [ppo_update] returns, by the names of line 205. *)
Definition d_value_loss (d : diagnostics) : pyval :=
  let '(v, _, _, _, _, _) := d in v.
Definition d_value_grad_norm (d : diagnostics) : pyval :=
  let '(_, v, _, _, _, _) := d in v.
Definition d_policy_loss (d : diagnostics) : pyval :=
  let '(_, _, v, _, _, _) := d in v.
Definition d_policy_grad_norm (d : diagnostics) : pyval :=
  let '(_, _, _, v, _, _) := d in v.
Definition d_approx_kl (d : diagnostics) : pyval :=
  let '(_, _, _, _, v, _) := d in v.
Definition d_entropy (d : diagnostics) : pyval :=
  let '(_, _, _, _, _, v) := d in v.

(** [ppo_update] on the minibatches, one after the other, with what each
    call returned. *)
Fixpoint run_updates (smps : list (sample Obs Act)) (global_steps : Z)
    (h : history Agent) : result (history Agent * list diagnostics) :=
  match smps with
  | [] => Ok (h, [])
  | smp :: rest =>
      '(h, d) <- ppo_update self h smp global_steps ;;
      '(h, ds) <- run_updates rest global_steps h ;;
      Ok (h, d :: ds)
  end.

(** The minibatches that [buffer.sample] yields over the epochs, in
    order, and the buffer after them. *)
Fixpoint sampled (epochs : nat) (buffer : Buffer)
  : list (sample Obs Act) * Buffer :=
  match epochs with
  | O => ([], buffer)
  | S epochs' =>
      let '(data_generator, buffer) :=
        buffer_sample buffer (num_mini_batch self) in
      let '(rest, buffer) := sampled epochs' buffer in
      (data_generator ++ rest, buffer)
  end.

(** A [train_info] dict, by its six entries in the order of lines
    191-198. *)
Definition train_info_of
    (value_loss value_grad_norm policy_loss_ policy_grad_norm entropy
       approx_kl : pyval) : dict pyval :=
  [("value_loss"%string, value_loss);
   ("value_grad_norm"%string, value_grad_norm);
   ("policy_loss"%string, policy_loss_);
   ("policy_grad_norm"%string, policy_grad_norm);
   ("entropy"%string, entropy);
   ("approx_kl"%string, approx_kl)].

(** [0. + v1 + v2 + ...], from left to right, and that sum over the
    number of values. *)
Definition total (vs : list pyval) : pyval :=
  fold_left py_add vs (PyFloat (Fin 0)).

Definition mean_of (vs : list pyval) : result pyval :=
  py_div_int (total vs) (Z.of_nat (List.length vs)).

(** [train], said directly: run the updates, then average each of the
    six values over the updates. *)
Definition train_reference (h : history Agent) (buffer : Buffer)
    (global_steps : Z) : result (history Agent * Buffer * dict pyval) :=
  let '(smps, buffer) := sampled (Z.to_nat (ppo_epoch self)) buffer in
  '(h, ds) <- run_updates smps global_steps h ;;
  value_loss <- mean_of (map d_value_loss ds) ;;
  value_grad_norm <- mean_of (map d_value_grad_norm ds) ;;
  policy_loss_ <- mean_of (map d_policy_loss ds) ;;
  policy_grad_norm <- mean_of (map d_policy_grad_norm ds) ;;
  entropy <- mean_of (map d_entropy ds) ;;
  approx_kl <- mean_of (map d_approx_kl ds) ;;
  Ok (h, buffer,
      train_info_of value_loss value_grad_norm policy_loss_
                    policy_grad_norm entropy approx_kl).

(** What [ppo_update] returns for the policy side before
    [warmup_steps]. *)
Definition policy_slots_zero (d : diagnostics) : Prop :=
  d_policy_loss d = PyInt 0 /\ d_policy_grad_norm d = PyInt 0
  /\ d_approx_kl d = PyInt 0 /\ d_entropy d = PyInt 0.

End ReferenceRun.

(** The steps of the critic optimizer in a stretch of history. *)
Definition critic_opt_step_event {Agent} (e : event Agent) : bool :=
  match e with
  | OptStep CriticOpt => true
  | _ => false
  end.

Definition critic_opt_steps {Agent} (h : history Agent) : nat :=
  List.length (filter critic_opt_step_event h).

(** ** Checkpoints of the optimizers

    [save_optimizers] and [load_optimizers] over an explicit world: the
    directories [os.makedirs] has ensured, the files [torch.save] has
    written (a path holds the checkpoint last saved there), and what was
    printed.  The state of an optimizer is what [state_dict()] returns
    and [load_state_dict] installs; [load_state_dict]'s own checks of the
    parameter groups are outside the model. *)

Module Checkpoint.

Definition starts_with_slash (s : string) : bool :=
  match s with
  | String c _ => Ascii.eqb c "/"%char
  | EmptyString => false
  end.

Fixpoint ends_with_slash (s : string) : bool :=
  match s with
  | EmptyString => false
  | String c EmptyString => Ascii.eqb c "/"%char
  | String _ s' => ends_with_slash s'
  end.

(** [os.path.join(a, b)] of [posixpath]. *)
Definition path_join (a b : string) : string :=
  if starts_with_slash b then b
  else if (String.length a =? 0)%nat || ends_with_slash a
       then (a ++ b)%string
       else (a ++ "/" ++ b)%string.

(** What [os.path.join] puts before the second component. *)
Definition dir_prefix (save_dir : string) : string :=
  if (String.length save_dir =? 0)%nat || ends_with_slash save_dir
  then save_dir else (save_dir ++ "/")%string.

Fixpoint zeros (n : nat) : string :=
  match n with
  | O => EmptyString
  | S n' => String "0"%char (zeros n')
  end.

(** ["{:04d}".format(z)]: the decimal digits of [|z|] after the sign,
    with zeros between sign and digits up to a width of 4. *)
Definition format_04d (z : Z) : string :=
  let sign := if z <? 0 then "-"%string else EmptyString in
  let digits := DecimalString.NilEmpty.string_of_int (Z.to_int (Z.abs z)) in
  (sign ++ zeros (4 - String.length sign - String.length digits)
        ++ digits)%string.

(** The integer a string of an optional [-] and decimal digits
    denotes. *)
Definition parse_int (s : string) : option Z :=
  option_map Z.of_int (DecimalString.NilEmpty.int_of_string s).

Section Store.
Variable OptState : Type.

(** The states of [self.policy_optimizer[role]] and of
    [self.critic_optimizer]. *)
Record optimizers : Type := {
  policy_states : dict OptState;
  critic_state : OptState
}.

(** The dict that [torch.save] writes. *)
Record checkpoint : Type := {
  policy_opt_states : dict OptState;
  critic_opt_state : OptState
}.

Record world : Type := {
  directories : list string;
  files : dict checkpoint;
  printed : list string
}.

Inductive io_exn : Type :=
| PyExn (e : exn)
| FileNotFoundError.

(** [os.makedirs(path, exist_ok=True)] *)
Definition makedirs (w : world) (path : string) : world :=
  {| directories :=
       if in_dec string_dec path (directories w) then directories w
       else directories w ++ [path];
     files := files w;
     printed := printed w |}.

(** [torch.save(obj, path)] *)
Definition torch_save (w : world) (obj : checkpoint) (path : string)
  : world :=
  {| directories := directories w;
     files := dict_set (files w) path obj;
     printed := printed w |}.

Definition print (w : world) (msg : string) : world :=
  {| directories := directories w;
     files := files w;
     printed := printed w ++ [msg] |}.

(** [{role: opt.state_dict() for role, opt in d.items()}] *)
Definition state_dicts (d : dict OptState) : dict OptState :=
  fold_left (fun acc kv => dict_set acc (fst kv) (snd kv)) d [].

Definition exp_path_of (save_dir : string) (steps : Z) : string :=
  path_join save_dir ("steps_" ++ format_04d steps)%string.

Definition save_optimizers (o : optimizers) (w : world)
    (save_dir : string) (steps : Z) : world :=
  let exp_path := exp_path_of save_dir steps in
  let w := makedirs w exp_path in
  let w :=
    torch_save w
      {| policy_opt_states := state_dicts (policy_states o);
         critic_opt_state := critic_state o |}
      (path_join exp_path "optimizers.pt") in
  print w ("[TPPOTrainer] optimizer states saved -> " ++ exp_path)%string.

(** Lines 237-239: the loop over the saved roles.  The states loaded
    before an exception stay loaded. *)
Fixpoint load_states (items : list (string * OptState))
    (states : dict OptState) : dict OptState * option exn :=
  match items with
  | [] => (states, None)
  | (role, opt_state) :: rest =>
      match dict_get states role with
      | Raise e => (states, Some e)
      | Ok _ => load_states rest (dict_set states role opt_state)
      end
  end.

(** [load_optimizers]: the optimizers and the world after the call, and
    the exception it ended with, if any. *)
Definition load_optimizers (o : optimizers) (w : world) (path : string)
  : optimizers * world * option io_exn :=
  match dict_get (files w) path with
  | Raise _ => (o, w, Some FileNotFoundError)
  | Ok ckpt =>
      match load_states (policy_opt_states ckpt) (policy_states o) with
      | (states, Some e) =>
          ({| policy_states := states; critic_state := critic_state o |},
           w, Some (PyExn e))
      | (states, None) =>
          ({| policy_states := states;
              critic_state := critic_opt_state ckpt |},
           print w ("[TPPOTrainer] optimizer states loaded <- " ++ path)%string,
           None)
      end
  end.

End Store.

End Checkpoint.

(** * Properties *)

Unset Implicit Arguments.

(** ** The result monad *)

Lemma bind_Ok {A C} (m : result A) (k : A -> result C) (c : C) :
  bind m k = Ok c -> exists a, m = Ok a /\ k a = Ok c.
Proof.
  destruct m as [a | e]; simpl; intros H; [eauto | discriminate].
Qed.

Ltac inv_bind H :=
  let a := fresh "a" in
  let Ha := fresh "Ha" in
  apply bind_Ok in H; destruct H as (a & Ha & H).

(** ** Agent rotation *)

Section Rotation.
Variable self : trainer.

Lemma agent_to_train_rotating (global_steps : Z) :
  0 < agent_iteration_interval self ->
  num_agent self <> 0 ->
  agent_to_train_of self global_steps
  = Ok (Some ((global_steps / agent_iteration_interval self + 1)
              mod num_agent self)).
Proof.
  intros HI HN. unfold agent_to_train_of, py_floordiv, py_mod.
  destruct (Z.ltb_spec 0 (agent_iteration_interval self)); [| lia].
  destruct (Z.eqb_spec (agent_iteration_interval self) 0); [lia |].
  simpl. destruct (Z.eqb_spec (num_agent self) 0); [contradiction |].
  reflexivity.
Qed.

Lemma agent_to_train_joint (global_steps : Z) :
  agent_iteration_interval self <= 0 ->
  agent_to_train_of self global_steps = Ok None.
Proof.
  intros HI. unfold agent_to_train_of.
  destruct (Z.ltb_spec 0 (agent_iteration_interval self)); [lia |].
  reflexivity.
Qed.

Lemma time_slice_in_window (global_steps k I : Z) :
  0 < I -> k * I <= global_steps < (k + 1) * I -> global_steps / I = k.
Proof.
  intros HI [Hlo Hhi]. symmetry.
  apply Z.div_unique with (r := global_steps - k * I); lia.
Qed.
End Rotation.

(** ** Histories only grow; who adds what *)

Section Phases.
Context {B : Backend}.
Variable self : trainer.

Lemma quiet_no_policy_step e : quiet e -> no_policy_step e.
Proof.
  apply Forall_impl. intros [o | n | n l | p m | o | s]; simpl;
    try reflexivity; destruct o; simpl; congruence.
Qed.

Lemma py_range_empty_batch (cp : Z) : py_range 0 0 cp = [].
Proof.
  unfold py_range.
  destruct (Z.ltb_spec 0 cp).
  - replace ((0 - 0 + cp - 1) / cp) with 0; [reflexivity |].
    symmetry. apply Z.div_small. lia.
  - destruct (Z.ltb_spec cp 0); [| reflexivity].
    replace ((0 - 0 - cp - 1) / - cp) with 0; [reflexivity |].
    symmetry. apply Z.div_small. lia.
Qed.

Lemma py_range_runs (batch_size cp : Z) :
  py_range 0 batch_size cp = [] \/ batch_size <> 0.
Proof.
  destruct (Z.eq_dec batch_size 0) as [-> | H]; [left | right; exact H].
  apply py_range_empty_batch.
Qed.

Lemma agent_to_train_total (global_steps : Z) :
  divisors_nonzero self ->
  exists a, agent_to_train_of self global_steps = Ok a.
Proof.
  intros [HN _].
  destruct (Z.lt_ge_cases 0 (agent_iteration_interval self)) as [HI | HI].
  - eexists. apply agent_to_train_rotating; auto.
  - eexists. apply agent_to_train_joint. lia.
Qed.

Lemma cp_batch_size_total (h : history Agent) (batch_size : Z) :
  gradient_cp_steps self <> 0 ->
  exists e cp, cp_batch_size_of self h batch_size = Ok (h ++ e, cp)
               /\ quiet e /\ cp <> 0.
Proof.
  intros Hcp. unfold cp_batch_size_of, py_floordiv.
  destruct (Z.eqb_spec (gradient_cp_steps self) 0); [contradiction |].
  simpl.
  destruct (Z.eqb_spec (batch_size / gradient_cp_steps self) 0).
  - eexists _, 1. repeat split; [| lia].
    constructor; [reflexivity | constructor].
  - exists [], (batch_size / gradient_cp_steps self).
    rewrite app_nil_r. repeat split; [constructor | assumption].
Qed.

Lemma critic_loop_total starts batch_size cp obs toks vp ret mask :
  starts = [] \/ batch_size <> 0 ->
  forall h vl,
  exists e vl',
    critic_loop self starts batch_size cp obs toks vp ret mask h vl
    = Ok (h ++ e, vl') /\ quiet e.
Proof.
  intros Hrun. induction starts as [| start rest IH]; intros h vl.
  - exists [], vl. simpl. rewrite app_nil_r. split; constructor.
  - destruct Hrun as [Hnil | HB]; [discriminate |].
    cbn [critic_loop]. unfold py_truediv.
    destruct (Z.eqb_spec batch_size 0); [contradiction |]. cbn [bind].
    match goal with
    | |- context [critic_loop _ _ _ _ _ _ _ _ _ ?h' ?vl'] =>
        destruct (IH (or_intror HB) h' vl') as (e & vl2 & Heq & Hq)
    end.
    rewrite Heq. eexists (_ :: _ :: e), vl2. split.
    + rewrite <- !app_assoc. reflexivity.
    + repeat constructor. exact Hq.
Qed.

Lemma critic_step_events (h : history Agent) :
  exists e g, critic_step self h = (h ++ e ++ [OptStep CriticOpt], g)
              /\ quiet e.
Proof.
  unfold critic_step. destruct (_use_max_grad_norm self); simpl.
  - eexists [_], _. rewrite <- app_assoc. split; [reflexivity |].
    repeat constructor.
  - exists [], (get_gard_norm h CriticParams).
    split; [reflexivity | constructor].
Qed.

Lemma quiet_app e1 e2 : quiet e1 -> quiet e2 -> quiet (e1 ++ e2).
Proof. intros. apply Forall_app. split; assumption. Qed.

(** Lines 87-133 return whenever the two divisors are not 0; what they
    add to the history has no event of the policy side and ends with the
    critic optimizer's step. *)
Lemma critic_update_total h smp global_steps :
  divisors_nonzero self ->
  exists e a cp value_loss critic_grad_norm,
    critic_update self h smp global_steps
    = Ok (h ++ e ++ [OptStep CriticOpt], a, cp, value_loss,
          critic_grad_norm)
    /\ quiet e /\ In (ZeroGrad CriticOpt) e
    /\ agent_to_train_of self global_steps = Ok a.
Proof.
  intros Hd. destruct (agent_to_train_total global_steps Hd) as (a & Ha).
  destruct Hd as [_ Hcp].
  unfold critic_update. rewrite Ha. simpl.
  set (bs := Z.of_nat (List.length (rollout_observations smp))).
  destruct (cp_batch_size_total h bs Hcp) as (e1 & cp & H1 & Hq1 & _).
  rewrite H1. simpl.
  match goal with
  | |- context [critic_loop _ ?s ?b ?c ?o ?t ?v ?r ?m ?h0 ?vl0] =>
      destruct (critic_loop_total s b c o t v r m (py_range_runs b c) h0 vl0)
        as (e2 & vl & H2 & Hq2)
  end.
  rewrite H2. simpl.
  match goal with
  | |- context [critic_step _ ?h0] =>
      destruct (critic_step_events h0) as (e3 & cgn & H3 & Hq3)
  end.
  rewrite H3.
  exists (e1 ++ ZeroGrad CriticOpt :: e2 ++ e3), a, cp, vl, cgn.
  repeat split.
  - repeat (rewrite <- app_assoc; simpl). reflexivity.
  - apply quiet_app; [assumption |]. constructor; [reflexivity |].
    apply quiet_app; assumption.
  - apply in_or_app. right. left. reflexivity.
Qed.

Lemma policy_loop_total starts batch_size cp a obs toks adv lp mask :
  starts = [] \/ batch_size <> 0 ->
  forall h acc,
  exists e acc',
    policy_loop self starts batch_size cp a obs toks adv lp mask h acc
    = Ok (h ++ e, acc') /\ no_policy_step e.
Proof.
  intros Hrun. induction starts as [| start rest IH]; intros h acc.
  - exists [], acc. simpl. rewrite app_nil_r. split; constructor.
  - destruct Hrun as [Hnil | HB]; [discriminate |].
    cbn [policy_loop]. unfold py_truediv.
    destruct (Z.eqb_spec batch_size 0); [contradiction |]. cbn [bind].
    destruct (cal_policy_loss _ _ _ _ _ _) as [[pl kl] en].
    match goal with
    | |- context [policy_loop _ _ _ _ _ _ _ _ _ _ ?h' ?acc'] =>
        destruct (IH (or_intror HB) h' acc') as (e & acc2 & Heq & Hq)
    end.
    rewrite Heq. eexists (_ :: _ :: e), acc2. split.
    + rewrite <- !app_assoc. reflexivity.
    + repeat constructor. exact Hq.
Qed.

(** Lines 140-166 always return; they step no optimizer. *)
Lemma policy_accumulate_total h smp a cp :
  exists e acc,
    policy_accumulate self h smp a cp = Ok (h ++ e, acc)
    /\ no_policy_step e.
Proof.
  unfold policy_accumulate.
  match goal with
  | |- context [policy_loop _ ?s ?b ?c ?a' ?o ?t ?v ?r ?m ?h0 ?acc0] =>
      destruct (policy_loop_total s b c a' o t v r m (py_range_runs b c)
                                  h0 acc0)
        as (e2 & acc & H2 & Hq2)
  end.
  rewrite H2. eexists (_ ++ e2), acc. split.
  - rewrite <- app_assoc. reflexivity.
  - apply Forall_app. split; [| assumption].
    apply Forall_forall. intros ev Hin. apply in_map_iff in Hin.
    destruct Hin as (k & <- & _). reflexivity.
Qed.

End Phases.

(** ** The policy step *)

Section Commit.
Context {B : Backend}.
Variable self : trainer.

Lemma agent_step_registered h agent :
  dict_get (policy_optimizer self) (role agent) = Ok tt ->
  agent_step self h agent
  = Ok (h ++ agent_step_events self agent,
        clip_grad_norm_ h (AgentParams agent) (max_grad_norm self)).
Proof.
  intros Hreg. unfold agent_step, policy_opt_step. rewrite Hreg. simpl.
  rewrite <- app_assoc. reflexivity.
Qed.

Lemma last_cons_default {A} (x : A) (l : list A) (d d' : A) :
  last (x :: l) d = last (x :: l) d'.
Proof.
  revert x. induction l as [| y l IH]; intros x; [reflexivity |].
  change (last (y :: l) d = last (y :: l) d'). apply IH.
Qed.

Lemma joint_step_registered ags :
  (forall agent, In agent ags ->
                 dict_get (policy_optimizer self) (role agent) = Ok tt) ->
  forall h g total,
    joint_step self ags h g total
    = Ok (h ++ flat_map (agent_step_events self) ags,
          last (map Some (joint_norms self h ags)) g,
          fold_left Float.add (joint_norms self h ags) total).
Proof.
  induction ags as [| agent rest IH]; intros Hreg h g total.
  - simpl. rewrite app_nil_r. reflexivity.
  - cbn [joint_step]. rewrite agent_step_registered by (apply Hreg; left; reflexivity).
    cbn [bind]. rewrite IH by (intros; apply Hreg; right; assumption).
    cbn [flat_map joint_norms map fold_left].
    rewrite <- app_assoc. f_equal. f_equal. f_equal.
    destruct (joint_norms self (h ++ agent_step_events self agent) rest)
      as [| f l]; [reflexivity |].
    cbn [map]. apply (last_cons_default (Some f) (map Some l)).
Qed.

Lemma joint_norms_snoc h front agent :
  joint_norms self h (front ++ [agent])
  = joint_norms self h front
    ++ [clip_grad_norm_ (h ++ flat_map (agent_step_events self) front)
                        (AgentParams agent) (max_grad_norm self)].
Proof.
  revert h. induction front as [| a front IH]; intros h.
  - simpl. rewrite app_nil_r. reflexivity.
  - cbn [app joint_norms flat_map]. rewrite IH.
    rewrite <- app_assoc. reflexivity.
Qed.

(** In a joint update every agent's gradient is clipped and every
    agent's optimizer stepped, in the order of [mas.agents]. *)
Lemma policy_commit_joint h :
  optimizers_registered self ->
  policy_commit self h None
  = Ok (h ++ flat_map (agent_step_events self) agents,
        last (map Some (joint_norms self h agents)) None,
        fold_left Float.add (joint_norms self h agents) (Fin 0)).
Proof.
  intros Hreg. unfold policy_commit. apply joint_step_registered.
  exact Hreg.
Qed.

(** [__init__] registers every agent's role. *)
Lemma dict_get_set {V} (d : dict V) k v : dict_get (dict_set d k v) k = Ok v.
Proof.
  induction d as [| [k' v'] d IH]; simpl.
  - rewrite String.eqb_refl. reflexivity.
  - destruct (String.eqb k k') eqn:E; simpl; rewrite E; [reflexivity | exact IH].
Qed.

Lemma dict_get_set_keep {V} (d : dict V) k k' (v v' : V) :
  dict_get d k = Ok v -> exists w, dict_get (dict_set d k' v') k = Ok w.
Proof.
  induction d as [| [k0 v0] d IH]; simpl; [discriminate |].
  destruct (String.eqb k' k0) eqn:E'; simpl.
  - destruct (String.eqb k k0); eauto.
  - destruct (String.eqb k k0); eauto.
Qed.

Lemma init_registers a : optimizers_registered (init a).
Proof.
  unfold optimizers_registered, init. simpl.
  assert (G : forall ags (d : dict unit) agent,
             In agent ags \/ (exists w, dict_get d (role agent) = Ok w) ->
             exists w, dict_get
               (fold_left (fun d ag => dict_set d (role ag) tt) ags d)
               (role agent) = Ok w).
  { induction ags as [| ag ags IH]; intros d agent [Hin | Hd]; simpl.
    - destruct Hin.
    - exact Hd.
    - apply IH. destruct Hin as [-> | Hin]; [right | left; exact Hin].
      eexists. apply dict_get_set.
    - apply IH. right. destruct Hd as (w & Hw).
      eapply dict_get_set_keep. exact Hw. }
  intros agent Hin. destruct (G agents [] agent (or_introl Hin)) as ([] & Hw).
  exact Hw.
Qed.

End Commit.

(** ** The epoch driver *)

Section Train.
Context {B : Backend}.
Variable self : trainer.

Lemma epoch_loop_yields_nothing epochs : forall buffer global_steps h,
  yields_nothing epochs buffer (num_mini_batch self) ->
  exists buffer',
    epoch_loop self epochs buffer global_steps h train_info0 0
    = Ok (h, buffer', train_info0, 0).
Proof.
  induction epochs as [| epochs IH]; intros buffer global_steps h Hy.
  - eexists. reflexivity.
  - destruct Hy as [Hnil Hy]. cbn [epoch_loop].
    destruct (buffer_sample buffer (num_mini_batch self)) as [gen buffer1].
    simpl in Hnil, Hy. subst gen. cbn [minibatch_loop bind].
    apply IH. exact Hy.
Qed.
End Train.

(** ** The claims on control flow *)

Section Gates.
Context {B : Backend}.
Variable self : trainer.

(** C4.  With [agent_iteration_interval = I > 0] and [num_agent = N]
    (not 0, so that [% N] is defined), [ppo_update] selects
    [agent_to_train = (global_steps // I + 1) % N]; for [global_steps]
    in [[k*I, (k+1)*I)] that is [(k+1) % N].  With [I <= 0] there is no
    [agent_to_train], and the policy step clips and steps every agent of
    [mas.agents] in turn. *)
Theorem agent_rotation (global_steps k : Z) (h : history Agent) :
  let I := agent_iteration_interval self in
  let N := num_agent self in
  (0 < I -> N <> 0 ->
   agent_to_train_of self global_steps
   = Ok (Some ((global_steps / I + 1) mod N)))
  /\ (0 < I -> N <> 0 -> k * I <= global_steps < (k + 1) * I ->
      agent_to_train_of self global_steps = Ok (Some ((k + 1) mod N)))
  /\ (I <= 0 ->
      agent_to_train_of self global_steps = Ok None
      /\ (optimizers_registered self ->
          exists g t,
            policy_commit self h None
            = Ok (h ++ flat_map (agent_step_events self) agents, g, t))).
Proof.
  cbv zeta. split; [| split].
  - intros HI HN. apply agent_to_train_rotating; assumption.
  - intros HI HN Hk.
    rewrite agent_to_train_rotating by assumption.
    rewrite (time_slice_in_window global_steps k _ HI Hk). reflexivity.
  - intros HI. split; [apply agent_to_train_joint; exact HI |].
    intros Hreg. eexists _, _. apply policy_commit_joint. exact Hreg.
Qed.

(** C1.  From [warmup_steps] on, the critic update and the policy
    accumulation both run; when the accumulated approximate KL exceeds
    [1.7e-6], [ppo_update] returns [(value_loss, critic_grad_norm, 0, 0,
    total_approx_kl, total_entropy)].  The history then holds the critic
    optimizer's step, made before the gate, and no step of a policy
    optimizer. *)
Theorem kl_gate (h : history Agent) (smp : sample Obs Act)
    (global_steps : Z) :
  divisors_nonzero self ->
  warmup_steps self <= global_steps ->
  exists e1 a cp value_loss critic_grad_norm e2 acc,
    let h1 := h ++ e1 ++ [OptStep CriticOpt] in
    critic_update self h smp global_steps
    = Ok (h1, a, cp, value_loss, critic_grad_norm)
    /\ policy_accumulate self h1 smp a cp = Ok (h1 ++ e2, acc)
    /\ no_policy_step e1 /\ no_policy_step e2
    /\ (Float.gtb (total_approx_kl acc) kl_threshold = true ->
        ppo_update self h smp global_steps
        = Ok (h1 ++ e2,
              (value_loss, PyFloat critic_grad_norm, PyInt 0, PyInt 0,
               PyFloat (total_approx_kl acc),
               PyFloat (total_entropy acc)))).
Proof.
  intros Hd Hw.
  destruct (critic_update_total self h smp global_steps Hd)
    as (e1 & a & cp & vl & cgn & Hc & Hq & _ & _).
  destruct (policy_accumulate_total self (h ++ e1 ++ [OptStep CriticOpt])
                                    smp a cp)
    as (e2 & acc & Hp & Hs).
  exists e1, a, cp, vl, cgn, e2, acc. cbv zeta.
  repeat split; try assumption.
  - apply quiet_no_policy_step. exact Hq.
  - intros Hkl. unfold ppo_update. rewrite Hc. cbn [bind].
    destruct (Z.ltb_spec global_steps (warmup_steps self)); [lia |].
    rewrite Hp. cbn [bind]. rewrite Hkl. reflexivity.
Qed.

(** C9.  In a joint update that passes the KL gate, with [last_agent]
    the last of [mas.agents], the [policy_grad_norm] that [ppo_update]
    returns is the tensor [clip_grad_norm_] returned for [last_agent];
    the sum of all agents' norms is what [total_policy_grad_norm] holds
    at the end of the loop, and it is not returned. *)
Theorem joint_update_returns_last_norm (h : history Agent)
    (smp : sample Obs Act) (global_steps : Z)
    (front : list Agent) (last_agent : Agent) :
  divisors_nonzero self ->
  optimizers_registered self ->
  agent_iteration_interval self <= 0 ->
  warmup_steps self <= global_steps ->
  agents = front ++ [last_agent] ->
  exists h1 cp value_loss critic_grad_norm h2 acc,
    critic_update self h smp global_steps
    = Ok (h1, None, cp, value_loss, critic_grad_norm)
    /\ policy_accumulate self h1 smp None cp = Ok (h2, acc)
    /\ (Float.gtb (total_approx_kl acc) kl_threshold = false ->
        let h_last := h2 ++ flat_map (agent_step_events self) front in
        let last_norm :=
          clip_grad_norm_ h_last (AgentParams last_agent)
                          (max_grad_norm self) in
        policy_commit self h2 None
        = Ok (h_last ++ agent_step_events self last_agent,
              Some last_norm,
              fold_left Float.add (joint_norms self h2 agents) (Fin 0))
        /\ ppo_update self h smp global_steps
           = Ok (h_last ++ agent_step_events self last_agent,
                 (value_loss, PyFloat critic_grad_norm,
                  PyFloat (policy_loss acc), PyTensor last_norm,
                  PyFloat (total_approx_kl acc),
                  PyFloat (total_entropy acc)))).
Proof.
  intros Hd Hreg HI Hw Hags.
  destruct (critic_update_total self h smp global_steps Hd)
    as (e1 & a & cp & vl & cgn & Hc & _ & _ & Ha).
  rewrite (agent_to_train_joint self global_steps HI) in Ha.
  injection Ha as <-.
  destruct (policy_accumulate_total self (h ++ e1 ++ [OptStep CriticOpt])
                                    smp None cp)
    as (e2 & acc & Hp & _).
  eexists _, cp, vl, cgn, _, acc. split; [exact Hc |].
  split; [exact Hp |]. intros Hkl. cbv zeta.
  set (h2 := (h ++ e1 ++ [OptStep CriticOpt]) ++ e2) in *.
  assert (Hcommit :
    policy_commit self h2 None
    = Ok ((h2 ++ flat_map (agent_step_events self) front)
          ++ agent_step_events self last_agent,
          Some (clip_grad_norm_
                  (h2 ++ flat_map (agent_step_events self) front)
                  (AgentParams last_agent) (max_grad_norm self)),
          fold_left Float.add (joint_norms self h2 agents) (Fin 0))).
  { rewrite (policy_commit_joint self _ Hreg).
    replace (last (map Some (joint_norms self h2 agents)) None)
      with (Some (clip_grad_norm_
                    (h2 ++ flat_map (agent_step_events self) front)
                    (AgentParams last_agent) (max_grad_norm self))).
    - rewrite Hags at 1. rewrite flat_map_app. cbn [flat_map].
      rewrite app_nil_r, app_assoc. reflexivity.
    - rewrite Hags, joint_norms_snoc, map_app. cbn [map].
      rewrite last_last. reflexivity. }
  split; [exact Hcommit |].
  unfold ppo_update. rewrite Hc. cbn [bind].
  destruct (Z.ltb_spec global_steps (warmup_steps self)); [lia |].
  rewrite Hp. cbn [bind]. rewrite Hkl, Hcommit. reflexivity.
Qed.

(** C10.  When [buffer.sample] yields no minibatch in any of the
    [ppo_epoch] passes (none at all when [ppo_epoch <= 0]),
    [update_time] is still 0 at line 216 and [train] raises
    [ZeroDivisionError] instead of returning [train_info]. *)
Theorem train_without_minibatch_raises (h : history Agent)
    (buffer : Buffer) (global_steps : Z) :
  yields_nothing (Z.to_nat (ppo_epoch self)) buffer (num_mini_batch self) ->
  train self h buffer global_steps = Raise ZeroDivisionError.
Proof.
  intros Hy. unfold train.
  destruct (epoch_loop_yields_nothing self _ buffer global_steps h Hy)
    as (buffer' & ->).
  reflexivity.
Qed.

End Gates.

(** ** Floats and tensors *)

Section FloatFacts.
Open Scope R_scope.

Lemma Reqb_true a b : a = b -> Reqb a b = true.
Proof.
  intros. unfold Reqb. destruct (Req_dec_T a b); [reflexivity | contradiction].
Qed.

Lemma Reqb_false a b : a <> b -> Reqb a b = false.
Proof.
  intros. unfold Reqb. destruct (Req_dec_T a b); [contradiction | reflexivity].
Qed.

Lemma Rltb_true a b : a < b -> Rltb a b = true.
Proof.
  intros. unfold Rltb. destruct (Rlt_dec a b); [reflexivity | contradiction].
Qed.

Lemma Rltb_false a b : ~ a < b -> Rltb a b = false.
Proof.
  intros. unfold Rltb. destruct (Rlt_dec a b); [contradiction | reflexivity].
Qed.

Lemma div_Fin a b : b <> 0 -> Float.div (Fin a) (Fin b) = Fin (a / b).
Proof. intros Hb. simpl. rewrite Reqb_false by exact Hb. reflexivity. Qed.

Lemma sqrt_Fin a : 0 <= a -> Float.sqrt (Fin a) = Fin (R_sqrt.sqrt a).
Proof. intros Ha. simpl. rewrite Rltb_false by lra. reflexivity. Qed.

Lemma log_exp (x : float) : Float.log (Float.exp x) = x.
Proof.
  destruct x as [a | [|] |]; simpl; try reflexivity.
  - pose proof (exp_pos a).
    rewrite Reqb_false by lra. rewrite Rltb_false by lra.
    rewrite ln_exp. reflexivity.
  - rewrite Reqb_true by reflexivity. reflexivity.
Qed.

Lemma mul_zero_or_nan x : zero_or_nan (x * of_Z 0)%fl.
Proof.
  destruct x as [a | s |]; simpl.
  - left. f_equal. lra.
  - right. rewrite Reqb_true by reflexivity. reflexivity.
  - right. reflexivity.
Qed.

Lemma add_zero_or_nan x y :
  zero_or_nan x -> zero_or_nan y -> zero_or_nan (x + y)%fl.
Proof.
  intros [-> | ->] [-> | ->]; simpl; [left; f_equal; lra | right ..];
    reflexivity.
Qed.

Lemma fsum_zero_or_nan l : Forall zero_or_nan l -> zero_or_nan (fsum l).
Proof.
  induction 1 as [| x l Hx _ IH]; simpl.
  - left. reflexivity.
  - apply add_zero_or_nan; assumption.
Qed.

Lemma div_zero_or_nan x : zero_or_nan x -> (x / of_Z 0)%fl = NaN.
Proof.
  intros [-> | ->]; simpl; [| reflexivity].
  rewrite !Reqb_true by reflexivity. reflexivity.
Qed.
End FloatFacts.

Section ListFacts.
Context {A B C D : Type}.

Lemma map2_ext (f g : A -> B -> C) l l' :
  (forall x y, f x y = g x y) -> map2 f l l' = map2 g l l'.
Proof. intros H. unfold map2. apply map_ext. intros [x y]. apply H. Qed.

Lemma map2_map_l (f : D -> B -> C) (g : A -> D) l l' :
  map2 f (map g l) l' = map2 (fun x y => f (g x) y) l l'.
Proof.
  revert l'. induction l as [| x l IH]; intros [| y l']; try reflexivity.
  unfold map2 in *. simpl. f_equal. apply IH.
Qed.

Lemma map2_map_r (f : A -> D -> C) (g : B -> D) l l' :
  map2 f l (map g l') = map2 (fun x y => f x (g y)) l l'.
Proof.
  revert l'. induction l as [| x l IH]; intros [| y l']; try reflexivity.
  unfold map2 in *. simpl. f_equal. apply IH.
Qed.

Lemma map_map2 (g : C -> D) (f : A -> B -> C) l l' :
  map g (map2 f l l') = map2 (fun x y => g (f x y)) l l'.
Proof. unfold map2. rewrite map_map. reflexivity. Qed.

Lemma in_map2 (f : A -> B -> C) l l' z :
  In z (map2 f l l') -> exists x y, In x l /\ In y l' /\ z = f x y.
Proof.
  unfold map2. intros Hin. apply in_map_iff in Hin.
  destruct Hin as ([x y] & <- & Hin).
  exists x, y. repeat split.
  - eapply in_combine_l. exact Hin.
  - eapply in_combine_r. exact Hin.
Qed.
End ListFacts.

Section ListFacts2.
Context {A B C D E : Type}.

Lemma map2_diag (f : C -> D -> E) (g : A -> B -> C) (k : A -> B -> D) l l' :
  map2 f (map2 g l l') (map2 k l l')
  = map2 (fun x y => f (g x y) (k x y)) l l'.
Proof.
  revert l'. induction l as [| x l IH]; intros [| y l']; try reflexivity.
  unfold map2 in *. simpl. f_equal. apply IH.
Qed.

Lemma map2_self (f : A -> A -> C) l : map2 f l l = map (fun x => f x x) l.
Proof.
  induction l as [| x l IH]; [reflexivity |].
  unfold map2 in *. simpl. f_equal. apply IH.
Qed.
End ListFacts2.

Section FlattenFacts.
Context {A : Type}.

Lemma in_flatten (t : tensor A) x :
  In x (flatten t) <-> exists r c, In r t /\ In c r /\ In x c.
Proof.
  unfold flatten. rewrite in_concat. split.
  - intros (c & Hc & Hx). apply in_concat in Hc.
    destruct Hc as (r & Hr & Hc). eauto.
  - intros (r & c & Hr & Hc & Hx). exists c. split; [| exact Hx].
    apply in_concat. eauto.
Qed.

End FlattenFacts.

Section TensorFacts.
Context {A B C D E : Type}.

Lemma tmap_ext (f g : A -> B) t :
  (forall x, f x = g x) -> tmap f t = tmap g t.
Proof.
  intros H. unfold tmap.
  apply map_ext; intros r. apply map_ext; intros c; cbv beta. apply map_ext, H.
Qed.

Lemma tmap_tmap (g : B -> C) (f : A -> B) t :
  tmap g (tmap f t) = tmap (fun x => g (f x)) t.
Proof.
  unfold tmap. rewrite map_map.
  apply map_ext; intros r; cbv beta. rewrite map_map.
  apply map_ext; intros c; cbv beta. apply map_map.
Qed.

Lemma tmap2_tmap_l (f : D -> B -> C) (g : A -> D) t t' :
  tmap2 f (tmap g t) t' = tmap2 (fun x y => f (g x) y) t t'.
Proof.
  unfold tmap2, tmap. rewrite map2_map_l.
  apply map2_ext; intros r r'; cbv beta. rewrite map2_map_l.
  apply map2_ext; intros c c'; cbv beta. apply map2_map_l.
Qed.

Lemma tmap2_tmap_r (f : A -> D -> C) (g : B -> D) t t' :
  tmap2 f t (tmap g t') = tmap2 (fun x y => f x (g y)) t t'.
Proof.
  unfold tmap2, tmap. rewrite map2_map_r.
  apply map2_ext; intros r r'; cbv beta. rewrite map2_map_r.
  apply map2_ext; intros c c'; cbv beta. apply map2_map_r.
Qed.

Lemma tmap_tmap2 (g : C -> D) (f : A -> B -> C) t t' :
  tmap g (tmap2 f t t') = tmap2 (fun x y => g (f x y)) t t'.
Proof.
  unfold tmap2, tmap. rewrite map_map2.
  apply map2_ext; intros r r'; cbv beta. rewrite map_map2.
  apply map2_ext; intros c c'; cbv beta. apply map_map2.
Qed.

Lemma tmap2_diag (f : C -> D -> E) (g : A -> B -> C) (k : A -> B -> D) t t' :
  tmap2 f (tmap2 g t t') (tmap2 k t t')
  = tmap2 (fun x y => f (g x y) (k x y)) t t'.
Proof.
  unfold tmap2. rewrite map2_diag.
  apply map2_ext; intros r r'; cbv beta. rewrite map2_diag.
  apply map2_ext; intros c c'; cbv beta. apply map2_diag.
Qed.

Lemma tmap2_self (f : A -> A -> C) t : tmap2 f t t = tmap (fun x => f x x) t.
Proof.
  unfold tmap2, tmap. rewrite map2_self.
  apply map_ext; intros r; cbv beta. rewrite map2_self.
  apply map_ext; intros c; cbv beta. apply map2_self.
Qed.

Lemma flatten_tmap (f : A -> B) t : flatten (tmap f t) = map f (flatten t).
Proof.
  unfold flatten, tmap. rewrite !concat_map. reflexivity.
Qed.

Lemma in_flatten_tmap2 (f : A -> B -> C) t t' z :
  In z (flatten (tmap2 f t t')) ->
  exists x y, In x (flatten t) /\ In y (flatten t') /\ z = f x y.
Proof.
  intros Hin. apply in_flatten in Hin.
  destruct Hin as (r & c & Hr & Hc & Hz).
  apply in_map2 in Hr. destruct Hr as (r1 & r2 & Hr1 & Hr2 & ->).
  apply in_map2 in Hc. destruct Hc as (c1 & c2 & Hc1 & Hc2 & ->).
  apply in_map2 in Hz. destruct Hz as (x & y & Hx & Hy & ->).
  exists x, y. repeat split; apply in_flatten; eauto.
Qed.
End TensorFacts.

(** ** The losses *)

Section Losses.
Context {B : Backend}.
Variable self : trainer.

(** [cal_policy_loss], token by token. *)
Lemma cal_policy_loss_tokens
    (log_prob_infer log_prob_old advantages_ entropy : tensor float)
    (mask : tensor Z) :
  let r := ratio_of log_prob_infer log_prob_old in
  cal_policy_loss self log_prob_infer log_prob_old advantages_ entropy mask
  = (masked_mean (token_losses (clip_param self) (entropy_coef self)
                               r advantages_ entropy) mask,
     masked_mean (tmap token_kl r) mask,
     masked_mean entropy mask).
Proof.
  cbv zeta. unfold cal_policy_loss.
  assert (Hr : tmap Float.exp (tmap2 Float.sub log_prob_infer log_prob_old)
               = ratio_of log_prob_infer log_prob_old).
  { unfold ratio_of. apply tmap_tmap2. }
  apply f_equal2; [apply f_equal2 |]; [| | reflexivity].
  - (* the loss *)
    rewrite Hr. unfold token_losses, token_surrogate.
    rewrite !tmap2_tmap_l, tmap2_diag, tmap2_tmap_r. reflexivity.
  - (* the approximate KL *)
    rewrite <- Hr.
    set (lr := tmap2 Float.sub log_prob_infer log_prob_old).
    assert (Hk : tmap2 Float.sub
                   (tmap (fun w => (w - Fin 1)%fl) (tmap Float.exp lr)) lr
                 = tmap token_kl (tmap Float.exp lr)).
    { rewrite !tmap_tmap, tmap2_tmap_l, tmap2_self.
      apply tmap_ext. intros x. unfold token_kl.
      rewrite log_exp. reflexivity. }
    rewrite Hk. reflexivity.
Qed.

(** A mask of zeros and ones that sums to 0 holds zeros only. *)
Lemma binary_mask_zero_sum (mask : tensor Z) :
  binary_mask mask -> tsumZ mask = 0 ->
  Forall (fun m => m = 0) (flatten mask).
Proof.
  unfold binary_mask, tsumZ. generalize (flatten mask) as l.
  induction l as [| m l IH]; intros Hb Hs; [constructor |].
  inversion Hb as [| ? ? Hm Hl]; subst.
  assert (Hnn : 0 <= zsum l).
  { clear -Hl. unfold zsum.
    induction Hl as [| x l [-> | ->] _ IHl]; cbn [fold_right]; lia. }
  unfold zsum in *. cbn [fold_right] in Hs. destruct Hm as [-> | ->].
  - constructor; [reflexivity |]. apply IH; [exact Hl | lia].
  - exfalso. lia.
Qed.

Lemma masked_mean_zero_mask (v : tensor float) (mask : tensor Z) :
  binary_mask mask -> tsumZ mask = 0 -> masked_mean v mask = NaN.
Proof.
  intros Hb Hs. unfold masked_mean. rewrite Hs.
  apply div_zero_or_nan. unfold tsum. apply fsum_zero_or_nan.
  apply Forall_forall. intros z Hz.
  apply in_flatten_tmap2 in Hz. destruct Hz as (x & m & _ & Hm & ->).
  pose proof (binary_mask_zero_sum mask Hb Hs) as Hz.
  rewrite Forall_forall in Hz. rewrite (Hz m Hm).
  apply mul_zero_or_nan.
Qed.

(** C6, as the code has it.  The reductions have no guard: on a mask of
    zeros and ones that sums to 0 each masked mean is [0/0] (or
    [NaN/0]), so [cal_value_loss] returns NaN and [cal_policy_loss]
    returns NaN for the loss, for the KL and for the entropy. *)
Theorem zero_mask_gives_nan
    (values_infer value_preds_ returns_ : tensor float)
    (log_prob_infer log_prob_old advantages_ entropy : tensor float)
    (mask : tensor Z) :
  binary_mask mask ->
  tsumZ mask = 0 ->
  cal_value_loss self values_infer value_preds_ returns_ mask = NaN
  /\ cal_policy_loss self log_prob_infer log_prob_old advantages_ entropy
                     mask
     = (NaN, NaN, NaN).
Proof.
  intros Hb Hs. split.
  - unfold cal_value_loss. rewrite masked_mean_zero_mask by assumption.
    reflexivity.
  - unfold cal_policy_loss. rewrite !masked_mean_zero_mask by assumption.
    reflexivity.
Qed.

(** The masks the trainer builds are binary, and so are their slices. *)
Lemma cal_token_mask_binary (toks : tensor Z) :
  binary_mask (cal_token_mask toks).
Proof.
  unfold binary_mask, cal_token_mask. rewrite flatten_tmap.
  apply Forall_forall. intros m Hm. apply in_map_iff in Hm.
  destruct Hm as (tok & <- & _).
  destruct (tok =? pad_token_id); simpl; auto.
Qed.

End Losses.

(** ** Advantage normalization *)

Section Normalization.
Open Scope R_scope.

Lemma shape_tmap {A B} (f : A -> B) (t : tensor A) :
  shape (tmap f t) = shape t.
Proof.
  unfold shape, tmap. rewrite map_map. apply map_ext. intros r.
  rewrite map_map. apply map_ext. intros c. apply length_map.
Qed.

Lemma normalize_advantages_shape (adv : tensor float) :
  shape (normalize_advantages adv) = shape adv.
Proof. unfold normalize_advantages. apply shape_tmap. Qed.

Lemma fsum_Fin (l : list R) : fsum (map Fin l) = Fin (rsum l).
Proof.
  induction l as [| a l IH]; [reflexivity |].
  unfold fsum in *. cbn [map fold_right]. rewrite IH. reflexivity.
Qed.

Lemma not_nan_marked (l : list R) :
  not_nan (map (fun a => if Float.eqb a (Fin 0) then NaN else a)
               (map Fin l))
  = map Fin (nonzero l).
Proof.
  induction l as [| a l IH]; [reflexivity |].
  unfold not_nan, nonzero in *. cbn [map filter Float.eqb].
  destruct (Reqb a 0); cbn [is_nan negb map]; rewrite IH; reflexivity.
Qed.

Lemma rlen_pos (l : list R) : l <> [] -> 0 < rlen l.
Proof.
  intros Hl. unfold rlen. apply IZR_lt.
  destruct l; [contradiction | simpl; lia].
Qed.

Lemma count_Fin (l : list R) : count (map Fin l) = Fin (rlen l).
Proof. unfold count, rlen, of_Z. rewrite length_map. reflexivity. Qed.

Lemma rsum_squares_nonneg (m : R) (l : list R) :
  0 <= rsum (map (fun x => (x - m) * (x - m)) l).
Proof.
  induction l as [| a l IH]; unfold rsum in *; cbn [map fold_right].
  - lra.
  - pose proof (Rle_0_sqr (a - m)) as Hsq. unfold Rsqr in Hsq. lra.
Qed.

Lemma nanmean_marked (l : list R) :
  nonzero l <> [] ->
  nanmean (map (fun a => if Float.eqb a (Fin 0) then NaN else a)
               (map Fin l))
  = Fin (rmean (nonzero l)).
Proof.
  intros Hnz. unfold nanmean. rewrite not_nan_marked, fsum_Fin, count_Fin.
  apply div_Fin. pose proof (rlen_pos _ Hnz). lra.
Qed.

Lemma nanstd_marked (l : list R) :
  nonzero l <> [] ->
  nanstd (map (fun a => if Float.eqb a (Fin 0) then NaN else a)
              (map Fin l))
  = Fin (rstd (nonzero l)).
Proof.
  intros Hnz. pose proof (rlen_pos _ Hnz) as Hlen.
  unfold nanstd, nanvar. rewrite nanmean_marked by exact Hnz.
  rewrite not_nan_marked, count_Fin, map_map.
  rewrite <- (map_map (fun x => (x - rmean (nonzero l))
                                * (x - rmean (nonzero l))) Fin).
  rewrite fsum_Fin, div_Fin by lra.
  apply sqrt_Fin. apply Rmult_le_pos.
  - apply rsum_squares_nonneg.
  - apply Rlt_le, Rinv_0_lt_compat. exact Hlen.
Qed.

(** C3.  The normalization keeps the shape of the advantages.  Entries
    equal to [0.0] take no part in the statistics: with at least one
    non-zero entry (so also with two distinct ones), every entry [a],
    the zeros included, becomes the number [(a - mean) / (std + 1e-8)],
    [mean] and [std] being those of the non-zero entries; no entry
    becomes NaN. *)
Theorem advantage_normalization (adv : tensor R) :
  (exists a, In a (flatten adv) /\ a <> 0) ->
  let nz := nonzero (flatten adv) in
  shape (normalize_advantages (tmap Fin adv)) = shape adv
  /\ normalize_advantages (tmap Fin adv)
     = tmap (fun a => Fin ((a - rmean nz) / (rstd nz + 1e-8))) adv.
Proof.
  intros (a & Hin & Ha). cbv zeta.
  assert (Hnz : nonzero (flatten adv) <> []).
  { intros Hnil.
    assert (Hf : In a (nonzero (flatten adv))).
    { unfold nonzero. apply filter_In. split; [exact Hin |].
      rewrite Reqb_false by exact Ha. reflexivity. }
    rewrite Hnil in Hf. destruct Hf. }
  split.
  - rewrite normalize_advantages_shape. apply shape_tmap.
  - unfold normalize_advantages.
    rewrite !flatten_tmap.
    rewrite nanmean_marked, nanstd_marked by exact Hnz.
    rewrite tmap_tmap. apply tmap_ext. intros x.
    cbn [Float.sub Float.add Float.opp].
    apply div_Fin.
    pose proof (sqrt_pos
      (rsum (map (fun x => (x - rmean (nonzero (flatten adv)))
                           * (x - rmean (nonzero (flatten adv))))
                 (nonzero (flatten adv)))
       / rlen (nonzero (flatten adv)))) as Hs.
    unfold rstd. lra.
Qed.

End Normalization.

(** ** Chunks *)

Section RowsFacts.
Context {A B C : Type}.

Lemma py_slice_rows (l : list A) (s e : Z) :
  0 <= s <= e ->
  py_slice l s e = rows (Z.to_nat s) (Z.to_nat (e - s)) l.
Proof.
  intros Hse. unfold py_slice, rows.
  destruct (Z.ltb_spec s 0); [lia |]. destruct (Z.ltb_spec e 0); [lia |].
  set (len := Z.of_nat (List.length l)).
  destruct (Z.le_gt_cases s len) as [Hs | Hs].
  - rewrite (Z.min_l s len) by lia.
    destruct (Z.le_gt_cases e len) as [He | He].
    + rewrite (Z.min_l e len) by lia. reflexivity.
    + rewrite (Z.min_r e len) by lia.
      rewrite !firstn_all2; [reflexivity | |]; rewrite length_skipn; lia.
  - rewrite (Z.min_r s len), (Z.min_r e len) by lia.
    rewrite (skipn_all2 (n := Z.to_nat s)) by lia.
    rewrite firstn_nil. replace (len - len) with 0 by lia. reflexivity.
Qed.

Lemma rows_map (f : A -> B) s n l : rows s n (map f l) = map f (rows s n l).
Proof. unfold rows. rewrite skipn_map, firstn_map. reflexivity. Qed.

Lemma skipn_combine n (l : list A) (l' : list B) :
  skipn n (combine l l') = combine (skipn n l) (skipn n l').
Proof.
  revert l l'. induction n as [| n IH]; intros [| x l] [| y l'];
    try reflexivity.
  - simpl. destruct (skipn n l); reflexivity.
  - simpl. apply IH.
Qed.

Lemma rows_map2 (f : A -> B -> C) s n l l' :
  rows s n (map2 f l l') = map2 f (rows s n l) (rows s n l').
Proof.
  unfold rows, map2.
  rewrite skipn_map, firstn_map, skipn_combine, combine_firstn. reflexivity.
Qed.

Lemma map2_app (f : A -> B -> C) l1 l2 l1' l2' :
  List.length l1 = List.length l1' ->
  map2 f (l1 ++ l2) (l1' ++ l2') = map2 f l1 l1' ++ map2 f l2 l2'.
Proof.
  revert l1'. induction l1 as [| x l1 IH]; intros [| y l1'] Hlen;
    try discriminate; [reflexivity |].
  unfold map2 in *. simpl. f_equal. apply IH.
  injection Hlen as Hlen. exact Hlen.
Qed.
End RowsFacts.

Lemma rows_split {A} (s c : nat) (l : list A) :
  skipn s l = rows s c l ++ skipn (s + c) l.
Proof.
  unfold rows. rewrite <- (firstn_skipn c (skipn s l)) at 1.
  rewrite skipn_skipn. f_equal. f_equal. lia.
Qed.

Lemma rows_length {A} (s c : nat) (l : list A) :
  List.length (rows s c l) = Nat.min c (List.length l - s).
Proof. unfold rows. rewrite length_firstn, length_skipn. reflexivity. Qed.

Lemma flatten_app {A} (t1 t2 : tensor A) :
  flatten (t1 ++ t2) = flatten t1 ++ flatten t2.
Proof. unfold flatten. rewrite concat_app, concat_app. reflexivity. Qed.

Section FiniteFacts.
Open Scope R_scope.

Lemma rsum_app l1 l2 : rsum (l1 ++ l2) = rsum l1 + rsum l2.
Proof.
  unfold rsum. induction l1 as [| a l1 IH]; cbn [app fold_right]; lra.
Qed.

Lemma fsum_finite (l : list float) :
  Forall (fun x => is_finite x = true) l ->
  fsum l = Fin (rsum (map to_R l)).
Proof.
  induction 1 as [| x l Hx _ IH]; [reflexivity |].
  unfold fsum in *. cbn [fold_right map]. rewrite IH.
  destruct x; try discriminate. reflexivity.
Qed.

Lemma finite_flatten (t : tensor float) :
  finite_tensor t -> Forall (fun x => is_finite x = true) (flatten t).
Proof.
  intros Hf. apply Forall_forall. intros x Hx.
  apply in_flatten in Hx. destruct Hx as (r & c & Hr & Hc & Hx).
  unfold finite_tensor in Hf. rewrite Forall_forall in Hf.
  specialize (Hf r Hr). rewrite Forall_forall in Hf.
  specialize (Hf c Hc). rewrite Forall_forall in Hf. exact (Hf x Hx).
Qed.

Lemma tsum_finite (v : tensor float) (mask : tensor Z) :
  finite_tensor v -> tsum (tmul_mask v mask) = Fin (rdot v mask).
Proof.
  intros Hf. unfold tsum, rdot. apply fsum_finite.
  apply Forall_forall. intros z Hz. unfold tmul_mask in Hz.
  apply in_flatten_tmap2 in Hz. destruct Hz as (x & m & Hx & _ & ->).
  pose proof (finite_flatten v Hf) as Hall. rewrite Forall_forall in Hall.
  specialize (Hall x Hx). destruct x; try discriminate. reflexivity.
Qed.

Lemma masked_mean_finite (v : tensor float) (mask : tensor Z) :
  finite_tensor v -> tsumZ mask <> 0%Z ->
  masked_mean v mask = Fin (rdot v mask / IZR (tsumZ mask)).
Proof.
  intros Hf Hm. unfold masked_mean. rewrite tsum_finite by exact Hf.
  apply div_Fin. intros H0. apply eq_IZR in H0. contradiction.
Qed.

Lemma rdot_app (v1 v2 : tensor float) (m1 m2 : tensor Z) :
  List.length v1 = List.length m1 ->
  rdot (v1 ++ v2) (m1 ++ m2) = rdot v1 m1 + rdot v2 m2.
Proof.
  intros Hlen. unfold rdot, tmul_mask, tmap2.
  rewrite map2_app by exact Hlen.
  rewrite flatten_app, map_app, rsum_app. reflexivity.
Qed.

Lemma zsum_app l1 l2 : zsum (l1 ++ l2) = (zsum l1 + zsum l2)%Z.
Proof.
  unfold zsum. induction l1 as [| a l1 IH]; cbn [app fold_right]; lia.
Qed.

Lemma tsumZ_app (m1 m2 : tensor Z) :
  tsumZ (m1 ++ m2) = (tsumZ m1 + tsumZ m2)%Z.
Proof. unfold tsumZ. rewrite flatten_app. apply zsum_app. Qed.

Lemma finite_rows (v : tensor float) s c :
  finite_tensor v -> finite_tensor (rows s c v).
Proof.
  unfold finite_tensor, rows. intros Hf.
  rewrite <- (firstn_skipn s v) in Hf. apply Forall_app in Hf.
  destruct Hf as [_ Hf].
  rewrite <- (firstn_skipn c (skipn s v)) in Hf. apply Forall_app in Hf.
  exact (proj1 Hf).
Qed.

Lemma rdot_split (v : tensor float) (mask : tensor Z) (s c : nat) :
  List.length v = List.length mask ->
  rdot (skipn s v) (skipn s mask)
  = rdot (rows s c v) (rows s c mask)
    + rdot (skipn (s + c) v) (skipn (s + c) mask).
Proof.
  intros Hlen. rewrite (rows_split s c v) at 1.
  rewrite (rows_split s c mask) at 1.
  apply rdot_app. rewrite !rows_length, Hlen. reflexivity.
Qed.

Lemma tsumZ_split (mask : tensor Z) (s c : nat) :
  tsumZ (skipn s mask)
  = (tsumZ (rows s c mask) + tsumZ (skipn (s + c) mask))%Z.
Proof. rewrite (rows_split s c mask) at 1. apply tsumZ_app. Qed.
End FiniteFacts.

Section TensorRows.
Context {A B C : Type}.

Lemma rows_tmap (f : A -> B) s n (t : tensor A) :
  rows s n (tmap f t) = tmap f (rows s n t).
Proof. unfold tmap. apply rows_map. Qed.

Lemma rows_tmap2 (f : A -> B -> C) s n (t : tensor A) (t' : tensor B) :
  rows s n (tmap2 f t t') = tmap2 f (rows s n t) (rows s n t').
Proof. unfold tmap2. apply rows_map2. Qed.

Lemma rows_select_agent a s n (t : tensor A) :
  rows s n (select_agent a t) = select_agent a (rows s n t).
Proof.
  destruct a as [i |]; [| reflexivity].
  unfold select_agent, py_agent_slice. apply rows_map.
Qed.
End TensorRows.

Section LoopFacts.
Context {B : Backend}.
Variable self : trainer.

Lemma cal_value_loss_tokens V vp ret mask :
  cal_value_loss self V vp ret mask
  = (masked_mean (value_loss_tokens self V vp ret) mask
     * Fin (value_loss_coef self))%fl.
Proof. reflexivity. Qed.

Lemma value_loss_tokens_rows s n V vp ret :
  value_loss_tokens self (rows s n V) (rows s n vp) (rows s n ret)
  = rows s n (value_loss_tokens self V vp ret).
Proof.
  unfold value_loss_tokens.
  destruct (_use_huber_loss self);
    repeat (rewrite rows_tmap2 || rewrite rows_tmap); reflexivity.
Qed.

Lemma policy_loss_tokens_rows a s n G toks adv lp :
  policy_loss_tokens self a (rows s n G) (rows s n toks) (rows s n adv)
                     (rows s n lp)
  = rows s n (policy_loss_tokens self a G toks adv lp).
Proof.
  unfold policy_loss_tokens, token_losses, ratio_of.
  repeat (rewrite rows_tmap2 || rewrite rows_tmap
          || rewrite rows_select_agent).
  reflexivity.
Qed.
End LoopFacts.

(** ** The accumulation loops over an even partition *)

Section EvenPartition.
Open Scope R_scope.

Lemma chunk_weight_inv (c k : nat) :
  (0 < c)%nat -> (0 < k)%nat -> chunk_weight c k = / IZR (Z.of_nat k).
Proof.
  intros Hc Hk. unfold chunk_weight. rewrite Nat2Z.inj_mul, mult_IZR.
  assert (IZR (Z.of_nat c) <> 0) by (apply not_0_IZR; lia).
  assert (IZR (Z.of_nat k) <> 0) by (apply not_0_IZR; lia).
  field. split; assumption.
Qed.

Lemma chunk_mean (c k : nat) (m : Z) (loss : tensor float) (mask : tensor Z)
    (j : nat) :
  m <> 0%Z -> finite_tensor loss -> chunk_sums c k m mask -> (j < k)%nat ->
  masked_mean (rows (j * c) c loss) (rows (j * c) c mask)
  = Fin (rdot (rows (j * c) c loss) (rows (j * c) c mask) / IZR m).
Proof.
  intros Hm Hfin Hsum Hj. rewrite masked_mean_finite.
  - rewrite (Hsum j Hj). reflexivity.
  - apply finite_rows. exact Hfin.
  - rewrite (Hsum j Hj). exact Hm.
Qed.

Lemma tsumZ_rest (c k : nat) (m : Z) (mask : tensor Z) :
  List.length mask = (k * c)%nat -> chunk_sums c k m mask ->
  forall n j, (j + n = k)%nat ->
              tsumZ (skipn (j * c) mask) = (Z.of_nat n * m)%Z.
Proof.
  intros HlenM Hsum. induction n as [| n IH]; intros j Hj.
  - rewrite skipn_all2 by (rewrite HlenM; nia). reflexivity.
  - rewrite (tsumZ_split mask (j * c) c), Hsum by lia.
    replace (j * c + c)%nat with (S j * c)%nat by lia.
    rewrite IH by lia. lia.
Qed.

Lemma rdot_rest_nil (c k : nat) (loss : tensor float) (mask : tensor Z) :
  List.length loss = (k * c)%nat ->
  rdot (skipn (k * c) loss) (skipn (k * c) mask) = 0.
Proof.
  intros HlenL. rewrite (skipn_all2 loss) by (rewrite HlenL; lia).
  reflexivity.
Qed.

Lemma full_mean (c k : nat) (m : Z) (loss : tensor float) (mask : tensor Z) :
  (0 < c)%nat -> (0 < k)%nat -> m <> 0%Z ->
  finite_tensor loss -> List.length mask = (k * c)%nat ->
  chunk_sums c k m mask ->
  masked_mean loss mask = Fin (rdot loss mask / IZR m * chunk_weight c k).
Proof.
  intros Hc Hk Hm Hfin HlenM Hsum.
  pose proof (tsumZ_rest c k m mask HlenM Hsum k 0%nat ltac:(lia)) as Ht.
  simpl in Ht.
  rewrite masked_mean_finite; [| exact Hfin | rewrite Ht; nia].
  rewrite Ht, chunk_weight_inv, mult_IZR by assumption.
  assert (IZR (Z.of_nat k) <> 0) by (apply not_0_IZR; lia).
  assert (IZR m <> 0) by (apply not_0_IZR; exact Hm).
  f_equal. field. split; assumption.
Qed.

End EvenPartition.

Lemma py_range_even (c k : nat) :
  (0 < c)%nat ->
  py_range 0 (Z.of_nat (k * c)) (Z.of_nat c)
  = map (fun i => Z.of_nat i * Z.of_nat c) (seq 0 k).
Proof.
  intros Hc. unfold py_range.
  destruct (Z.ltb_spec 0 (Z.of_nat c)); [| lia].
  replace ((Z.of_nat (k * c) - 0 + Z.of_nat c - 1) / Z.of_nat c)
    with (Z.of_nat k).
  - rewrite Nat2Z.id. reflexivity.
  - apply Z.div_unique with (r := Z.of_nat c - 1); [lia | nia].
Qed.

Lemma chunk_bounds (c k j : nat) :
  (j < k)%nat ->
  chunk_end (Z.of_nat j * Z.of_nat c) (Z.of_nat c) (Z.of_nat (k * c))
  = Z.of_nat j * Z.of_nat c + Z.of_nat c.
Proof.
  intros Hj. unfold chunk_end.
  destruct (Z.ltb_spec (Z.of_nat (k * c))
                       (Z.of_nat j * Z.of_nat c + Z.of_nat c)); [nia |].
  reflexivity.
Qed.

Lemma chunk_rows {A} (c : nat) (l : list A) (j : nat) :
  py_slice l (Z.of_nat j * Z.of_nat c)
           (Z.of_nat j * Z.of_nat c + Z.of_nat c)
  = rows (j * c) c l.
Proof.
  rewrite py_slice_rows by nia.
  replace (Z.of_nat j * Z.of_nat c + Z.of_nat c - Z.of_nat j * Z.of_nat c)
    with (Z.of_nat c) by lia.
  rewrite <- Nat2Z.inj_mul, !Nat2Z.id. reflexivity.
Qed.

Section CriticEven.
Context {B : Backend}.
Variable self : trainer.
Variables (c k : nat) (m : Z).
Variables (obs : list Obs) (toks : tensor Z) (vp ret : tensor float)
          (mask : tensor Z) (h : history Agent).
Let V := get_token_values h obs toks.
Let L := value_loss_tokens self V vp ret.
Hypothesis (Hc : (0 < c)%nat) (Hk : (0 < k)%nat) (Hm : m <> 0).
Hypothesis (Hrow : rowwise_values h obs toks).
Hypothesis (Hfin : finite_tensor L).
Hypothesis (HlenL : List.length L = (k * c)%nat).
Hypothesis (HlenM : List.length mask = (k * c)%nat).
Hypothesis (Hsum : chunk_sums c k m mask).

Let value_term (j : nat) : R :=
  value_chunk_term (value_loss_coef self) c k m L mask j.

Lemma critic_chunk j rest e v :
  (j < k)%nat ->
  Forall (fun ev => pass_event ev = true) e ->
  critic_loop self (Z.of_nat j * Z.of_nat c :: rest) (Z.of_nat (k * c))
              (Z.of_nat c) obs toks vp ret mask (h ++ e) v
  = critic_loop self rest (Z.of_nat (k * c)) (Z.of_nat c) obs toks vp ret
      mask
      (h ++ (e ++ [Forward Critic; Backward Critic (Fin (value_term j))]))
      (py_add v (PyFloat (Fin (value_term j)))).
Proof.
  intros Hj He. cbn [critic_loop]. rewrite (chunk_bounds c k j Hj).
  unfold py_truediv.
  destruct (Z.eqb_spec (Z.of_nat (k * c)) 0); [nia |]. cbn [bind].
  rewrite (Hrow e _ _ He). fold V. rewrite !chunk_rows.
  rewrite cal_value_loss_tokens, value_loss_tokens_rows. fold L.
  rewrite (chunk_mean c k m L mask j Hm Hfin Hsum Hj).
  cbn [Float.mul].
  replace (Z.of_nat j * Z.of_nat c + Z.of_nat c - Z.of_nat j * Z.of_nat c)
    with (Z.of_nat c) by lia.
  fold (chunk_weight c k).
  fold (value_chunk_term (value_loss_coef self) c k m L mask j).
  fold (value_term j).
  rewrite <- !app_assoc. reflexivity.
Qed.

Lemma critic_rest n : forall j e a,
  (j + n = k)%nat ->
  Forall (fun ev => pass_event ev = true) e ->
  exists h' x,
    critic_loop self (map (fun i => Z.of_nat i * Z.of_nat c) (seq j n))
      (Z.of_nat (k * c)) (Z.of_nat c) obs toks vp ret mask (h ++ e)
      (PyFloat (Fin a))
    = Ok (h', PyFloat (Fin x))
    /\ x = (a + rdot (skipn (j * c) L) (skipn (j * c) mask) / IZR m
                * value_loss_coef self * chunk_weight c k)%R.
Proof.
  induction n as [| n IH]; intros j e a Hj He.
  - exists (h ++ e), a. split; [reflexivity |].
    replace j with k by lia.
    rewrite (rdot_rest_nil c k L mask HlenL). lra.
  - cbn [seq map]. rewrite critic_chunk by (lia || exact He).
    cbn [py_add Float.add].
    destruct (IH (S j) (e ++ [Forward Critic;
                              Backward Critic (Fin (value_term j))])
                 (a + value_term j)%R ltac:(lia)) as (h' & x & Hrun & Hx).
    { apply Forall_app. split; [exact He |]. repeat constructor. }
    exists h', x. split; [exact Hrun |].
    rewrite Hx, (rdot_split L mask (j * c) c) by congruence.
    replace (j * c + c)%nat with (S j * c)%nat by lia.
    unfold value_term, value_chunk_term, Rdiv. ring.
Qed.

Lemma critic_even :
  exists h',
    critic_loop self (py_range 0 (Z.of_nat (k * c)) (Z.of_nat c))
      (Z.of_nat (k * c)) (Z.of_nat c) obs toks vp ret mask h (PyInt 0)
    = Ok (h', PyFloat (cal_value_loss self V vp ret mask)).
Proof.
  rewrite (py_range_even c k Hc).
  assert (Hseq : seq 0 k = 0%nat :: seq 1 (k - 1)).
  { destruct k as [| k']; [lia |].
    replace (S k' - 1)%nat with k' by lia. reflexivity. }
  rewrite Hseq. cbn [map].
  pose proof (critic_chunk 0
                (map (fun i => Z.of_nat i * Z.of_nat c) (seq 1 (k - 1)))
                [] (PyInt 0) Hk ltac:(constructor)) as H0.
  rewrite app_nil_r in H0. rewrite H0.
  cbn [py_add of_Z Float.add app].
  destruct (critic_rest (k - 1) 1%nat [Forward Critic;
                                  Backward Critic (Fin (value_term 0))]
                        (IZR 0 + value_term 0)%R ltac:(lia))
    as (h' & x & Hrun & Hx).
  { repeat constructor. }
  exists h'. rewrite Hrun. do 3 f_equal.
  rewrite cal_value_loss_tokens. fold L.
  rewrite (full_mean c k m L mask Hc Hk Hm Hfin HlenM Hsum).
  cbn [Float.mul]. f_equal. rewrite Hx.
  pose proof (rdot_split L mask 0 c ltac:(congruence)) as Hs.
  cbn [skipn Nat.add Nat.mul] in Hs. rewrite Hs.
  unfold value_term, value_chunk_term. cbn [Nat.mul].
  rewrite ?Nat.add_0_r. unfold Rdiv. ring.
Qed.

End CriticEven.

Section PolicyEven.
Context {B : Backend}.
Variable self : trainer.
Variables (c k : nat) (m : Z) (a : option Z).
Variables (obs : list Obs) (toks : tensor Z) (adv lp : tensor float)
          (mask : tensor Z) (h : history Agent).
Let G := get_token_logits h obs toks a.
Let L := policy_loss_tokens self a G toks adv lp.
Let M := select_agent a mask.
Hypothesis (Hc : (0 < c)%nat) (Hk : (0 < k)%nat) (Hm : m <> 0).
Hypothesis (Hrow : rowwise_logits h obs toks a).
Hypothesis (Hfin : finite_tensor L).
Hypothesis (HlenL : List.length L = (k * c)%nat).
Hypothesis (HlenM : List.length M = (k * c)%nat).
Hypothesis (Hsum : chunk_sums c k m M).

Let policy_term (j : nat) : R := policy_chunk_term c k m L M j.

Lemma policy_chunk j rest e acc :
  (j < k)%nat ->
  Forall (fun ev => pass_event ev = true) e ->
  exists kl en,
    policy_loop self (Z.of_nat j * Z.of_nat c :: rest) (Z.of_nat (k * c))
                (Z.of_nat c) a obs toks adv lp mask (h ++ e) acc
    = policy_loop self rest (Z.of_nat (k * c)) (Z.of_nat c) a obs toks adv
        lp mask
        (h ++ (e ++ [Forward Policy; Backward Policy (Fin (policy_term j))]))
        {| total_approx_kl := kl; total_entropy := en;
           policy_loss := (policy_loss acc + Fin (policy_term j))%fl |}.
Proof.
  intros Hj He. cbn [policy_loop]. rewrite (chunk_bounds c k j Hj).
  unfold py_truediv.
  destruct (Z.eqb_spec (Z.of_nat (k * c)) 0); [nia |]. cbn [bind].
  rewrite (Hrow e _ _ He). fold G. rewrite !chunk_rows.
  rewrite cal_policy_loss_tokens. cbv zeta.
  fold (policy_loss_tokens self a (rows (j * c) c G) (rows (j * c) c toks)
                           (rows (j * c) c adv) (rows (j * c) c lp)).
  rewrite policy_loss_tokens_rows. fold L.
  rewrite <- (rows_select_agent a (j * c) c mask). fold M.
  rewrite (chunk_mean c k m L M j Hm Hfin Hsum Hj).
  cbn [Float.mul].
  replace (Z.of_nat j * Z.of_nat c + Z.of_nat c - Z.of_nat j * Z.of_nat c)
    with (Z.of_nat c) by lia.
  fold (chunk_weight c k). fold (policy_chunk_term c k m L M j).
  fold (policy_term j).
  rewrite <- !app_assoc. eexists _, _. reflexivity.
Qed.

Lemma policy_rest n : forall j e acc x,
  (j + n = k)%nat ->
  Forall (fun ev => pass_event ev = true) e ->
  policy_loss acc = Fin x ->
  exists h' acc' y,
    policy_loop self (map (fun i => Z.of_nat i * Z.of_nat c) (seq j n))
      (Z.of_nat (k * c)) (Z.of_nat c) a obs toks adv lp mask (h ++ e) acc
    = Ok (h', acc')
    /\ policy_loss acc' = Fin y
    /\ y = (x + rdot (skipn (j * c) L) (skipn (j * c) M) / IZR m
                * chunk_weight c k)%R.
Proof.
  induction n as [| n IH]; intros j e acc x Hj He Hacc.
  - exists (h ++ e), acc, x. split; [reflexivity |]. split; [exact Hacc |].
    replace j with k by lia.
    rewrite (rdot_rest_nil c k L M HlenL). lra.
  - cbn [seq map].
    destruct (policy_chunk j
                (map (fun i => Z.of_nat i * Z.of_nat c) (seq (S j) n))
                e acc ltac:(lia) He) as (kl & en & Hstep).
    rewrite Hstep. rewrite Hacc. cbn [Float.add].
    destruct (IH (S j) (e ++ [Forward Policy;
                              Backward Policy (Fin (policy_term j))])
                 {| total_approx_kl := kl; total_entropy := en;
                    policy_loss := Fin (x + policy_term j) |}
                 (x + policy_term j)%R ltac:(lia))
      as (h' & acc' & y & Hrun & Hy & Hval).
    { apply Forall_app. split; [exact He |]. repeat constructor. }
    { reflexivity. }
    exists h', acc', y. split; [exact Hrun |]. split; [exact Hy |].
    rewrite Hval, (rdot_split L M (j * c) c) by congruence.
    replace (j * c + c)%nat with (S j * c)%nat by lia.
    unfold policy_term, policy_chunk_term, Rdiv. ring.
Qed.

Lemma policy_even acc0 :
  policy_loss acc0 = Fin 0 ->
  exists h' acc,
    policy_loop self (py_range 0 (Z.of_nat (k * c)) (Z.of_nat c))
      (Z.of_nat (k * c)) (Z.of_nat c) a obs toks adv lp mask h acc0
    = Ok (h', acc)
    /\ policy_loss acc = masked_mean L M.
Proof.
  intros Hacc. rewrite (py_range_even c k Hc).
  destruct (policy_rest k 0%nat [] acc0 0%R ltac:(lia) ltac:(constructor)
                        Hacc) as (h' & acc & y & Hrun & Hy & Hval).
  rewrite app_nil_r in Hrun. exists h', acc. split; [exact Hrun |].
  rewrite Hy, (full_mean c k m L M Hc Hk Hm Hfin HlenM Hsum).
  f_equal. rewrite Hval. cbn [Nat.mul skipn]. lra.
Qed.

End PolicyEven.

(** ** The policy loss against its formulas *)

Section PolicyLossClaim.
Variable self : trainer.

(** C8.  With a mask of positive sum, [cal_policy_loss] computes the
    ratio [r = exp(log_prob_infer - log_prob_old)], the per-token
    approximate KL [(r - 1) - log r], the per-token loss
    [max(-clip(r, 1-eps, 1+eps) * A, -r * A) - entropy_coef * entropy],
    and returns the masked means [sum(value * mask) / sum(mask)] of the
    loss, of the KL and of the entropy, in that order; the masked mean of
    finite values is the real number that quotient is. *)
Theorem cal_policy_loss_formulas
    (log_prob_infer log_prob_old advantages_ entropy : tensor float)
    (mask : tensor Z) :
  0 < tsumZ mask ->
  let r := ratio_of log_prob_infer log_prob_old in
  let mean v := (tsum (tmul_mask v mask) / of_Z (tsumZ mask))%fl in
  cal_policy_loss self log_prob_infer log_prob_old advantages_ entropy mask
  = (mean (token_losses (clip_param self) (entropy_coef self)
                        r advantages_ entropy),
     mean (tmap token_kl r),
     mean entropy)
  /\ forall v, finite_tensor v ->
                mean v = Fin (rdot v mask / IZR (tsumZ mask)).
Proof.
  intros Hpos. cbv zeta. split.
  - rewrite cal_policy_loss_tokens. reflexivity.
  - intros v Hv. apply (masked_mean_finite v mask Hv). lia.
Qed.

End PolicyLossClaim.

(** ** Gradient accumulation *)

Section Accumulation.
Context {B : Backend}.
Variable self : trainer.

Lemma even_chunks_nat (loss : tensor float) (mask : tensor Z)
    (batch_size m : Z) :
  evenly_divided self batch_size ->
  even_chunks loss mask batch_size
              (batch_size / gradient_cp_steps self) m ->
  exists c k,
    (0 < c)%nat /\ (0 < k)%nat
    /\ Z.of_nat (k * c) = batch_size
    /\ Z.of_nat c = batch_size / gradient_cp_steps self
    /\ List.length loss = (k * c)%nat
    /\ List.length mask = (k * c)%nat
    /\ chunk_sums c k m mask.
Proof.
  intros (Hsteps & HB & Hmod) (_ & HlenL & HlenM & _ & Hsum).
  set (steps := gradient_cp_steps self) in *.
  set (cp := batch_size / steps) in *.
  assert (Hdiv : batch_size = steps * cp).
  { apply Z.div_exact; [lia | exact Hmod]. }
  assert (Hcp : 0 < cp) by nia.
  exists (Z.to_nat cp), (Z.to_nat steps).
  assert (Hc : Z.of_nat (Z.to_nat cp) = cp) by lia.
  assert (Hkc : Z.of_nat (Z.to_nat steps * Z.to_nat cp) = batch_size) by nia.
  repeat split; try lia.
  assert (Hr : py_range 0 batch_size cp
               = map (fun i => Z.of_nat i * Z.of_nat (Z.to_nat cp))
                     (seq 0 (Z.to_nat steps))).
  { rewrite <- py_range_even by lia. rewrite Hkc, Hc. reflexivity. }
  intros j Hj.
  rewrite <- (chunk_rows (Z.to_nat cp) mask j), Hc.
  apply Hsum. rewrite Hr.
  apply in_map_iff. exists j. split; [rewrite Hc; reflexivity |].
  apply in_seq. lia.
Qed.


End Accumulation.

(** ** The warmup gate *)

Section Warmup.
Context {B : Backend}.
Variable self : trainer.

Lemma cp_batch_size_exact (h : history Agent) (batch_size : Z) :
  gradient_cp_steps self <> 0 ->
  cp_batch_size_of self h batch_size
  = Ok (h ++ cp_warning self batch_size,
        cp_batch_size_value self batch_size).
Proof.
  intros Hcp. unfold cp_batch_size_of, cp_warning, cp_batch_size_value.
  unfold py_floordiv.
  destruct (Z.eqb_spec (gradient_cp_steps self) 0); [contradiction |].
  cbn [bind].
  destruct (batch_size / gradient_cp_steps self =? 0); [reflexivity |].
  rewrite app_nil_r. reflexivity.
Qed.

(** The critic loop runs one forward and one backward pass per chunk, on
    the chunk's weighted loss, and adds these losses up. *)
Lemma critic_loop_exact starts batch_size cp obs toks vp ret mask :
  starts = [] \/ batch_size <> 0 ->
  forall h vl,
    critic_loop self starts batch_size cp obs toks vp ret mask h vl
    = Ok (h ++ critic_passes
                 (chunk_value_losses self starts batch_size cp obs toks vp
                                     ret mask h),
          fold_left py_add
            (map PyFloat
                 (chunk_value_losses self starts batch_size cp obs toks vp
                                     ret mask h))
            vl).
Proof.
  intros Hrun. induction starts as [| start rest IH]; intros h vl.
  - cbn [critic_loop chunk_value_losses critic_passes flat_map map
         fold_left].
    rewrite app_nil_r. reflexivity.
  - destruct Hrun as [Hnil | HB]; [discriminate |].
    cbn [critic_loop chunk_value_losses]. unfold py_truediv.
    destruct (Z.eqb_spec batch_size 0); [contradiction |]. cbn [bind].
    rewrite cal_value_loss_tokens.
    rewrite <- (app_assoc h [Forward Critic]). cbn [app].
    rewrite (IH (or_intror HB)).
    unfold critic_passes. cbn [flat_map map fold_left app].
    rewrite <- app_assoc. reflexivity.
Qed.

Lemma chunk_value_losses_length starts batch_size cp obs toks vp ret mask :
  forall h,
    List.length (chunk_value_losses self starts batch_size cp obs toks vp
                                    ret mask h)
    = List.length starts.
Proof.
  induction starts as [| start rest IH]; intros h; [reflexivity |].
  cbn [chunk_value_losses List.length]. rewrite IH. reflexivity.
Qed.

Lemma critic_passes_quiet (losses : list float) :
  quiet (critic_passes losses).
Proof.
  unfold critic_passes. induction losses as [| l losses IH];
    [constructor |].
  cbn [flat_map app]. repeat constructor. exact IH.
Qed.

Lemma cp_warning_quiet (batch_size : Z) : quiet (cp_warning self batch_size).
Proof.
  unfold cp_warning.
  destruct (batch_size / gradient_cp_steps self =? 0); repeat constructor.
Qed.

(** C5.  Before [warmup_steps], [ppo_update] performs the full critic
    update and nothing else.  After the optional warning of line 108 it
    zeroes the critic's gradients, runs one forward and one backward pass
    of the critic per chunk, each backward pass on that chunk's weighted
    value loss, clips the critic's gradient when [use_max_grad_norm] is
    set, and steps the critic optimizer.  It returns [(value_loss,
    critic_grad_norm, 0, 0, 0, 0)]: [value_loss] is the sum [0 + l1 + l2
    + ...] of the chunks' losses, [critic_grad_norm] is the norm that
    [clip_grad_norm_] (or [get_gard_norm]) gives after the backward
    passes, and the four zeros are the integer [0].  The history gains no
    forward pass, backward pass, gradient or optimizer call of the policy
    side. *)
Theorem warmup_gate (h : history Agent) (smp : sample Obs Act)
    (global_steps : Z) :
  divisors_nonzero self ->
  global_steps < warmup_steps self ->
  let obs := rollout_observations smp in
  let toks := action_tokens smp in
  let batch_size := Z.of_nat (List.length obs) in
  let cp_batch_size := cp_batch_size_value self batch_size in
  let starts := py_range 0 batch_size cp_batch_size in
  let warn := cp_warning self batch_size in
  let losses :=
    chunk_value_losses self starts batch_size cp_batch_size obs toks
      (value_preds smp) (returns smp) (cal_token_mask toks)
      (h ++ warn ++ [ZeroGrad CriticOpt]) in
  let e1 := warn ++ [ZeroGrad CriticOpt] ++ critic_passes losses in
  let value_loss := fold_left py_add (map PyFloat losses) (PyInt 0) in
  let critic_grad_norm :=
    if _use_max_grad_norm self
    then clip_grad_norm_ (h ++ e1) CriticParams (max_grad_norm self)
    else get_gard_norm (h ++ e1) CriticParams in
  let e :=
    e1 ++ (if _use_max_grad_norm self
           then [ClipGradNorm CriticParams (max_grad_norm self)]
           else []) in
  (exists a,
     critic_update self h smp global_steps
     = Ok (h ++ e ++ [OptStep CriticOpt], a, cp_batch_size, value_loss,
           critic_grad_norm))
  /\ ppo_update self h smp global_steps
     = Ok (h ++ e ++ [OptStep CriticOpt],
           (value_loss, PyFloat critic_grad_norm,
            PyInt 0, PyInt 0, PyInt 0, PyInt 0))
  /\ List.length losses = List.length starts
  /\ quiet e /\ In (ZeroGrad CriticOpt) e.
Proof.
  intros Hd Hw. cbv zeta.
  destruct (agent_to_train_total self global_steps Hd) as (a & Ha).
  pose proof (proj2 Hd) as Hcp.
  set (bs := Z.of_nat (List.length (rollout_observations smp))).
  set (cp := cp_batch_size_value self bs).
  set (warn := cp_warning self bs).
  set (losses :=
         chunk_value_losses self (py_range 0 bs cp) bs cp
           (rollout_observations smp) (action_tokens smp) (value_preds smp)
           (returns smp) (cal_token_mask (action_tokens smp))
           (h ++ warn ++ [ZeroGrad CriticOpt])).
  assert (Hc : critic_update self h smp global_steps
               = Ok (h ++ ((warn ++ [ZeroGrad CriticOpt]
                                 ++ critic_passes losses)
                           ++ (if _use_max_grad_norm self
                               then [ClipGradNorm CriticParams
                                                  (max_grad_norm self)]
                               else []))
                      ++ [OptStep CriticOpt],
                     a, cp, fold_left py_add (map PyFloat losses) (PyInt 0),
                     if _use_max_grad_norm self
                     then clip_grad_norm_
                            (h ++ warn ++ [ZeroGrad CriticOpt]
                               ++ critic_passes losses)
                            CriticParams (max_grad_norm self)
                     else get_gard_norm
                            (h ++ warn ++ [ZeroGrad CriticOpt]
                               ++ critic_passes losses)
                            CriticParams)).
  { unfold critic_update. rewrite Ha. cbn [bind]. fold bs.
    rewrite (cp_batch_size_exact h bs Hcp). cbn [bind]. fold cp warn.
    rewrite (critic_loop_exact (py_range 0 bs cp) bs cp _ _ _ _ _
                               (py_range_runs bs cp)).
    cbn [bind].
    replace ((h ++ warn) ++ [ZeroGrad CriticOpt])
      with (h ++ warn ++ [ZeroGrad CriticOpt])
      by (rewrite <- app_assoc; reflexivity).
    fold losses. unfold critic_step.
    replace ((h ++ warn ++ [ZeroGrad CriticOpt]) ++ critic_passes losses)
      with (h ++ warn ++ [ZeroGrad CriticOpt] ++ critic_passes losses)
      by (rewrite <- !app_assoc; reflexivity).
    destruct (_use_max_grad_norm self).
    - do 2 f_equal. repeat (rewrite <- app_assoc; cbn [app]). reflexivity.
    - do 2 f_equal. rewrite app_nil_r.
      repeat (rewrite <- app_assoc; cbn [app]). reflexivity. }
  split; [exists a; exact Hc |]. split; [| split; [| split]].
  - unfold ppo_update. rewrite Hc. cbn [bind].
    destruct (Z.ltb_spec global_steps (warmup_steps self)); [| lia].
    reflexivity.
  - apply chunk_value_losses_length.
  - apply quiet_app; [apply quiet_app; [apply cp_warning_quiet |] |].
    + constructor; [reflexivity | apply critic_passes_quiet].
    + destruct (_use_max_grad_norm self); repeat constructor.
  - rewrite !in_app_iff. cbn [In]. tauto.
Qed.

End Warmup.

(** ** Concrete runs *)

#[local] Arguments IZR : simpl never.
#[local] Arguments Reqb : simpl never.
#[local] Arguments Rltb : simpl never.
#[local] Arguments cal_value_loss : simpl never.
#[local] Arguments masked_mean : simpl never.
#[local] Arguments normalize_advantages : simpl never.
#[local] Arguments Z.div : simpl never.

Ltac fl_decide :=
  repeat match goal with
  | |- context [Reqb ?a ?b] =>
      first [rewrite (Reqb_false a b) by lra | rewrite (Reqb_true a b) by lra]
  | |- context [Rltb ?a ?b] =>
      first [rewrite (Rltb_true a b) by lra | rewrite (Rltb_false a b) by lra]
  end.

Ltac fl_unfold :=
  unfold chunk_end, py_slice, py_agent_slice, cal_value_loss, cal_policy_loss,
    masked_mean, tmul_mask, tsum, tsumZ, flatten, fsum, zsum, tmap2, tmap,
    map2, of_Z, count, Float.clamp, kl_threshold, Float.gtb.

Ltac minmax :=
  repeat match goal with
  | |- context [Rmax ?a ?b] =>
      first [rewrite (Rmax_left a b) by lra | rewrite (Rmax_right a b) by lra]
  | |- context [Rmin ?a ?b] =>
      first [rewrite (Rmin_left a b) by lra | rewrite (Rmin_right a b) by lra]
  end.

Section DemoRuns.
Import Demo.

Lemma exp_2_gt_4 : (4 < Rtrigo_def.exp 2)%R.
Proof.
  replace 2%R with (1 + 1)%R by lra. rewrite exp_plus.
  pose proof (exp_ineq1 1 ltac:(lra)). nra.
Qed.

Lemma divisors_demo i w c b :
  c <> 0 -> divisors_nonzero (demo_trainer i w c b).
Proof. intros Hc. split; [intros _; discriminate | exact Hc]. Qed.

(** On [far_sample] the accumulated KL is [exp 2 - 3], above the
    threshold. *)
Lemma far_sample_kl b h h' acc :
  policy_accumulate (demo_trainer 0 0 1 b) h far_sample None 1
  = Ok (h', acc) ->
  Float.gtb (total_approx_kl acc) kl_threshold = true.
Proof.
  unfold policy_accumulate. simpl. unfold chunk_end, cal_policy_loss. simpl.
  intros H. injection H as _ <-. cbn [total_approx_kl].
  pose proof exp_2_gt_4 as He.
  replace (- ln 2 + - (- ln 2 - 2))%R with 2%R by lra.
  fl_unfold. simpl. fl_decide. simpl. apply Rltb_true. lra.
Qed.

(** On [near_sample] the ratio is 1 and the accumulated KL is 0. *)
Lemma near_sample_kl b h h' acc :
  policy_accumulate (demo_trainer 0 0 1 b) h near_sample None 1
  = Ok (h', acc) ->
  Float.gtb (total_approx_kl acc) kl_threshold = false.
Proof.
  unfold policy_accumulate. simpl. unfold chunk_end, cal_policy_loss. simpl.
  intros H. injection H as _ <-. cbn [total_approx_kl].
  replace (- ln 2 + - - ln 2)%R with 0%R by lra. rewrite exp_0.
  fl_unfold. simpl. fl_decide. simpl. apply Rltb_false. lra.
Qed.

(** What the trainer's phases give on these samples. *)
Lemma demo_critic_update b w smp h h1 a cp vl cgn :
  List.length (rollout_observations smp) = 1%nat ->
  critic_update (demo_trainer 0 w 1 b) h smp 0 = Ok (h1, a, cp, vl, cgn) ->
  a = None /\ cp = 1.
Proof.
  intros Hlen. unfold critic_update. cbn [agent_to_train_of demo_trainer init
    agent_iteration_interval demo_args arg_agent_iteration_interval
    Z.ltb Z.compare bind].
  unfold cp_batch_size_of, py_floordiv. rewrite Hlen.
  cbn [gradient_cp_steps demo_trainer init demo_args arg_gradient_cp_steps
       Z.eqb Z.of_nat Pos.of_succ_nat bind].
  change (1 / 1) with 1. cbn [Z.eqb bind].
  intros H. inv_bind H. destruct a0 as [h2 vl2].
  destruct (critic_step _ _) as [h3 cgn3]. injection H as _ <- <- _ _.
  split; reflexivity.
Qed.

Lemma agent_rotation_witness :
  agent_to_train_of (demo_trainer 3 0 1 true) 7 = Ok (Some 1)
  /\ agent_to_train_of (demo_trainer 3 0 1 true) 7 = Ok (Some (3 mod 2))
  /\ agent_to_train_of (demo_trainer 0 0 1 true) 7 = Ok None
  /\ exists g t,
       policy_commit (demo_trainer 0 0 1 true) [] None
       = Ok ([ClipGradNorm (AgentParams 0%nat) 0.5;
              OptStep (PolicyOpt "reasoner");
              ClipGradNorm (AgentParams 1%nat) 0.5;
              OptStep (PolicyOpt "actor")], g, t).
Proof.
  destruct (agent_rotation (B := backend) (demo_trainer 3 0 1 true) 7 2 [])
    as (H1 & H2 & _).
  destruct (agent_rotation (B := backend) (demo_trainer 0 0 1 true) 7 2 [])
    as (_ & _ & H3).
  split; [| split; [| split]].
  - apply H1; [reflexivity | discriminate].
  - apply H2; [reflexivity | discriminate | split; [discriminate | reflexivity]].
  - apply H3. discriminate.
  - apply H3; [discriminate | apply init_registers].
Defined.

Lemma warmup_gate_witness :
  ppo_update (demo_trainer 0 1 1 true) [] near_sample 0
  = Ok ([ZeroGrad CriticOpt; Forward Critic; Backward Critic (Fin 0.5);
         ClipGradNorm CriticParams 0.5; OptStep CriticOpt],
        (PyFloat (Fin 0.5), PyFloat (Fin 1),
         PyInt 0, PyInt 0, PyInt 0, PyInt 0)).
Proof.
  destruct (warmup_gate (B := backend) (demo_trainer 0 1 1 true) []
                        near_sample 0)
    as (_ & Hu & _).
  - apply divisors_demo. discriminate.
  - reflexivity.
  - cbv zeta in Hu. rewrite Hu. clear Hu.
    unfold cp_warning, cp_batch_size_value. simpl.
    change (1 / 1) with 1. simpl.
    match goal with
    | |- context [Backward Critic ?x] => assert (HL : x = Fin 0.5)
    end.
    { fl_unfold. unfold value_loss_tokens. simpl. unfold mse. simpl.
      fl_decide. simpl. fl_decide. simpl. minmax. f_equal. lra. }
    rewrite HL.
    replace (0 + 0.5)%R with 0.5%R by lra. reflexivity.
Defined.

Lemma kl_gate_witness :
  exists h vl cgn kl ent,
    ppo_update (demo_trainer 0 0 1 true) [] far_sample 0
    = Ok (h, (vl, PyFloat cgn, PyInt 0, PyInt 0, PyFloat kl, PyFloat ent)).
Proof.
  destruct (kl_gate (B := backend) (demo_trainer 0 0 1 true) []
                    far_sample 0)
    as (e1 & a & cp & vl & cgn & e2 & acc & Hc & Hp & _ & _ & Hgate).
  - apply divisors_demo. discriminate.
  - discriminate.
  - cbv zeta in *.
    destruct (demo_critic_update true 0 far_sample [] _ a cp vl cgn
                                 eq_refl Hc) as [-> ->].
    eexists _, vl, cgn, _, _. apply Hgate.
    eapply far_sample_kl. exact Hp.
Defined.

Lemma joint_update_returns_last_norm_witness :
  exists h2 h3 h vl cgn pl kl ent,
    policy_commit (demo_trainer 0 0 1 true) h2 None
    = Ok (h3, Some (Fin 1), (Fin 0 + Fin 1 + Fin 1)%fl)
    /\ ppo_update (demo_trainer 0 0 1 true) [] near_sample 0
       = Ok (h, (vl, PyFloat cgn, PyFloat pl, PyTensor (Fin 1),
                 PyFloat kl, PyFloat ent)).
Proof.
  destruct (joint_update_returns_last_norm (B := backend)
              (demo_trainer 0 0 1 true) [] near_sample 0 [0%nat] 1%nat)
    as (h1 & cp & vl & cgn & h2 & acc & Hc & Hp & Hpass).
  - apply divisors_demo. discriminate.
  - apply init_registers.
  - discriminate.
  - discriminate.
  - reflexivity.
  - destruct (demo_critic_update true 0 near_sample [] _ None cp vl cgn
                                 eq_refl Hc) as [_ ->].
    destruct (Hpass (near_sample_kl true _ _ _ Hp)) as [Hcommit Hu].
    eexists h2, _, _, vl, cgn, _, _, _. split; [exact Hcommit | exact Hu].
Defined.

Lemma train_without_minibatch_raises_witness :
  train (demo_trainer 0 0 1 true) [] [[]] 0 = Raise ZeroDivisionError.
Proof.
  apply (train_without_minibatch_raises (B := backend)).
  split; [reflexivity | exact I].
Defined.

Lemma cal_policy_loss_formulas_witness :
  let T := demo_trainer 0 0 1 true in
  let lpi := [[[Fin (- ln 2)]; [Fin (- ln 2)]]] in
  let lpo := [[[Fin (- ln 2 - 2)]; [Fin (- ln 2)]]] in
  let adv := [[[Fin 1]; [Fin (-1)]]] in
  let ent := [[[Fin (ln 2)]; [Fin (ln 2)]]] in
  let mask := [[[1]; [0]]] in
  cal_policy_loss T lpi lpo adv ent mask
  = (masked_mean (token_losses 0.2 0.01 (ratio_of lpi lpo) adv ent) mask,
     masked_mean (tmap token_kl (ratio_of lpi lpo)) mask,
     masked_mean ent mask)
  /\ masked_mean ent mask = Fin (rdot ent mask / 1).
Proof.
  cbv zeta.
  destruct (cal_policy_loss_formulas (demo_trainer 0 0 1 true)
              [[[Fin (- ln 2)]; [Fin (- ln 2)]]]
              [[[Fin (- ln 2 - 2)]; [Fin (- ln 2)]]]
              [[[Fin 1]; [Fin (-1)]]]
              [[[Fin (ln 2)]; [Fin (ln 2)]]]
              [[[1]; [0]]] eq_refl) as [Hloss Hmean].
  split; [exact Hloss |].
  apply (Hmean [[[Fin (ln 2)]; [Fin (ln 2)]]]). repeat constructor.
Defined.

Lemma advantage_normalization_witness :
  let adv := [[[1; 0]; [3; 0]]]%R in
  let nz := nonzero (flatten adv) in
  shape (normalize_advantages (tmap Fin adv)) = [[2%nat; 2%nat]]
  /\ normalize_advantages (tmap Fin adv)
     = tmap (fun a => Fin ((a - rmean nz) / (rstd nz + 1e-8))%R) adv.
Proof.
  cbv zeta. apply (advantage_normalization [[[1; 0]; [3; 0]]]%R).
  exists 1%R. split; [left; reflexivity | lra].
Defined.

Lemma zero_mask_gives_nan_witness :
  let T := demo_trainer 0 0 1 true in
  let z := [[[Fin 0]; [Fin 0]]] in
  cal_value_loss T z z z (cal_token_mask [[[0]; [0]]]) = NaN
  /\ cal_policy_loss T z z z z (cal_token_mask [[[0]; [0]]])
     = (NaN, NaN, NaN).
Proof.
  cbv zeta.
  apply (zero_mask_gives_nan (B := backend)); [| reflexivity].
  repeat constructor.
Defined.

(** C6, against the claim: on [pad_sample], whose tokens are all
    padding, the only chunk has a mask that sums to 0; the value loss is
    [0/0], NaN goes into [backward()], the critic optimizer steps on it,
    and NaN comes back as [value_loss]. *)
Lemma zero_mask_counterexample :
  tsumZ (cal_token_mask (action_tokens pad_sample)) = 0
  /\ ppo_update (demo_trainer 0 1 1 true) [] pad_sample 0
     = Ok ([ZeroGrad CriticOpt; Forward Critic; Backward Critic NaN;
            ClipGradNorm CriticParams 0.5; OptStep CriticOpt],
           (PyFloat NaN, PyFloat (Fin 1),
            PyInt 0, PyInt 0, PyInt 0, PyInt 0)).
Proof.
  split; [reflexivity |].
  unfold ppo_update, critic_update. simpl. change (1 / 1) with 1. simpl.
  assert (Hv : forall w,
    (cal_value_loss (demo_trainer 0 1 1 true) [[[Fin 0]; [Fin 0]]]
       (py_slice [[[Fin 0]; [Fin 0]]] 0 (chunk_end 0 1 1))
       (py_slice [[[Fin 1]; [Fin 1]]] 0 (chunk_end 0 1 1))
       (py_slice [[[0]; [0]]] 0 (chunk_end 0 1 1)) * w)%fl = NaN).
  { intros w. fl_unfold. simpl. unfold mse. simpl. fl_decide. simpl.
    fl_decide. reflexivity. }
  rewrite !Hv. reflexivity.
Qed.

(** C7, at a failing input: with [use_max_grad_norm] off, a joint update
    on [near_sample] passes the KL gate; the critic's gradient is
    measured and not clipped, but each agent's gradient is clipped to
    [max_grad_norm] before its optimizer steps. *)
Theorem policy_clips_with_flag_off :
  let T := demo_trainer 0 0 1 false in
  _use_max_grad_norm T = false
  /\ exists h d,
       ppo_update T [] near_sample 0 = Ok (h, d)
       /\ ~ In (ClipGradNorm CriticParams (max_grad_norm T)) h
       /\ In (ClipGradNorm (AgentParams 0%nat) (max_grad_norm T)) h
       /\ In (ClipGradNorm (AgentParams 1%nat) (max_grad_norm T)) h.
Proof.
  cbv zeta. split; [reflexivity |].
  unfold ppo_update, critic_update. simpl. change (1 / 1) with 1. simpl.
  unfold policy_accumulate. simpl.
  unfold chunk_end, cal_policy_loss. simpl.
  replace (- ln 2 + - - ln 2)%R with 0%R by lra. rewrite exp_0.
  match goal with
  | |- context [if ?c then _ else _] => assert (Hg : c = false)
  end.
  { fl_unfold. simpl. fl_decide. simpl. apply Rltb_false. lra. }
  rewrite Hg. simpl.
  eexists _, _. split; [reflexivity |]. split; [| split].
  - simpl. intros H.
    repeat (destruct H as [H | H]; [discriminate H |]). exact H.
  - simpl. tauto.
  - simpl. tauto.
Qed.

Lemma py_slice_map {A C} (f : A -> C) (l : list A) s e :
  py_slice (map f l) s e = map f (py_slice l s e).
Proof.
  unfold py_slice. rewrite length_map, skipn_map, firstn_map. reflexivity.
Qed.

(** The demo system computes row by row, whatever the history. *)
Lemma demo_rowwise_values h obs toks :
  rowwise_values (B := backend) h obs toks.
Proof.
  intros e start stop _. simpl. unfold tmap. symmetry. apply py_slice_map.
Qed.

Lemma demo_rowwise_logits h obs toks a :
  rowwise_logits (B := backend) h obs toks a.
Proof.
  intros e start stop _. simpl. unfold tmap.
  rewrite py_slice_map. f_equal.
  destruct a as [i |]; [| reflexivity].
  unfold py_agent_slice. symmetry. apply py_slice_map.
Qed.



End DemoRuns.

(** * Further properties *)

(** ** The partition into chunks *)

Section Partition.
Context {A : Type}.
Variables (l : list A) (batch_size cp : Z).
Hypothesis (Hcp : 0 < cp).
Hypothesis (Hlen : Z.of_nat (List.length l) = batch_size).

Let n : nat := Z.to_nat ((batch_size - 0 + cp - 1) / cp).

Lemma py_range_starts :
  py_range 0 batch_size cp = map (fun i => Z.of_nat i * cp) (seq 0 n).
Proof.
  unfold py_range. destruct (Z.ltb_spec 0 cp); [reflexivity | lia].
Qed.

Lemma chunk_count_bounds :
  batch_size <= Z.of_nat n * cp
  /\ forall j, (j < n)%nat -> Z.of_nat j * cp < batch_size.
Proof.
  unfold n.
  pose proof (Z.div_mod (batch_size - 0 + cp - 1) cp ltac:(lia)) as Hdm.
  pose proof (Z.mod_pos_bound (batch_size - 0 + cp - 1) cp Hcp) as Hr.
  set (q := (batch_size - 0 + cp - 1) / cp) in *.
  assert (Hq : 0 <= q) by (apply Z.div_pos; lia).
  rewrite Z2Nat.id by exact Hq. split; [nia |].
  intros j Hj. assert (Z.of_nat j < q) by lia. nia.
Qed.

Lemma chunks_from m : forall j,
  (j + m = n)%nat ->
  List.concat (map (fun start => py_slice l start (chunk_end start cp batch_size))
              (map (fun i => Z.of_nat i * cp) (seq j m)))
  = skipn (j * Z.to_nat cp) l.
Proof.
  destruct chunk_count_bounds as [Hup Hlow].
  induction m as [| m IH]; intros j Hj.
  - cbn [seq map List.concat]. symmetry. apply skipn_all2. nia.
  - cbn [seq map List.concat]. rewrite IH by lia.
    assert (Hs : Z.of_nat j * cp < batch_size) by (apply Hlow; lia).
    assert (Hjc : Z.to_nat (Z.of_nat j * cp) = (j * Z.to_nat cp)%nat) by nia.
    unfold chunk_end.
    destruct (Z.ltb_spec batch_size (Z.of_nat j * cp + cp)) as [Hlast | Hfull].
    + rewrite py_slice_rows by lia. rewrite Hjc. unfold rows.
      rewrite firstn_all2 by (rewrite length_skipn; nia).
      rewrite (skipn_all2 (n := S j * Z.to_nat cp)) by nia.
      apply app_nil_r.
    + rewrite py_slice_rows by lia. rewrite Hjc.
      replace (Z.to_nat (Z.of_nat j * cp + cp - Z.of_nat j * cp))
        with (Z.to_nat cp) by lia.
      rewrite (rows_split (j * Z.to_nat cp) (Z.to_nat cp) l).
      f_equal. f_equal. lia.
Qed.

Lemma sizes_from m : forall j,
  (j + m = n)%nat ->
  zsum (map (fun start => chunk_end start cp batch_size - start)
            (map (fun i => Z.of_nat i * cp) (seq j m)))
  = Z.max 0 (batch_size - Z.of_nat j * cp).
Proof.
  destruct chunk_count_bounds as [Hup Hlow].
  induction m as [| m IH]; intros j Hj.
  - cbn [seq map]. unfold zsum. cbn [fold_right]. nia.
  - cbn [seq map]. unfold zsum in *. cbn [fold_right]. rewrite IH by lia.
    assert (Hs : Z.of_nat j * cp < batch_size) by (apply Hlow; lia).
    unfold chunk_end.
    destruct (Z.ltb_spec batch_size (Z.of_nat j * cp + cp)); nia.
Qed.

(** X1.  For every positive chunk size, also one that does not divide the
    batch size, the chunks of lines 115-121 are the batch itself, cut in
    order: no row is lost and none is processed twice.  The sizes
    [end - start] add up to the batch size, so the weights
    [(end - start) / batch_size] add up to 1; every chunk runs from a
    start inside the batch and holds between 1 and [cp_batch_size]
    rows. *)
Theorem chunks_partition :
  List.concat (chunks_of l batch_size cp) = l
  /\ zsum (chunk_sizes batch_size cp) = batch_size
  /\ (0 < batch_size ->
      rsum (map (fun size => IZR size / IZR batch_size)%R
                (chunk_sizes batch_size cp)) = 1%R)
  /\ Forall (fun start =>
               0 <= start < batch_size
               /\ 1 <= chunk_end start cp batch_size - start <= cp
               /\ chunk_end start cp batch_size <= batch_size)
            (py_range 0 batch_size cp).
Proof.
  assert (Hsum : zsum (chunk_sizes batch_size cp) = batch_size).
  { unfold chunk_sizes. rewrite py_range_starts.
    rewrite (sizes_from n 0%nat) by lia. lia. }
  split; [| split; [exact Hsum | split]].
  - unfold chunks_of. rewrite py_range_starts.
    rewrite (chunks_from n 0%nat) by lia. reflexivity.
  - intros HB.
    assert (Hdiv : forall sizes,
              rsum (map (fun size => IZR size / IZR batch_size)%R sizes)
              = (IZR (zsum sizes) / IZR batch_size)%R).
    { induction sizes as [| z sizes IH]; unfold rsum, zsum in *;
        cbn [map fold_right].
      - unfold Rdiv. rewrite Rmult_0_l. reflexivity.
      - rewrite IH, plus_IZR. unfold Rdiv. ring. }
    rewrite Hdiv, Hsum. apply Rdiv_diag. apply not_0_IZR. lia.
  - rewrite py_range_starts. apply Forall_forall. intros start Hin.
    apply in_map_iff in Hin. destruct Hin as (j & <- & Hj).
    apply in_seq in Hj. destruct chunk_count_bounds as [_ Hlow].
    specialize (Hlow j ltac:(lia)). unfold chunk_end.
    destruct (Z.ltb_spec batch_size (Z.of_nat j * cp + cp)); nia.
Qed.

End Partition.

(** ** The chunk size and the number of chunks *)

Section ChunkCount.
Context {B : Backend}.
Variable self : trainer.

Lemma py_range_length (batch_size cp : Z) :
  0 < cp ->
  List.length (py_range 0 batch_size cp)
  = Z.to_nat ((batch_size + cp - 1) / cp).
Proof.
  intros Hcp. unfold py_range. destruct (Z.ltb_spec 0 cp); [| lia].
  rewrite length_map, length_seq. f_equal. f_equal. lia.
Qed.

(** X2.  With [gradient_cp_steps = s > 0]: a batch smaller than [s] gets
    [cp_batch_size = 1] and the warning, and one chunk per row; a batch of
    at least [s] rows gets [cp_batch_size = batch_size // s] without a
    warning, and [s + ceil((batch_size % s) / cp_batch_size)] chunks,
    which is [s] chunks exactly when [s] divides the batch size: the
    remainder goes to chunks of its own, not to the last of [s]. *)
Theorem chunk_count (h : history Agent) (batch_size : Z) :
  let s := gradient_cp_steps self in
  0 < s ->
  0 <= batch_size ->
  (batch_size < s ->
   cp_batch_size_of self h batch_size
   = Ok (h ++ [Print "gradient_cp_steps > batch_size, set cp_batch_size = 1"],
         1)
   /\ Z.of_nat (List.length (py_range 0 batch_size 1)) = batch_size)
  /\ (s <= batch_size ->
      let cp := batch_size / s in
      cp_batch_size_of self h batch_size = Ok (h, cp)
      /\ 1 <= cp
      /\ Z.of_nat (List.length (py_range 0 batch_size cp))
         = s + (batch_size mod s + cp - 1) / cp
      /\ (Z.of_nat (List.length (py_range 0 batch_size cp)) = s
          <-> batch_size mod s = 0)).
Proof.
  cbv zeta. intros Hs HB. unfold cp_batch_size_of, py_floordiv.
  destruct (Z.eqb_spec (gradient_cp_steps self) 0) as [| _]; [lia |].
  cbn [bind]. split.
  - intros Hsmall. rewrite (Z.div_small batch_size) by lia. split.
    + reflexivity.
    + rewrite py_range_length by lia.
      replace (batch_size + 1 - 1) with batch_size by lia.
      rewrite Z.div_1_r. lia.
  - intros Hbig.
    set (s := gradient_cp_steps self) in *. set (cp := batch_size / s).
    pose proof (Z.div_mod batch_size s ltac:(lia)) as Hdm.
    pose proof (Z.mod_pos_bound batch_size s Hs) as Hr.
    fold cp in Hdm. set (r := batch_size mod s) in *.
    assert (Hcp : 1 <= cp).
    { unfold cp. apply Z.div_le_lower_bound; lia. }
    destruct (Z.eqb_spec cp 0) as [| _]; [lia |].
    assert (Hlen : Z.of_nat (List.length (py_range 0 batch_size cp))
                   = s + (r + cp - 1) / cp).
    { rewrite py_range_length by lia.
      rewrite Z2Nat.id by (apply Z.div_pos; lia).
      replace (batch_size + cp - 1) with (s * cp + (r + cp - 1)) by lia.
      rewrite Z.div_add_l by lia. reflexivity. }
    repeat split; try assumption.
    + rewrite Hlen. intros Heq.
      assert (Hz : (r + cp - 1) / cp = 0) by lia.
      apply Z.div_small_iff in Hz; lia.
    + intros Hr0. rewrite Hlen, Hr0.
      rewrite Z.div_small by lia. lia.
Qed.

End ChunkCount.

(** ** The order of effects in [ppo_update] *)

Section UpdateTrace.
Context {B : Backend}.
Variable self : trainer.

Lemma passes_S (n : network) (k : nat) :
  passes n (S k) = Forward n :: Backward n (Fin 0) :: passes n k.
Proof. reflexivity. Qed.

Lemma critic_loop_trace starts batch_size cp obs toks vp ret mask :
  starts = [] \/ batch_size <> 0 ->
  forall h vl,
  exists e vl',
    critic_loop self starts batch_size cp obs toks vp ret mask h vl
    = Ok (h ++ e, vl')
    /\ map erase e = passes Critic (List.length starts).
Proof.
  intros Hrun. induction starts as [| start rest IH]; intros h vl.
  - exists [], vl. simpl. rewrite app_nil_r. split; reflexivity.
  - destruct Hrun as [Hnil | HB]; [discriminate |].
    cbn [critic_loop]. unfold py_truediv.
    destruct (Z.eqb_spec batch_size 0); [contradiction |]. cbn [bind].
    match goal with
    | |- context [critic_loop _ _ _ _ _ _ _ _ _ ?h' ?vl'] =>
        destruct (IH (or_intror HB) h' vl') as (e & vl2 & Heq & Hq)
    end.
    rewrite Heq. eexists (_ :: _ :: e), vl2. split.
    + rewrite <- !app_assoc. reflexivity.
    + cbn [map erase List.length]. rewrite Hq, passes_S. reflexivity.
Qed.

Lemma policy_loop_trace starts batch_size cp a obs toks adv lp mask :
  starts = [] \/ batch_size <> 0 ->
  forall h acc,
  exists e acc',
    policy_loop self starts batch_size cp a obs toks adv lp mask h acc
    = Ok (h ++ e, acc')
    /\ map erase e = passes Policy (List.length starts).
Proof.
  intros Hrun. induction starts as [| start rest IH]; intros h acc.
  - exists [], acc. simpl. rewrite app_nil_r. split; reflexivity.
  - destruct Hrun as [Hnil | HB]; [discriminate |].
    cbn [policy_loop]. unfold py_truediv.
    destruct (Z.eqb_spec batch_size 0); [contradiction |]. cbn [bind].
    destruct (cal_policy_loss _ _ _ _ _ _) as [[pl kl] en].
    match goal with
    | |- context [policy_loop _ _ _ _ _ _ _ _ _ _ ?h' ?acc'] =>
        destruct (IH (or_intror HB) h' acc') as (e & acc2 & Heq & Hq)
    end.
    rewrite Heq. eexists (_ :: _ :: e), acc2. split.
    + rewrite <- !app_assoc. reflexivity.
    + cbn [map erase List.length]. rewrite Hq, passes_S. reflexivity.
Qed.

Lemma cp_batch_size_value_of (h : history Agent) (batch_size : Z) :
  gradient_cp_steps self <> 0 ->
  exists warn,
    cp_batch_size_of self h batch_size
    = Ok (h ++ warn, cp_batch_size_value self batch_size)
    /\ (warn = [] \/ exists msg, warn = [Print msg]).
Proof.
  intros Hcp. unfold cp_batch_size_of, cp_batch_size_value, py_floordiv.
  destruct (Z.eqb_spec (gradient_cp_steps self) 0); [contradiction |].
  cbn [bind].
  destruct (Z.eqb_spec (batch_size / gradient_cp_steps self) 0).
  - eexists [_]. split; [reflexivity | right; eauto].
  - exists []. rewrite app_nil_r. split; [reflexivity | left; reflexivity].
Qed.

Lemma critic_step_trace (h : history Agent) :
  exists e g,
    critic_step self h = (h ++ e, g)
    /\ map erase e
       = (if _use_max_grad_norm self
          then [ClipGradNorm CriticParams (max_grad_norm self)] else [])
         ++ [OptStep CriticOpt].
Proof.
  unfold critic_step. destruct (_use_max_grad_norm self); simpl.
  - eexists [_; _], _. rewrite <- app_assoc. split; reflexivity.
  - eexists [_], _. split; reflexivity.
Qed.

(** Lines 87-133 on a trainer whose divisors are not 0. *)
Lemma critic_update_trace h smp global_steps :
  divisors_nonzero self ->
  let batch_size := Z.of_nat (List.length (rollout_observations smp)) in
  let cp := cp_batch_size_value self batch_size in
  exists warn e a value_loss critic_grad_norm,
    critic_update self h smp global_steps
    = Ok (h ++ warn ++ e, a, cp, value_loss, critic_grad_norm)
    /\ (warn = [] \/ exists msg, warn = [Print msg])
    /\ map erase e
       = critic_trace self (List.length (py_range 0 batch_size cp))
    /\ agent_to_train_of self global_steps = Ok a.
Proof.
  intros Hd. cbv zeta.
  destruct (agent_to_train_total self global_steps Hd) as (a & Ha).
  destruct Hd as [_ Hcp].
  unfold critic_update. rewrite Ha. cbn [bind].
  set (bs := Z.of_nat (List.length (rollout_observations smp))).
  destruct (cp_batch_size_value_of h bs Hcp) as (warn & H1 & Hw).
  rewrite H1. cbn [bind].
  set (cp := cp_batch_size_value self bs).
  match goal with
  | |- context [critic_loop _ ?s ?b ?c ?o ?t ?v ?r ?m ?h0 ?vl0] =>
      destruct (critic_loop_trace s b c o t v r m (py_range_runs b c) h0 vl0)
        as (e2 & vl & H2 & Hq2)
  end.
  rewrite H2. cbn [bind].
  match goal with
  | |- context [critic_step _ ?h0] =>
      destruct (critic_step_trace h0) as (e3 & cgn & H3 & Hq3)
  end.
  rewrite H3.
  exists warn, (ZeroGrad CriticOpt :: e2 ++ e3), a, vl, cgn.
  repeat split.
  - repeat (rewrite <- app_assoc; simpl). reflexivity.
  - exact Hw.
  - cbn [map erase]. rewrite map_app, Hq2, Hq3. reflexivity.
Qed.

Lemma policy_accumulate_trace h smp a cp :
  let batch_size := Z.of_nat (List.length (rollout_observations smp)) in
  exists e acc,
    policy_accumulate self h smp a cp = Ok (h ++ e, acc)
    /\ map erase e
       = policy_trace self (List.length (py_range 0 batch_size cp)).
Proof.
  cbv zeta. unfold policy_accumulate.
  match goal with
  | |- context [policy_loop _ ?s ?b ?c ?a' ?o ?t ?v ?r ?m ?h0 ?acc0] =>
      destruct (policy_loop_trace s b c a' o t v r m (py_range_runs b c)
                                  h0 acc0)
        as (e2 & acc & H2 & Hq2)
  end.
  rewrite H2. eexists (_ ++ e2), acc. split.
  - rewrite <- app_assoc. reflexivity.
  - rewrite map_app, Hq2, map_map. reflexivity.
Qed.

(** The agent a rotation selects exists when [num_agent] is the number
    of agents. *)
Lemma rotation_index_valid (a : Z) :
  agents <> [] ->
  num_agent self = Z.of_nat (List.length agents) ->
  forall x, a = x mod num_agent self ->
  exists agent,
    py_getitem agents a = Ok agent
    /\ nth_error agents (Z.to_nat a) = Some agent.
Proof.
  intros Hne HN x ->.
  assert (Hpos : 0 < num_agent self).
  { rewrite HN. destruct agents; [contradiction | simpl; lia]. }
  pose proof (Z.mod_pos_bound x (num_agent self) Hpos) as Hb.
  unfold py_getitem.
  destruct (Z.ltb_spec (x mod num_agent self) 0); [lia |].
  rewrite <- HN.
  destruct (Z.ltb_spec (x mod num_agent self) 0); [lia |].
  destruct (Z.leb_spec (num_agent self) (x mod num_agent self)); [lia |].
  cbn [orb].
  destruct (nth_error agents (Z.to_nat (x mod num_agent self))) eqn:E.
  - eauto.
  - apply nth_error_None in E. lia.
Qed.

Lemma joint_norms_last (ags : list Agent) :
  ags <> [] ->
  forall h, exists g,
    last (map Some (joint_norms self h ags)) None = Some g.
Proof.
  destruct ags as [| a0 ags]; [contradiction |]. intros _.
  revert a0. induction ags as [| a1 ags IH]; intros b h0.
  - eexists. reflexivity.
  - destruct (IH a1 (h0 ++ agent_step_events self b)) as (g & Hg).
    exists g. exact Hg.
Qed.

Lemma policy_commit_trained h a x :
  well_configured self ->
  agent_to_train_of self x = Ok a ->
  exists g t,
    policy_commit self h a
    = Ok (h ++ commit_trace self (trained_agents a), Some g, t)
    /\ trained_agents a <> [].
Proof.
  intros (Hd & Hreg & Hne & HN) Ha.
  unfold agent_to_train_of in Ha.
  destruct (Z.ltb_spec 0 (agent_iteration_interval self)) as [HI | HI].
  - destruct Hd as [Hd _]. specialize (Hd HI). specialize (HN HI).
    unfold py_floordiv, py_mod in Ha.
    destruct (Z.eqb_spec (agent_iteration_interval self) 0); [lia |].
    cbn [bind] in Ha.
    destruct (Z.eqb_spec (num_agent self) 0); [contradiction |].
    cbn [bind] in Ha. injection Ha as <-.
    destruct (rotation_index_valid _ Hne HN
                (x / agent_iteration_interval self + 1) eq_refl)
      as (ag & Hg & Hn).
    unfold policy_commit, trained_agents. rewrite Hg. cbn [bind].
    rewrite (agent_step_registered self).
    + cbn [bind]. eexists _, _. split; [| discriminate].
      unfold commit_trace. cbn [flat_map]. rewrite app_nil_r. reflexivity.
    + apply Hreg. eapply nth_error_In. exact Hn.
  - injection Ha as <-. rewrite (policy_commit_joint self h Hreg).
    unfold trained_agents, commit_trace.
    destruct (@agents B) as [| a0 ags] eqn:E; [contradiction |].
    destruct (joint_norms_last (a0 :: ags) ltac:(discriminate) h)
      as (g & Hg).
    rewrite Hg.
    eexists _, _. split; [reflexivity | discriminate].
Qed.

(** X4.  On a well-configured trainer [ppo_update] raises nothing, for
    any minibatch and any step, and its effects come in a fixed order.
    After the optional warning of line 108: the critic's [zero_grad], one
    forward and one backward pass of the critic per chunk, the critic's
    gradient clipping when [use_max_grad_norm] is set, the critic
    optimizer's step.  From [warmup_steps] on: [zero_grad] on every policy
    optimizer, one forward and one backward pass of the agents per chunk,
    and, unless the accumulated KL is above the threshold, gradient
    clipping and optimizer step for the selected agent (rotation) or for
    each agent in turn (joint update).  The returned tuple is the one of
    the branch taken. *)
Theorem ppo_update_trace (h : history Agent) (smp : sample Obs Act)
    (global_steps : Z) :
  well_configured self ->
  let batch_size := Z.of_nat (List.length (rollout_observations smp)) in
  let cp := cp_batch_size_value self batch_size in
  let chunks := List.length (py_range 0 batch_size cp) in
  exists warn e1 a value_loss critic_grad_norm,
    (warn = [] \/ exists msg, warn = [Print msg])
    /\ map erase e1 = critic_trace self chunks
    /\ agent_to_train_of self global_steps = Ok a
    /\ ((global_steps < warmup_steps self
         /\ ppo_update self h smp global_steps
            = Ok (h ++ warn ++ e1,
                  (value_loss, PyFloat critic_grad_norm,
                   PyInt 0, PyInt 0, PyInt 0, PyInt 0)))
        \/ (warmup_steps self <= global_steps
            /\ exists e2 acc,
                 map erase e2 = policy_trace self chunks
                 /\ ((Float.gtb (total_approx_kl acc) kl_threshold = true
                      /\ ppo_update self h smp global_steps
                         = Ok (h ++ warn ++ e1 ++ e2,
                               (value_loss, PyFloat critic_grad_norm,
                                PyInt 0, PyInt 0,
                                PyFloat (total_approx_kl acc),
                                PyFloat (total_entropy acc))))
                     \/ (Float.gtb (total_approx_kl acc) kl_threshold = false
                         /\ trained_agents a <> []
                         /\ exists policy_grad_norm,
                              ppo_update self h smp global_steps
                              = Ok (h ++ warn ++ e1 ++ e2
                                      ++ commit_trace self (trained_agents a),
                                    (value_loss, PyFloat critic_grad_norm,
                                     PyFloat (policy_loss acc),
                                     PyTensor policy_grad_norm,
                                     PyFloat (total_approx_kl acc),
                                     PyFloat (total_entropy acc))))))).
Proof.
  intros Hwc. cbv zeta.
  destruct (critic_update_trace h smp global_steps (proj1 Hwc))
    as (warn & e1 & a & vl & cgn & Hc & Hw & He1 & Ha).
  exists warn, e1, a, vl, cgn.
  split; [exact Hw |]. split; [exact He1 |]. split; [exact Ha |].
  unfold ppo_update. rewrite Hc. cbn [bind].
  destruct (Z.ltb_spec global_steps (warmup_steps self)) as [Hlt | Hge].
  - left. split; [exact Hlt | reflexivity].
  - right. split; [exact Hge |].
    destruct (policy_accumulate_trace (h ++ warn ++ e1) smp a
                (cp_batch_size_value self
                   (Z.of_nat (List.length (rollout_observations smp)))))
      as (e2 & acc & Hp & He2).
    exists e2, acc. split; [exact He2 |].
    rewrite Hp. cbn [bind].
    destruct (Float.gtb (total_approx_kl acc) kl_threshold) eqn:Hg.
    + left. split; [reflexivity |]. rewrite <- !app_assoc. reflexivity.
    + right. split; [reflexivity |].
      destruct (policy_commit_trained ((h ++ warn ++ e1) ++ e2) a
                                      global_steps Hwc Ha)
        as (g & t & Hcm & Hne).
      split; [exact Hne |]. exists g. rewrite Hcm. cbn [bind].
      rewrite <- !app_assoc. reflexivity.
Qed.

End UpdateTrace.

(** ** Exceptions of [ppo_update] *)

Section UpdateErrors.
Context {B : Backend}.
Variable self : trainer.

Lemma policy_opt_step_exn h agent e :
  policy_opt_step self h agent = Raise e -> e = KeyError.
Proof.
  unfold policy_opt_step.
  generalize (role agent). intros k.
  induction (policy_optimizer self) as [| [k' v] d IH]; simpl.
  - intros H. injection H as <-. reflexivity.
  - destruct (String.eqb k k'); simpl; [discriminate | exact IH].
Qed.

Lemma agent_step_exn h agent e :
  agent_step self h agent = Raise e -> e = KeyError.
Proof.
  unfold agent_step.
  destruct (policy_opt_step self _ agent) as [h' | e'] eqn:E; simpl.
  - discriminate.
  - intros H. injection H as <-. eapply policy_opt_step_exn. exact E.
Qed.

Lemma joint_step_exn ags : forall h g t e,
  joint_step self ags h g t = Raise e -> e = KeyError.
Proof.
  induction ags as [| agent rest IH]; intros h g t e; simpl.
  - discriminate.
  - destruct (agent_step self h agent) as [[h' n] | e'] eqn:E; simpl.
    + apply IH.
    + intros H. injection H as <-. eapply agent_step_exn. exact E.
Qed.

Lemma policy_commit_exn h a e :
  policy_commit self h a = Raise e -> e = KeyError \/ e = IndexError.
Proof.
  unfold policy_commit. destruct a as [a |].
  - unfold py_getitem.
    destruct (_ || _); simpl.
    + intros H. injection H as <-. right. reflexivity.
    + destruct (nth_error agents _) as [agent |]; simpl.
      * destruct (agent_step self h agent) as [[h' n] | e'] eqn:E; simpl.
        -- discriminate.
        -- intros H. injection H as <-. left. eapply agent_step_exn. exact E.
      * intros H. injection H as <-. right. reflexivity.
  - intros H. left. eapply joint_step_exn. exact H.
Qed.

(** X3.  [ppo_update] raises [ZeroDivisionError] exactly when one of
    its two integer divisors is 0: [num_agent] under a rotation
    ([agent_iteration_interval > 0], line 89), or [gradient_cp_steps]
    (line 105).  An empty minibatch does not raise it: the only
    division by the batch size is inside the chunk loops, which then do
    not run. *)
Theorem ppo_update_zero_division (h : history Agent) (smp : sample Obs Act)
    (global_steps : Z) :
  ppo_update self h smp global_steps = Raise ZeroDivisionError
  <-> ((0 < agent_iteration_interval self /\ num_agent self = 0)
       \/ gradient_cp_steps self = 0).
Proof.
  split.
  - intros Hraise.
    destruct (Z.eq_dec (gradient_cp_steps self) 0) as [| Hcp];
      [right; assumption |].
    destruct (Z.lt_ge_cases 0 (agent_iteration_interval self)) as [HI | HI];
      [destruct (Z.eq_dec (num_agent self) 0) as [| HN];
       [left; split; assumption |] |].
    + exfalso.
      assert (Hd : divisors_nonzero self) by (split; [intros _ |]; assumption).
      revert Hraise. unfold ppo_update.
      destruct (critic_update_total self h smp global_steps Hd)
        as (e & a & cp & vl & cgn & -> & _).
      cbn [bind]. destruct (global_steps <? warmup_steps self);
        [discriminate |].
      destruct (policy_accumulate_total self (h ++ e ++ [OptStep CriticOpt])
                                        smp a cp) as (e2 & acc & -> & _).
      cbn [bind]. destruct (Float.gtb _ _); [discriminate |].
      destruct (policy_commit self _ a) as [[[h' [g |]] t] | ex] eqn:E;
        cbn [bind]; try discriminate.
      intros H. injection H as ->.
      apply policy_commit_exn in E. destruct E; discriminate.
    + exfalso.
      assert (Hd : divisors_nonzero self) by (split; [lia | assumption]).
      revert Hraise. unfold ppo_update.
      destruct (critic_update_total self h smp global_steps Hd)
        as (e & a & cp & vl & cgn & -> & _).
      cbn [bind]. destruct (global_steps <? warmup_steps self);
        [discriminate |].
      destruct (policy_accumulate_total self (h ++ e ++ [OptStep CriticOpt])
                                        smp a cp) as (e2 & acc & -> & _).
      cbn [bind]. destruct (Float.gtb _ _); [discriminate |].
      destruct (policy_commit self _ a) as [[[h' [g |]] t] | ex] eqn:E;
        cbn [bind]; try discriminate.
      intros H. injection H as ->.
      apply policy_commit_exn in E. destruct E; discriminate.
  - intros Hzero. unfold ppo_update, critic_update, agent_to_train_of.
    destruct (Z.ltb_spec 0 (agent_iteration_interval self)) as [HI | HI].
    + unfold py_floordiv at 1.
      destruct (Z.eqb_spec (agent_iteration_interval self) 0); [lia |].
      cbn [bind]. unfold py_mod.
      destruct (Z.eqb_spec (num_agent self) 0) as [HN | HN];
        [reflexivity |].
      cbn [bind]. destruct Hzero as [[_ H0] | Hcp]; [contradiction |].
      unfold cp_batch_size_of, py_floordiv. rewrite Hcp. reflexivity.
    + cbn [bind]. destruct Hzero as [[H0 _] | Hcp]; [lia |].
      unfold cp_batch_size_of, py_floordiv. rewrite Hcp. reflexivity.
Qed.

End UpdateErrors.

(** ** The rotation over agents *)

Section RoundRobin.
Context {B : Backend}.
Variable self : trainer.

(** X5.  The rotation is a round robin: in any [num_agent] consecutive
    windows of [agent_iteration_interval] steps, every agent index
    [0 <= j < num_agent] is the selected one in exactly one window, for
    all the steps of that window. *)
Theorem rotation_round_robin (k0 j : Z) :
  let I := agent_iteration_interval self in
  let N := num_agent self in
  0 < I -> 0 <= j < N ->
  exists k,
    k0 <= k < k0 + N
    /\ (forall global_steps,
          k * I <= global_steps < (k + 1) * I ->
          agent_to_train_of self global_steps = Ok (Some j))
    /\ (forall k' global_steps,
          k0 <= k' < k0 + N ->
          k' * I <= global_steps < (k' + 1) * I ->
          agent_to_train_of self global_steps = Ok (Some j) ->
          k' = k).
Proof.
  cbv zeta. intros HI Hj.
  set (I := agent_iteration_interval self) in *.
  set (N := num_agent self) in *.
  assert (HN : 0 < N) by lia.
  pose proof (Z.mod_pos_bound (j - k0 - 1) N HN) as Hb.
  assert (Hsel : forall k global_steps,
             k * I <= global_steps < (k + 1) * I ->
             agent_to_train_of self global_steps
             = Ok (Some ((k + 1) mod N))).
  { intros k gs Hk.
    rewrite (agent_to_train_rotating self gs HI) by (fold N; lia).
    fold I N. rewrite (time_slice_in_window gs k I HI Hk). reflexivity. }
  assert (Hk1 : (k0 + (j - k0 - 1) mod N + 1) mod N = j).
  { replace (k0 + (j - k0 - 1) mod N + 1)
      with ((k0 + 1) + (j - k0 - 1) mod N) by lia.
    rewrite Zplus_mod_idemp_r.
    replace (k0 + 1 + (j - k0 - 1)) with j by lia.
    apply Z.mod_small. lia. }
  exists (k0 + (j - k0 - 1) mod N). split; [lia |]. split.
  - intros gs Hk. rewrite (Hsel _ gs Hk), Hk1. reflexivity.
  - intros k' gs Hk' Hw Hsome. rewrite (Hsel _ gs Hw) in Hsome.
    injection Hsome as Hm.
    set (k := k0 + (j - k0 - 1) mod N) in *.
    pose proof (Z.div_mod (k' + 1) N ltac:(lia)) as D1.
    pose proof (Z.div_mod (k + 1) N ltac:(lia)) as D2.
    rewrite Hm in D1. rewrite Hk1 in D2.
    assert (Hk : k0 <= k < k0 + N) by (unfold k; lia).
    assert (Hq : (k' + 1) / N = (k + 1) / N) by nia.
    rewrite Hq in D1. lia.
Qed.

End RoundRobin.

(** ** Degenerate minibatches *)

Section Degenerate.
Context {B : Backend}.
Variable self : trainer.

Lemma kl_zero_passes :
  Float.gtb (Fin 0) kl_threshold = false.
Proof.
  unfold Float.gtb, kl_threshold, Float.ltb. apply Rltb_false. lra.
Qed.

Lemma kl_nan_passes : Float.gtb NaN kl_threshold = false.
Proof. reflexivity. Qed.

(** X6.  An empty minibatch (no rollout observation) makes
    [ppo_update] print the warning of line 108 and run no forward or
    backward pass, but the optimizers step all the same: the critic's
    always, and from [warmup_steps] on the policy optimizers too, since an
    accumulated KL of [0.0] passes the gate.  [value_loss] is returned as
    the integer [0] it was initialised with. *)
Theorem empty_minibatch (h : history Agent) (smp : sample Obs Act)
    (global_steps : Z) :
  well_configured self ->
  rollout_observations smp = [] ->
  exists a critic_grad_norm,
    agent_to_train_of self global_steps = Ok a
    /\ let h1 :=
         h ++ [Print "gradient_cp_steps > batch_size, set cp_batch_size = 1";
               ZeroGrad CriticOpt]
           ++ (if _use_max_grad_norm self
               then [ClipGradNorm CriticParams (max_grad_norm self)]
               else [])
           ++ [OptStep CriticOpt] in
       (global_steps < warmup_steps self ->
        ppo_update self h smp global_steps
        = Ok (h1, (PyInt 0, PyFloat critic_grad_norm,
                   PyInt 0, PyInt 0, PyInt 0, PyInt 0)))
       /\ (warmup_steps self <= global_steps ->
           trained_agents a <> []
           /\ exists policy_grad_norm,
                ppo_update self h smp global_steps
                = Ok (h1 ++ map (fun k => ZeroGrad (PolicyOpt k))
                                (dict_keys (policy_optimizer self))
                         ++ commit_trace self (trained_agents a),
                      (PyInt 0, PyFloat critic_grad_norm,
                       PyFloat (Fin 0), PyTensor policy_grad_norm,
                       PyFloat (Fin 0), PyFloat (Fin 0)))).
Proof.
  intros Hwc Hobs. pose proof Hwc as (Hd & _).
  destruct (agent_to_train_total self global_steps Hd) as (a & Ha).
  destruct Hd as [_ Hcp].
  assert (Hcrit : exists cgn,
    critic_update self h smp global_steps
    = Ok (h ++ [Print "gradient_cp_steps > batch_size, set cp_batch_size = 1";
                ZeroGrad CriticOpt]
            ++ (if _use_max_grad_norm self
                then [ClipGradNorm CriticParams (max_grad_norm self)]
                else [])
            ++ [OptStep CriticOpt], a, 1, PyInt 0, cgn)).
  { unfold critic_update. rewrite Ha, Hobs. cbn [bind List.length Z.of_nat].
    unfold cp_batch_size_of, py_floordiv.
    destruct (Z.eqb_spec (gradient_cp_steps self) 0); [contradiction |].
    cbn [bind]. rewrite Z.div_0_l by assumption. cbn [Z.eqb bind].
    rewrite py_range_empty_batch. cbn [critic_loop bind].
    unfold critic_step. destruct (_use_max_grad_norm self).
    - eexists. rewrite <- !app_assoc. reflexivity.
    - eexists. rewrite <- !app_assoc. reflexivity. }
  destruct Hcrit as (cgn & Hcrit).
  exists a, cgn. split; [exact Ha |]. cbv zeta. split.
  - intros Hw. unfold ppo_update. rewrite Hcrit. cbn [bind].
    destruct (Z.ltb_spec global_steps (warmup_steps self)); [| lia].
    reflexivity.
  - intros Hw.
    match type of Hcrit with
    | _ = Ok (?h1, _, _, _, _) =>
        destruct (policy_commit_trained self
                    (h1 ++ map (fun k => ZeroGrad (PolicyOpt k))
                               (dict_keys (policy_optimizer self)))
                    a global_steps Hwc Ha) as (g & t & Hcm & Hne)
    end.
    split; [exact Hne |]. exists g.
    unfold ppo_update. rewrite Hcrit. cbn [bind].
    destruct (Z.ltb_spec global_steps (warmup_steps self)); [lia |].
    unfold policy_accumulate. rewrite Hobs. cbn [List.length Z.of_nat].
    rewrite py_range_empty_batch. cbn [policy_loop bind total_approx_kl].
    rewrite kl_zero_passes. rewrite Hcm. cbn [bind].
    rewrite <- !app_assoc. reflexivity.
Qed.

(** Slices of a mask of zeros. *)
Lemma in_py_slice {A} (l : list A) s e x :
  In x (py_slice l s e) -> In x l.
Proof.
  unfold py_slice.
  set (n := Z.to_nat _). set (i := Z.to_nat _). intros Hin.
  rewrite <- (firstn_skipn i l). apply in_or_app. right.
  rewrite <- (firstn_skipn n (skipn i l)). apply in_or_app. left.
  exact Hin.
Qed.

Lemma all_zero_slice (mask : tensor Z) s e :
  all_zero mask -> all_zero (py_slice mask s e).
Proof.
  unfold all_zero. rewrite !Forall_forall. intros Hz m Hm.
  apply in_flatten in Hm. destruct Hm as (r & c & Hr & Hc & Hm).
  apply Hz. apply in_flatten. exists r, c.
  split; [eapply in_py_slice; exact Hr | split; assumption].
Qed.

Lemma all_zero_select (mask : tensor Z) a :
  all_zero mask -> all_zero (select_agent a mask).
Proof.
  destruct a as [a |]; [| exact (fun H => H)].
  unfold all_zero, select_agent, py_agent_slice.
  rewrite !Forall_forall. intros Hz m Hm.
  apply in_flatten in Hm. destruct Hm as (r & c & Hr & Hc & Hm).
  apply in_map_iff in Hr. destruct Hr as (r0 & <- & Hr0).
  apply Hz. apply in_flatten. exists r0, c.
  split; [exact Hr0 | split; [eapply in_py_slice; exact Hc | exact Hm]].
Qed.

Lemma all_zero_mean (v : tensor float) (mask : tensor Z) :
  all_zero mask -> masked_mean v mask = NaN.
Proof.
  intros Hz. apply masked_mean_zero_mask.
  - unfold binary_mask. eapply Forall_impl; [| exact Hz].
    intros m ->. left. reflexivity.
  - unfold tsumZ. unfold all_zero in Hz.
    induction (flatten mask) as [| m l IH]; [reflexivity |].
    inversion Hz as [| ? ? Hm Hl]; subst. unfold zsum in *.
    cbn [fold_right]. rewrite (IH Hl). reflexivity.
Qed.

Lemma all_pad_mask (toks : tensor Z) :
  all_pad toks -> all_zero (cal_token_mask toks).
Proof.
  unfold all_pad, all_zero, cal_token_mask. rewrite flatten_tmap.
  intros Hp. apply Forall_map. eapply Forall_impl; [| exact Hp].
  intros tok ->. rewrite Z.eqb_refl. reflexivity.
Qed.

Lemma add_nan (x : float) : (x + NaN)%fl = NaN.
Proof. destruct x as [r | s |]; reflexivity. Qed.

Lemma py_add_nan (v : pyval) :
  is_number v -> py_add v (PyFloat NaN) = PyFloat NaN.
Proof.
  destruct v as [z | x | x]; simpl; intros Hn;
    [reflexivity | rewrite add_nan; reflexivity | contradiction].
Qed.

Lemma critic_loop_all_zero starts batch_size cp obs toks vp ret mask :
  batch_size <> 0 -> all_zero mask ->
  forall h vl, is_number vl ->
  exists e vl',
    critic_loop self starts batch_size cp obs toks vp ret mask h vl
    = Ok (h ++ e, vl')
    /\ is_number vl'
    /\ (starts <> [] -> vl' = PyFloat NaN /\ In (Backward Critic NaN) e).
Proof.
  intros HB Hz. induction starts as [| start rest IH]; intros h vl Hn.
  - exists [], vl. simpl. rewrite app_nil_r.
    split; [reflexivity | split; [exact Hn | contradiction]].
  - cbn [critic_loop]. unfold py_truediv.
    destruct (Z.eqb_spec batch_size 0); [contradiction |]. cbn [bind].
    unfold cal_value_loss.
    rewrite (all_zero_mean _ _ (all_zero_slice mask _ _ Hz)).
    cbn [Float.mul]. rewrite (py_add_nan vl Hn).
    match goal with
    | |- context [critic_loop _ _ _ _ _ _ _ _ _ ?h' _] =>
        destruct (IH h' (PyFloat NaN) I) as (e & vl2 & Heq & Hn2 & Hlast)
    end.
    rewrite Heq. eexists (_ :: _ :: e), vl2. split.
    + rewrite <- !app_assoc. reflexivity.
    + split; [exact Hn2 |]. intros _. split.
      * destruct rest as [| s2 rest'].
        -- simpl in Heq. injection Heq as _ <-. reflexivity.
        -- apply Hlast. discriminate.
      * right. left. reflexivity.
Qed.

Lemma policy_loop_all_zero starts batch_size cp a obs toks adv lp mask :
  batch_size <> 0 -> all_zero mask ->
  forall h acc,
  exists e acc',
    policy_loop self starts batch_size cp a obs toks adv lp mask h acc
    = Ok (h ++ e, acc')
    /\ map erase e = passes Policy (List.length starts)
    /\ (starts <> [] ->
        acc' = {| total_approx_kl := NaN; total_entropy := NaN;
                  policy_loss := NaN |}
        /\ In (Backward Policy NaN) e).
Proof.
  intros HB Hz. induction starts as [| start rest IH]; intros h acc.
  - exists [], acc. simpl. rewrite app_nil_r.
    split; [reflexivity | split; [reflexivity | contradiction]].
  - cbn [policy_loop]. unfold py_truediv.
    destruct (Z.eqb_spec batch_size 0); [contradiction |]. cbn [bind].
    unfold cal_policy_loss.
    rewrite !(all_zero_mean _ _
                (all_zero_select _ a (all_zero_slice mask _ _ Hz))).
    cbn [Float.mul]. rewrite !add_nan.
    match goal with
    | |- context [policy_loop _ _ _ _ _ _ _ _ _ _ ?h' ?acc'] =>
        destruct (IH h' acc') as (e & acc2 & Heq & Htr & Hlast)
    end.
    rewrite Heq. eexists (_ :: _ :: e), acc2. split.
    + rewrite <- !app_assoc. reflexivity.
    + split.
      * cbn [map erase List.length]. rewrite Htr. reflexivity.
      * intros _. split.
        -- destruct rest as [| s2 rest'].
           ++ simpl in Heq. injection Heq as _ <-. reflexivity.
           ++ apply Hlast. discriminate.
        -- right. left. reflexivity.
Qed.

Lemma chunks_exist (batch_size : Z) :
  0 < gradient_cp_steps self -> 0 < batch_size ->
  py_range 0 batch_size (cp_batch_size_value self batch_size) <> [].
Proof.
  intros Hs HB Hnil.
  assert (Hcp : 0 < cp_batch_size_value self batch_size).
  { unfold cp_batch_size_value.
    destruct (Z.eqb_spec (batch_size / gradient_cp_steps self) 0); [lia |].
    pose proof (Z.div_pos batch_size (gradient_cp_steps self)
                          ltac:(lia) Hs). lia. }
  apply (f_equal (@List.length Z)) in Hnil.
  rewrite (py_range_length batch_size _ Hcp) in Hnil. cbn [List.length] in Hnil.
  set (cp := cp_batch_size_value self batch_size) in *.
  assert (1 <= (batch_size + cp - 1) / cp).
  { apply Z.div_le_lower_bound; lia. }
  lia.
Qed.

(** X7.  A minibatch whose action tokens are all padding is not
    skipped.  Every chunk's masked means are [0/0]: [backward()] runs on
    a NaN value loss and on a NaN policy loss, the critic optimizer steps,
    and since no comparison with NaN is true the accumulated KL passes the
    gate of line 168, so the policy optimizers step as well.
    [ppo_update] returns NaN for [value_loss], [policy_loss], [approx_kl]
    and [entropy]. *)
Theorem all_pad_minibatch (h : history Agent) (smp : sample Obs Act)
    (global_steps : Z) :
  well_configured self ->
  0 < gradient_cp_steps self ->
  rollout_observations smp <> [] ->
  all_pad (action_tokens smp) ->
  warmup_steps self <= global_steps ->
  exists e a critic_grad_norm policy_grad_norm,
    agent_to_train_of self global_steps = Ok a
    /\ trained_agents a <> []
    /\ ppo_update self h smp global_steps
       = Ok (h ++ e ++ commit_trace self (trained_agents a),
             (PyFloat NaN, PyFloat critic_grad_norm,
              PyFloat NaN, PyTensor policy_grad_norm,
              PyFloat NaN, PyFloat NaN))
    /\ In (Backward Critic NaN) e
    /\ In (OptStep CriticOpt) e
    /\ In (Backward Policy NaN) e.
Proof.
  intros Hwc Hs Hobs Hpad Hw. pose proof Hwc as (Hd & _).
  destruct (agent_to_train_total self global_steps Hd) as (a & Ha).
  destruct Hd as [_ Hcp].
  set (bs := Z.of_nat (List.length (rollout_observations smp))).
  assert (HB : 0 < bs).
  { unfold bs. destruct (rollout_observations smp); [contradiction |].
    cbn [List.length]. lia. }
  pose proof (all_pad_mask _ Hpad) as Hz.
  pose proof (chunks_exist bs Hs HB) as Hch.
  destruct (cp_batch_size_value_of self h bs Hcp) as (warn & H1 & _).
  destruct (critic_loop_all_zero
              (py_range 0 bs (cp_batch_size_value self bs)) bs
              (cp_batch_size_value self bs) (rollout_observations smp)
              (action_tokens smp) (value_preds smp) (returns smp)
              (cal_token_mask (action_tokens smp)) ltac:(lia) Hz
              ((h ++ warn) ++ [ZeroGrad CriticOpt]) (PyInt 0) I)
    as (e1 & vl & H2 & _ & Hv).
  destruct (Hv Hch) as (-> & Hbc).
  destruct (critic_step_trace self
              (((h ++ warn) ++ [ZeroGrad CriticOpt]) ++ e1))
    as (e2 & cgn & H3 & Htr).
  set (h1 := (((h ++ warn) ++ [ZeroGrad CriticOpt]) ++ e1) ++ e2) in *.
  set (h2 := h1 ++ map (fun k => ZeroGrad (PolicyOpt k))
                       (dict_keys (policy_optimizer self))).
  destruct (policy_loop_all_zero
              (py_range 0 bs (cp_batch_size_value self bs)) bs
              (cp_batch_size_value self bs) a (rollout_observations smp)
              (action_tokens smp)
              (normalize_advantages (advantages smp)) (log_probs smp)
              (cal_token_mask (action_tokens smp)) ltac:(lia) Hz h2
              {| total_approx_kl := Fin 0; total_entropy := Fin 0;
                 policy_loss := Fin 0 |})
    as (e3 & acc & H4 & _ & Hacc).
  destruct (Hacc Hch) as (-> & Hbp).
  destruct (policy_commit_trained self (h2 ++ e3) a global_steps Hwc Ha)
    as (g & t & Hcm & Hne).
  exists (warn ++ [ZeroGrad CriticOpt] ++ e1 ++ e2
            ++ map (fun k => ZeroGrad (PolicyOpt k))
                   (dict_keys (policy_optimizer self)) ++ e3),
    a, cgn, g.
  split; [exact Ha |]. split; [exact Hne |]. split; [| split; [| split]].
  - unfold ppo_update, critic_update. rewrite Ha. cbn [bind].
    fold bs. rewrite H1. cbn [bind]. rewrite H2. cbn [bind].
    rewrite H3. cbn [bind].
    destruct (Z.ltb_spec global_steps (warmup_steps self)); [lia |].
    unfold policy_accumulate. fold bs. fold h2. rewrite H4. cbn [bind].
    cbn [total_approx_kl total_entropy policy_loss].
    rewrite kl_nan_passes, Hcm. cbn [bind].
    unfold h2, h1. rewrite <- !app_assoc. reflexivity.
  - rewrite !in_app_iff. tauto.
  - assert (Hin : In (OptStep CriticOpt) (map erase e2)).
    { rewrite Htr. apply in_or_app. right. left. reflexivity. }
    apply in_map_iff in Hin. destruct Hin as (ev & Hev & Hin).
    assert (ev = OptStep CriticOpt)
      by (destruct ev; try discriminate; simpl in Hev; congruence).
    subst ev. rewrite !in_app_iff. tauto.
  - rewrite !in_app_iff. tauto.
Qed.

End Degenerate.

(** ** The token mask and the two losses *)

Lemma tmap_ext_in {A C} (f g : A -> C) (t : tensor A) :
  (forall x, In x (flatten t) -> f x = g x) -> tmap f t = tmap g t.
Proof.
  intros H. unfold tmap.
  apply map_ext_in; intros r Hr. apply map_ext_in; intros c Hc.
  apply map_ext_in; intros x Hx. apply H. apply in_flatten. eauto.
Qed.

Lemma tmap2_ext {A C D} (f g : A -> C -> D) (t : tensor A) (t' : tensor C) :
  (forall x y, f x y = g x y) -> tmap2 f t t' = tmap2 g t t'.
Proof.
  intros H. unfold tmap2.
  apply map2_ext; intros r r'. apply map2_ext; intros c c'.
  apply map2_ext, H.
Qed.

Lemma finite_of_flatten (t : tensor float) :
  Forall (fun x => is_finite x = true) (flatten t) -> finite_tensor t.
Proof.
  rewrite Forall_forall. intros H. unfold finite_tensor.
  apply Forall_forall; intros r Hr. apply Forall_forall; intros c Hc.
  apply Forall_forall; intros x Hx. apply H. apply in_flatten. eauto.
Qed.

Lemma rsum_zero (l : list R) :
  Forall (fun x => x = 0%R) l -> rsum l = 0%R.
Proof.
  induction 1 as [| x l Hx _ IH]; unfold rsum in *; cbn [fold_right];
    [reflexivity | lra].
Qed.

Lemma max_idem (x : float) : Float.max x x = x.
Proof.
  destruct x as [r | [|] |]; simpl; try reflexivity.
  f_equal. apply Rmax_left. lra.
Qed.

Lemma zsum_b2z {A} (p : A -> bool) (l : list A) :
  zsum (map (fun x => Z.b2z (p x)) l)
  = Z.of_nat (List.length (filter p l)).
Proof.
  unfold zsum. induction l as [| x l IH]; [reflexivity |].
  cbn [map fold_right filter]. rewrite IH.
  destruct (p x); cbn [Z.b2z List.length]; lia.
Qed.

Section MaskAndLosses.
Context {B : Backend}.
Variable self : trainer.

(** X8.  The token mask has the shape of the tokens and holds zeros and
    ones only; its sum is the number of tokens that are not padding, so it
    is 0 exactly when every token is the pad token. *)
Theorem cal_token_mask_counts (toks : tensor Z) :
  shape (cal_token_mask toks) = shape toks
  /\ binary_mask (cal_token_mask toks)
  /\ tsumZ (cal_token_mask toks)
     = Z.of_nat
         (List.length
            (filter (fun tok => negb (tok =? pad_token_id)) (flatten toks)))
  /\ (tsumZ (cal_token_mask toks) = 0 <-> all_pad toks).
Proof.
  assert (Hsum : tsumZ (cal_token_mask toks)
                 = Z.of_nat
                     (List.length
                        (filter (fun tok => negb (tok =? pad_token_id))
                                (flatten toks)))).
  { unfold tsumZ, cal_token_mask. rewrite flatten_tmap. apply zsum_b2z. }
  split; [apply shape_tmap |]. split; [apply cal_token_mask_binary |].
  split; [exact Hsum |]. rewrite Hsum. clear Hsum. unfold all_pad.
  induction (flatten toks) as [| tok l IH]; cbn [filter].
  - split; [constructor | reflexivity].
  - destruct (Z.eqb_spec tok pad_token_id) as [-> | Hne]; cbn [negb].
    + rewrite IH. split.
      * intros H. constructor; [reflexivity | exact H].
      * intros H. inversion H; assumption.
    + cbn [List.length]. split.
      * intros H. exfalso. lia.
      * intros H. inversion H; contradiction.
Qed.

(** The per-token approximate KL of finite log-probabilities is a
    number. *)
Lemma token_kl_finite (a b : R) :
  exists k, token_kl (Float.exp (Fin a - Fin b)%fl) = Fin k.
Proof.
  unfold token_kl. rewrite log_exp.
  cbn [Float.sub Float.add Float.opp Float.exp].
  eexists. reflexivity.
Qed.

Lemma surrogate_at_one (A : float) :
  (0 <= clip_param self)%R ->
  token_surrogate (clip_param self) (Fin 1) A = (- A)%fl.
Proof.
  intros He. unfold token_surrogate, Float.clamp.
  cbn [Float.max Float.min Float.opp].
  rewrite (Rmax_left 1 (1 - clip_param self)) by lra.
  rewrite (Rmin_left 1 (1 + clip_param self)) by lra.
  rewrite max_idem.
  destruct A as [a | s |]; cbn [Float.mul Float.opp].
  - f_equal. lra.
  - fl_decide. destruct s; reflexivity.
  - reflexivity.
Qed.

(** X10.  On policy, that is when the log-probabilities of the current
    policy are the stored ones, and with [clip_param >= 0]: every ratio is
    1, the clipping plays no role and the policy loss is the masked mean
    of [-A - entropy_coef * entropy]; the approximate KL is the masked
    mean of zeros, [0.0] for a mask that does not sum to 0. *)
Theorem on_policy_loss (log_prob : tensor R)
    (advantages_ entropy : tensor float) (mask : tensor Z) :
  (0 <= clip_param self)%R ->
  let lp := tmap Fin log_prob in
  let zeros := tmap (fun _ => Fin 0) log_prob in
  cal_policy_loss self lp lp advantages_ entropy mask
  = (masked_mean
       (tmap2 (fun s e => (s - Fin (entropy_coef self) * e)%fl)
              (tmap2 (fun _ A => (- A)%fl) log_prob advantages_) entropy)
       mask,
     masked_mean zeros mask,
     masked_mean entropy mask)
  /\ (tsumZ mask <> 0 -> masked_mean zeros mask = Fin 0).
Proof.
  intros He. cbv zeta. split.
  - rewrite cal_policy_loss_tokens. cbv zeta.
    assert (Hr : ratio_of (tmap Fin log_prob) (tmap Fin log_prob)
                 = tmap (fun _ => Fin 1) log_prob).
    { unfold ratio_of. rewrite tmap2_self, tmap_tmap.
      apply tmap_ext. intros x.
      cbn [Float.sub Float.add Float.opp Float.exp].
      replace (x + - x)%R with 0%R by lra. rewrite exp_0. reflexivity. }
    rewrite Hr. f_equal. f_equal.
    + f_equal. unfold token_losses. f_equal.
      rewrite tmap2_tmap_l. apply tmap2_ext. intros _ A.
      apply surrogate_at_one. exact He.
    + f_equal. rewrite tmap_tmap. apply tmap_ext. intros _.
      unfold token_kl. cbn [Float.sub Float.add Float.opp Float.log].
      rewrite (Reqb_false 1 0) by lra. rewrite (Rltb_false 1 0) by lra.
      rewrite ln_1. cbn [Float.add Float.opp]. f_equal. lra.
  - intros Hm.
    assert (HF : finite_tensor (tmap (fun _ : R => Fin 0) log_prob)).
    { apply finite_of_flatten. rewrite flatten_tmap. apply Forall_map.
      apply Forall_forall. reflexivity. }
    rewrite (masked_mean_finite _ mask HF Hm). f_equal.
    assert (H0 : rdot (tmap (fun _ : R => Fin 0) log_prob) mask = 0%R).
    { unfold rdot. apply rsum_zero. apply Forall_map.
      apply Forall_forall. intros z Hz. unfold tmul_mask in Hz.
      apply in_flatten_tmap2 in Hz. destruct Hz as (x & m & Hx & _ & ->).
      rewrite flatten_tmap in Hx. apply in_map_iff in Hx.
      destruct Hx as (l & <- & _). cbn [Float.mul of_Z to_R]. lra. }
    rewrite H0. unfold Rdiv. lra.
Qed.

(** X11.  Where the new value differs from the stored prediction by at
    most [clip_param], the clipping of lines 71-72 is the identity: the
    clipped and the unclipped loss agree, and [cal_value_loss] is
    [value_loss_coef] times the masked mean of the loss of
    [return - value].  The three inputs are given together, entry by
    entry, as [(value, prediction, return)]. *)
Theorem value_clip_inactive (t : tensor (R * R * R)) (mask : tensor Z) :
  (forall v vp ret, In (v, vp, ret) (flatten t) ->
                    (- clip_param self <= v - vp <= clip_param self)%R) ->
  let values_infer := tmap (fun x => Fin (fst (fst x))) t in
  let value_preds_ := tmap (fun x => Fin (snd (fst x))) t in
  let returns_ := tmap (fun x => Fin (snd x)) t in
  let loss e :=
    if _use_huber_loss self then huber_loss e (huber_delta self)
    else mse_loss e in
  cal_value_loss self values_infer value_preds_ returns_ mask
  = (masked_mean (tmap loss (tmap2 Float.sub returns_ values_infer)) mask
     * Fin (value_loss_coef self))%fl.
Proof.
  intros Hclip. cbv zeta. unfold cal_value_loss. f_equal. f_equal.
  assert (Hpoint : forall x, In x (flatten t) ->
    (Fin (snd (fst x))
     + Float.clamp (Fin (fst (fst x)) - Fin (snd (fst x)))
                   (- clip_param self) (clip_param self))%fl
    = Fin (fst (fst x))).
  { intros [[v vp] ret] Hin. specialize (Hclip v vp ret Hin).
    cbn [fst snd]. unfold Float.clamp.
    cbn [Float.sub Float.add Float.opp Float.max Float.min].
    rewrite Rmax_left by lra. rewrite Rmin_left by lra.
    f_equal. lra. }
  destruct (_use_huber_loss self);
    repeat (rewrite ?tmap2_tmap_l, ?tmap2_tmap_r, ?tmap2_self, ?tmap_tmap);
    apply tmap_ext_in; intros x Hx; cbv beta;
    rewrite (Hpoint x Hx); apply max_idem.
Qed.

End MaskAndLosses.

(** ** Advantage normalization at its edges *)

Section NormalizationEdges.
Open Scope R_scope.

Lemma not_nan_all_marked (l : list float) :
  Forall (fun a => a = Fin 0 \/ a = NaN) l ->
  not_nan (map (fun a => if Float.eqb a (Fin 0) then NaN else a) l) = [].
Proof.
  induction 1 as [| a l [-> | ->] _ IH]; [reflexivity | |];
    unfold not_nan in *; cbn [map filter Float.eqb].
  - rewrite (Reqb_true 0 0) by reflexivity. cbn [is_nan negb]. exact IH.
  - cbn [is_nan negb]. exact IH.
Qed.

Lemma nanmean_empty : nanmean [] = NaN.
Proof.
  unfold nanmean, not_nan, count, fsum, of_Z.
  cbn [filter fold_right List.length Z.of_nat Float.div].
  rewrite !(Reqb_true 0 0) by reflexivity. reflexivity.
Qed.

(** X12.  When no advantage is a non-zero number (all are [0.0], or
    the minibatch is empty), the statistics of lines 96-98 are taken over
    nothing: the mean is NaN and every normalized advantage is NaN. *)
Theorem normalize_all_zero (adv : tensor float) :
  Forall (fun a => a = Fin 0 \/ a = NaN) (flatten adv) ->
  normalize_advantages adv = tmap (fun _ => NaN) adv.
Proof.
  intros Hz. unfold normalize_advantages. rewrite !flatten_tmap.
  assert (Hm : nanmean (map (fun a => if Float.eqb a (Fin 0) then NaN else a)
                            (flatten adv)) = NaN).
  { unfold nanmean. rewrite (not_nan_all_marked _ Hz).
    exact nanmean_empty. }
  rewrite Hm. apply tmap_ext. intros a.
  unfold Float.sub. cbn [Float.opp]. rewrite add_nan. reflexivity.
Qed.

Lemma rsum_shift_scale (m s : R) (l : list R) :
  rsum (map (fun a => (a - m) / s) l) = (rsum l - rlen l * m) / s.
Proof.
  unfold rlen. induction l as [| a l IH].
  - unfold rsum. cbn [map fold_right List.length Z.of_nat].
    unfold Rdiv. ring.
  - unfold rsum in *. cbn [map fold_right]. rewrite IH.
    cbn [List.length]. rewrite Nat2Z.inj_succ, succ_IZR.
    unfold Rdiv. ring.
Qed.

Lemma normalize_advantages_real (adv : tensor R) :
  nonzero (flatten adv) <> [] ->
  let nz := nonzero (flatten adv) in
  normalize_advantages (tmap Fin adv)
  = tmap (fun a => Fin ((a - rmean nz) / (rstd nz + 1e-8))) adv.
Proof.
  intros Hnz. cbv zeta. unfold normalize_advantages.
  rewrite !flatten_tmap.
  rewrite nanmean_marked, nanstd_marked by exact Hnz.
  rewrite tmap_tmap. apply tmap_ext. intros x.
  cbn [Float.sub Float.add Float.opp].
  apply div_Fin.
  pose proof (sqrt_pos
    (rsum (map (fun x => (x - rmean (nonzero (flatten adv)))
                         * (x - rmean (nonzero (flatten adv))))
               (nonzero (flatten adv)))
     / rlen (nonzero (flatten adv)))) as Hs.
  unfold rstd. lra.
Qed.

Lemma filter_combine_map {A C} (p : A -> bool) (f : A -> C) (l : list A) :
  map snd (filter (fun q => p (fst q)) (combine l (map f l)))
  = map f (filter p l).
Proof.
  induction l as [| a l IH]; [reflexivity |].
  cbn [map combine filter fst]. destruct (p a); cbn [map snd]; rewrite IH;
    reflexivity.
Qed.

(** X13.  With at least one non-zero advantage: the normalized values
    at the positions of the non-zero advantages sum to 0 (their mean is
    0), and every advantage that was [0.0], although left out of the
    statistics, is shifted like the others, to [- mean / (std + 1e-8)];
    it stays 0 only if the mean of the non-zero advantages is 0. *)
Theorem normalized_statistics (adv : tensor R) :
  (exists a, In a (flatten adv) /\ a <> 0) ->
  let nz := nonzero (flatten adv) in
  let out := flatten (normalize_advantages (tmap Fin adv)) in
  let pairs := combine (flatten adv) out in
  fsum (map snd (filter (fun q => negb (Reqb (fst q) 0)) pairs)) = Fin 0
  /\ (forall q, In q pairs -> fst q = 0 ->
                snd q = Fin (- rmean nz / (rstd nz + 1e-8)))
  /\ List.length out = List.length (flatten adv).
Proof.
  intros (a & Hin & Ha). cbv zeta.
  assert (Hnz : nonzero (flatten adv) <> []).
  { intros Hnil.
    assert (Hf : In a (nonzero (flatten adv))).
    { unfold nonzero. apply filter_In. split; [exact Hin |].
      rewrite Reqb_false by exact Ha. reflexivity. }
    rewrite Hnil in Hf. destruct Hf. }
  rewrite (normalize_advantages_real adv Hnz). rewrite flatten_tmap.
  set (m := rmean (nonzero (flatten adv))).
  set (s := rstd (nonzero (flatten adv)) + 1e-8).
  split; [| split].
  - rewrite (filter_combine_map (fun x => negb (Reqb x 0))
                                (fun x => Fin ((x - m) / s)) (flatten adv)).
    fold (nonzero (flatten adv)).
    rewrite <- (map_map (fun x => (x - m) / s) Fin).
    rewrite fsum_Fin, rsum_shift_scale. f_equal.
    unfold m, rmean. pose proof (rlen_pos _ Hnz) as Hl.
    set (nz := nonzero (flatten adv)) in *.
    replace (rlen nz * (rsum nz / rlen nz)) with (rsum nz)
      by (field; lra).
    unfold Rdiv. ring.
  - intros [x y] Hq Hx. cbn [fst snd] in *. subst x.
    assert (Hy : forall l (x : R) y,
               In (x, y) (combine l (map (fun a => Fin ((a - m) / s)) l)) ->
               y = Fin ((x - m) / s)).
    { clear. induction l as [| b l IH]; intros x y H; [destruct H |].
      cbn [map combine] in H. destruct H as [H | H].
      - injection H as <- <-. reflexivity.
      - apply IH. exact H. }
    rewrite (Hy _ _ _ Hq). f_equal. unfold Rdiv. ring.
  - apply length_map.
Qed.

End NormalizationEdges.

(** ** The optimizers [__init__] creates *)

Section Registry.
Context {B : Backend}.

Lemma dict_keys_set {V} (d : dict V) k v :
  dict_keys (dict_set d k v)
  = if in_dec string_dec k (dict_keys d) then dict_keys d
    else dict_keys d ++ [k].
Proof.
  induction d as [| [k' v'] d IH]; [reflexivity |].
  cbn [dict_set]. destruct (String.eqb_spec k k') as [-> | Hne].
  - cbn [dict_keys map fst].
    destruct (in_dec string_dec k' (k' :: map fst d)) as [_ | Hn];
      [reflexivity |].
    exfalso. apply Hn. left. reflexivity.
  - unfold dict_keys in *. cbn [map fst]. rewrite IH.
    destruct (in_dec string_dec k (map fst d)) as [Hi | Hi];
      destruct (in_dec string_dec k (k' :: map fst d)) as [Hj | Hj];
      try reflexivity.
    + exfalso. apply Hj. right. exact Hi.
    + exfalso. destruct Hj as [Hj | Hj]; [congruence | contradiction].
Qed.

Lemma registry_fold (ags : list Agent) : forall (d : dict unit),
  NoDup (dict_keys d) ->
  let d' := fold_left (fun d ag => dict_set d (role ag) tt) ags d in
  NoDup (dict_keys d')
  /\ (forall k, In k (dict_keys d')
                <-> In k (dict_keys d) \/ In k (map role ags))
  /\ (List.length (dict_keys d')
      <= List.length (dict_keys d) + List.length ags)%nat
  /\ (NoDup (dict_keys d ++ map role ags) ->
      dict_keys d' = dict_keys d ++ map role ags).
Proof.
  induction ags as [| ag ags IH]; intros d Hd; cbv zeta.
  - cbn [fold_left map]. rewrite app_nil_r.
    repeat split; try tauto; try lia. intros [H | []]. exact H.
  - cbn [fold_left map].
    assert (Hd' : NoDup (dict_keys (dict_set d (role ag) tt))).
    { rewrite dict_keys_set.
      destruct (in_dec string_dec (role ag) (dict_keys d)) as [Hi | Hi];
        [exact Hd |].
      apply NoDup_app; [exact Hd | repeat constructor; intros [] |].
      intros x Hx [<- | []]. contradiction. }
    destruct (IH _ Hd') as (H1 & H2 & H3 & H4).
    split; [exact H1 |]. split; [| split].
    + intros k. rewrite H2. rewrite dict_keys_set.
      destruct (in_dec string_dec (role ag) (dict_keys d)) as [Hi | Hi].
      * cbn [In]. split; [tauto |].
        intros [H | [<- | H]]; tauto.
      * rewrite in_app_iff. cbn [In]. tauto.
    + etransitivity; [exact H3 |]. rewrite dict_keys_set.
      destruct (in_dec string_dec (role ag) (dict_keys d)) as [Hi | Hi].
      * cbn [List.length]. lia.
      * rewrite length_app. cbn [List.length]. lia.
    + intros Hnd. rewrite dict_keys_set in H4.
      destruct (in_dec string_dec (role ag) (dict_keys d)) as [Hi | Hi].
      * exfalso. apply NoDup_remove_2 in Hnd. apply Hnd.
        apply in_or_app. left. exact Hi.
      * rewrite <- app_assoc in H4. apply H4. exact Hnd.
Qed.

(** X14.  [__init__] creates one policy optimizer per role, not per
    agent: the keys of [policy_optimizer] are the roles of [mas.agents]
    without repetition, so agents that share a role share an optimizer;
    with distinct roles the keys are the agents' roles in the agents'
    order. *)
Theorem init_registry (a : args) :
  let keys := dict_keys (policy_optimizer (init a)) in
  NoDup keys
  /\ (forall k, In k keys <-> exists agent, In agent agents /\ role agent = k)
  /\ (List.length keys <= List.length agents)%nat
  /\ (NoDup (map role agents) -> keys = map role agents).
Proof.
  cbv zeta. unfold init. cbn [policy_optimizer].
  destruct (registry_fold agents [] (NoDup_nil _)) as (H1 & H2 & H3 & H4).
  split; [exact H1 |]. split; [| split].
  - intros k. rewrite H2. cbn [dict_keys map In]. rewrite in_map_iff.
    split.
    + intros [[] | (ag & Hr & Hin)]. exists ag. split; assumption.
    + intros (ag & Hin & Hr). right. exists ag. split; assumption.
  - exact H3.
  - exact H4.
Qed.

End Registry.

(** ** [train] *)

Section TrainRuns.
Context {B : Backend}.
Variable self : trainer.

Lemma run_updates_app (l1 l2 : list (sample Obs Act)) gs : forall h,
  run_updates self (l1 ++ l2) gs h
  = '(h1, ds1) <- run_updates self l1 gs h ;;
    '(h2, ds2) <- run_updates self l2 gs h1 ;;
    Ok (h2, ds1 ++ ds2).
Proof.
  induction l1 as [| smp l1 IH]; intros h.
  - cbn [app run_updates bind].
    destruct (run_updates self l2 gs h) as [[h2 ds2] | e]; reflexivity.
  - cbn [app run_updates].
    destruct (ppo_update self h smp gs) as [[h1 d] | e]; cbn [bind];
      [| reflexivity].
    rewrite IH.
    destruct (run_updates self l1 gs h1) as [[h2 ds1] | e]; cbn [bind];
      [| reflexivity].
    destruct (run_updates self l2 gs h2) as [[h3 ds2] | e]; reflexivity.
Qed.

Lemma minibatch_loop_run (smps : list (sample Obs Act)) gs :
  forall h s1 s2 s3 s4 s5 s6 ut,
    minibatch_loop self smps gs h (train_info_of s1 s2 s3 s4 s5 s6) ut
    = '(h', ds) <- run_updates self smps gs h ;;
      Ok (h',
          train_info_of
            (fold_left py_add (map d_value_loss ds) s1)
            (fold_left py_add (map d_value_grad_norm ds) s2)
            (fold_left py_add (map d_policy_loss ds) s3)
            (fold_left py_add (map d_policy_grad_norm ds) s4)
            (fold_left py_add (map d_entropy ds) s5)
            (fold_left py_add (map d_approx_kl ds) s6),
          ut + Z.of_nat (List.length ds)).
Proof.
  induction smps as [| smp rest IH]; intros h s1 s2 s3 s4 s5 s6 ut.
  - cbn [minibatch_loop run_updates bind map fold_left List.length Z.of_nat].
    rewrite Z.add_0_r. reflexivity.
  - cbn [minibatch_loop run_updates].
    destruct (ppo_update self h smp gs)
      as [[h1 [[[[[v1 v2] v3] v4] v5] v6]] | e]; cbn [bind];
      [| reflexivity].
    change (dict_iadd (train_info_of s1 s2 s3 s4 s5 s6) "value_loss" v1)
      with (Ok (train_info_of (py_add s1 v1) s2 s3 s4 s5 s6)).
    cbn [bind].
    change (dict_iadd (train_info_of (py_add s1 v1) s2 s3 s4 s5 s6)
                      "value_grad_norm" v2)
      with (Ok (train_info_of (py_add s1 v1) (py_add s2 v2) s3 s4 s5 s6)).
    cbn [bind].
    change (dict_iadd (train_info_of (py_add s1 v1) (py_add s2 v2) s3 s4 s5
                                     s6) "policy_loss" v3)
      with (Ok (train_info_of (py_add s1 v1) (py_add s2 v2) (py_add s3 v3)
                              s4 s5 s6)).
    cbn [bind].
    change (dict_iadd (train_info_of (py_add s1 v1) (py_add s2 v2)
                                     (py_add s3 v3) s4 s5 s6)
                      "policy_grad_norm" v4)
      with (Ok (train_info_of (py_add s1 v1) (py_add s2 v2) (py_add s3 v3)
                              (py_add s4 v4) s5 s6)).
    cbn [bind].
    change (dict_iadd (train_info_of (py_add s1 v1) (py_add s2 v2)
                                     (py_add s3 v3) (py_add s4 v4) s5 s6)
                      "entropy" v6)
      with (Ok (train_info_of (py_add s1 v1) (py_add s2 v2) (py_add s3 v3)
                              (py_add s4 v4) (py_add s5 v6) s6)).
    cbn [bind].
    change (dict_iadd (train_info_of (py_add s1 v1) (py_add s2 v2)
                                     (py_add s3 v3) (py_add s4 v4)
                                     (py_add s5 v6) s6)
                      "approx_kl" v5)
      with (Ok (train_info_of (py_add s1 v1) (py_add s2 v2) (py_add s3 v3)
                              (py_add s4 v4) (py_add s5 v6) (py_add s6 v5))).
    cbn [bind]. rewrite IH.
    destruct (run_updates self rest gs h1) as [[h2 ds] | e]; cbn [bind];
      [| reflexivity].
    cbn [map fold_left List.length d_value_loss d_value_grad_norm
         d_policy_loss d_policy_grad_norm d_entropy d_approx_kl].
    rewrite Nat2Z.inj_succ. do 2 f_equal. lia.
Qed.

Lemma epoch_loop_run (epochs : nat) gs :
  forall buffer h s1 s2 s3 s4 s5 s6 ut,
    epoch_loop self epochs buffer gs h (train_info_of s1 s2 s3 s4 s5 s6) ut
    = '(h', ds) <-
        run_updates self (fst (sampled self epochs buffer)) gs h ;;
      Ok (h', snd (sampled self epochs buffer),
          train_info_of
            (fold_left py_add (map d_value_loss ds) s1)
            (fold_left py_add (map d_value_grad_norm ds) s2)
            (fold_left py_add (map d_policy_loss ds) s3)
            (fold_left py_add (map d_policy_grad_norm ds) s4)
            (fold_left py_add (map d_entropy ds) s5)
            (fold_left py_add (map d_approx_kl ds) s6),
          ut + Z.of_nat (List.length ds)).
Proof.
  induction epochs as [| epochs IH];
    intros buffer h s1 s2 s3 s4 s5 s6 ut.
  - cbn [epoch_loop sampled fst snd run_updates bind map fold_left
         List.length Z.of_nat].
    rewrite Z.add_0_r. reflexivity.
  - cbn [epoch_loop sampled].
    destruct (buffer_sample buffer (num_mini_batch self)) as [gen buffer1].
    destruct (sampled self epochs buffer1) as [rest buffer2] eqn:Es.
    cbn [fst snd]. rewrite minibatch_loop_run, run_updates_app.
    destruct (run_updates self gen gs h) as [[h1 ds1] | e]; cbn [bind];
      [| reflexivity].
    rewrite IH, Es. cbn [fst snd].
    destruct (run_updates self rest gs h1) as [[h2 ds2] | e]; cbn [bind];
      [| reflexivity].
    rewrite !map_app, !fold_left_app, length_app, Nat2Z.inj_add.
    do 2 f_equal. lia.
Qed.

Lemma divide_all_info (t1 t2 t3 t4 t5 t6 : pyval) (n : Z) :
  divide_all (dict_keys (train_info_of t1 t2 t3 t4 t5 t6))
             (train_info_of t1 t2 t3 t4 t5 t6) n
  = q1 <- py_div_int t1 n ;;
    q2 <- py_div_int t2 n ;;
    q3 <- py_div_int t3 n ;;
    q4 <- py_div_int t4 n ;;
    q5 <- py_div_int t5 n ;;
    q6 <- py_div_int t6 n ;;
    Ok (train_info_of q1 q2 q3 q4 q5 q6).
Proof. reflexivity. Qed.

(** [train] is its reference run. *)
Lemma train_as_reference h buffer gs :
  train self h buffer gs = train_reference self h buffer gs.
Proof.
  unfold train, train_reference.
  change train_info0
    with (train_info_of (PyFloat (Fin 0)) (PyFloat (Fin 0)) (PyFloat (Fin 0))
                        (PyFloat (Fin 0)) (PyFloat (Fin 0))
                        (PyFloat (Fin 0))).
  rewrite epoch_loop_run.
  destruct (sampled self (Z.to_nat (ppo_epoch self)) buffer)
    as [smps buffer'].
  cbn [fst snd].
  destruct (run_updates self smps gs h) as [[h' ds] | e]; cbn [bind];
    [| reflexivity].
  unfold mean_of, total. rewrite !length_map. cbn [Z.add].
  rewrite divide_all_info.
  repeat (match goal with
          | |- context [py_div_int ?v ?n] =>
              destruct (py_div_int v n); cbn [bind]; [| reflexivity]
          end).
  reflexivity.
Qed.

(** X15.  [train] runs [ppo_update] on every minibatch of every epoch,
    in order, and returns for each key the left-to-right sum
    [0. + v1 + v2 + ...] of the values returned for it, divided by the
    number of updates; the fifth value of [ppo_update] goes to
    ["approx_kl"] and the sixth to ["entropy"].  The keys keep their
    order.  An exception of an update, or the division by zero when there
    was no update, is the exception of [train]. *)
Theorem train_averages (h : history Agent) (buffer : Buffer)
    (global_steps : Z) :
  train self h buffer global_steps
  = train_reference self h buffer global_steps.
Proof. apply train_as_reference. Qed.

End TrainRuns.

(** ** What [train] does to the optimizers *)

Section TrainEffects.
Context {B : Backend}.
Variable self : trainer.

Lemma critic_opt_steps_app (e1 e2 : history Agent) :
  critic_opt_steps (e1 ++ e2)
  = (critic_opt_steps e1 + critic_opt_steps e2)%nat.
Proof. unfold critic_opt_steps. rewrite filter_app. apply length_app. Qed.

Lemma critic_opt_steps_erase (e : history Agent) :
  critic_opt_steps (map erase e) = critic_opt_steps e.
Proof.
  unfold critic_opt_steps. induction e as [| ev e IH]; [reflexivity |].
  cbn [map filter].
  replace (critic_opt_step_event (erase ev))
    with (critic_opt_step_event ev) by (destruct ev; reflexivity).
  destruct (critic_opt_step_event ev); cbn [List.length]; rewrite IH;
    reflexivity.
Qed.

Lemma critic_opt_steps_none (e : history Agent) :
  Forall (fun ev => critic_opt_step_event ev = false) e ->
  critic_opt_steps e = 0%nat.
Proof.
  unfold critic_opt_steps. induction 1 as [| ev e Hev _ IH]; [reflexivity |].
  cbn [filter]. rewrite Hev. exact IH.
Qed.

Lemma passes_no_critic_step (n : network) (k : nat) :
  critic_opt_steps (passes n k) = 0%nat.
Proof. induction k as [| k IH]; [reflexivity | exact IH]. Qed.

Lemma critic_trace_steps (k : nat) :
  critic_opt_steps (critic_trace self k) = 1%nat.
Proof.
  unfold critic_trace. rewrite !critic_opt_steps_app, passes_no_critic_step.
  destruct (_use_max_grad_norm self); reflexivity.
Qed.

Lemma policy_trace_steps (k : nat) :
  critic_opt_steps (policy_trace self k) = 0%nat.
Proof.
  unfold policy_trace. rewrite critic_opt_steps_app, passes_no_critic_step.
  rewrite Nat.add_0_r. apply critic_opt_steps_none.
  apply Forall_map. apply Forall_forall. reflexivity.
Qed.

Lemma commit_trace_steps (ags : list Agent) :
  critic_opt_steps (commit_trace self ags) = 0%nat.
Proof.
  unfold commit_trace. induction ags as [| ag ags IH]; [reflexivity |].
  cbn [flat_map]. rewrite critic_opt_steps_app, IH. reflexivity.
Qed.

Lemma warning_steps (warn : history Agent) :
  warn = [] \/ (exists msg, warn = [Print msg]) ->
  critic_opt_steps warn = 0%nat.
Proof. intros [-> | (msg & ->)]; reflexivity. Qed.

(** One update on a well-configured trainer: it returns, and the critic
    optimizer has stepped once. *)
Lemma ppo_update_steps_critic h smp gs :
  well_configured self ->
  exists e d,
    ppo_update self h smp gs = Ok (h ++ e, d)
    /\ critic_opt_steps e = 1%nat.
Proof.
  intros Hwc.
  destruct (critic_update_trace self h smp gs (proj1 Hwc))
    as (warn & e1 & a & vl & cgn & Hc & Hw & He1 & Ha).
  assert (H1 : critic_opt_steps (warn ++ e1) = 1%nat).
  { rewrite critic_opt_steps_app, (warning_steps warn Hw).
    rewrite <- critic_opt_steps_erase, He1. apply critic_trace_steps. }
  unfold ppo_update. rewrite Hc. cbn [bind].
  destruct (gs <? warmup_steps self).
  - eexists _, _. split; [reflexivity | exact H1].
  -
    destruct (policy_accumulate_trace self (h ++ warn ++ e1) smp a
                (cp_batch_size_value self
                   (Z.of_nat (List.length (rollout_observations smp)))))
      as (e2 & acc & Hp & He2).
    rewrite Hp. cbn [bind].
    assert (H2 : critic_opt_steps e2 = 0%nat).
    { rewrite <- critic_opt_steps_erase, He2. apply policy_trace_steps. }
    destruct (Float.gtb (total_approx_kl acc) kl_threshold).
    + exists ((warn ++ e1) ++ e2). eexists. split.
      * rewrite <- !app_assoc. reflexivity.
      * rewrite critic_opt_steps_app, H1, H2. reflexivity.
    + destruct (policy_commit_trained self ((h ++ warn ++ e1) ++ e2) a
                                      gs Hwc Ha)
        as (g & t & Hcm & _).
      rewrite Hcm. cbn [bind].
      exists (((warn ++ e1) ++ e2) ++ commit_trace self (trained_agents a)).
      eexists. split.
      * rewrite <- !app_assoc. reflexivity.
      * do 2 rewrite critic_opt_steps_app.
        rewrite H1, H2, commit_trace_steps. reflexivity.
Qed.

Lemma run_updates_steps_critic (smps : list (sample Obs Act)) gs :
  well_configured self ->
  forall h,
  exists e ds,
    run_updates self smps gs h = Ok (h ++ e, ds)
    /\ List.length ds = List.length smps
    /\ critic_opt_steps e = List.length smps.
Proof.
  intros Hwc. induction smps as [| smp rest IH]; intros h.
  - exists [], []. rewrite app_nil_r. repeat split.
  - cbn [run_updates].
    destruct (ppo_update_steps_critic h smp gs Hwc) as (e1 & d & -> & H1).
    cbn [bind].
    destruct (IH (h ++ e1)) as (e2 & ds & -> & Hl & H2). cbn [bind].
    exists (e1 ++ e2), (d :: ds). split; [| split].
    + rewrite <- app_assoc. reflexivity.
    + cbn [List.length]. rewrite Hl. reflexivity.
    + rewrite critic_opt_steps_app, H1, H2. reflexivity.
Qed.

Lemma py_div_int_ok (v : pyval) (n : Z) :
  n <> 0 -> exists q, py_div_int v n = Ok q.
Proof.
  intros Hn. destruct v as [a | x | x]; unfold py_div_int, py_truediv;
    destruct (Z.eqb_spec n 0); try contradiction; cbn [bind]; eauto.
Qed.

Lemma mean_of_ok (vs : list pyval) :
  vs <> [] -> exists q, mean_of vs = Ok q.
Proof.
  intros Hne. apply py_div_int_ok.
  destruct vs; [contradiction | cbn [List.length]; lia].
Qed.

(** X16.  On a well-configured trainer, with at least one minibatch
    over the epochs, [train] raises nothing and returns the six averages
    under the six keys of [train_info], in their order; the history grows
    by the updates' events, among them exactly one step of the critic
    optimizer per minibatch, warmup or not. *)
Theorem train_steps_critic_per_minibatch (h : history Agent)
    (buffer : Buffer) (global_steps : Z) :
  well_configured self ->
  let smps := fst (sampled self (Z.to_nat (ppo_epoch self)) buffer) in
  smps <> [] ->
  exists e train_info,
    train self h buffer global_steps
    = Ok (h ++ e, snd (sampled self (Z.to_nat (ppo_epoch self)) buffer),
          train_info)
    /\ dict_keys train_info
       = ["value_loss"; "value_grad_norm"; "policy_loss";
          "policy_grad_norm"; "entropy"; "approx_kl"]%string
    /\ critic_opt_steps e = List.length smps.
Proof.
  intros Hwc. cbv zeta. intros Hne.
  rewrite train_as_reference. unfold train_reference.
  destruct (sampled self (Z.to_nat (ppo_epoch self)) buffer)
    as [smps buffer'].
  cbn [fst snd] in *.
  destruct (run_updates_steps_critic smps global_steps Hwc h)
    as (e & ds & -> & Hl & Hsteps).
  cbn [bind].
  assert (Hds : ds <> []).
  { destruct ds; [| discriminate]. destruct smps; [contradiction |].
    discriminate Hl. }
  assert (Hm : forall f : diagnostics -> pyval,
             exists q, mean_of (map f ds) = Ok q).
  { intros f. apply mean_of_ok. destruct ds; [contradiction | discriminate]. }
  destruct (Hm d_value_loss) as (q1 & ->).
  destruct (Hm d_value_grad_norm) as (q2 & ->).
  destruct (Hm d_policy_loss) as (q3 & ->).
  destruct (Hm d_policy_grad_norm) as (q4 & ->).
  destruct (Hm d_entropy) as (q5 & ->).
  destruct (Hm d_approx_kl) as (q6 & ->).
  cbn [bind]. eexists _, _. split; [reflexivity |].
  split; [reflexivity | exact Hsteps].
Qed.

Lemma ppo_update_warmup h smp gs :
  divisors_nonzero self ->
  gs < warmup_steps self ->
  exists e vl cgn,
    ppo_update self h smp gs
    = Ok (h ++ e, (vl, PyFloat cgn, PyInt 0, PyInt 0, PyInt 0, PyInt 0))
    /\ quiet e.
Proof.
  intros Hd Hw.
  destruct (critic_update_total self h smp gs Hd)
    as (e & a & cp & vl & cgn & Hc & Hq & _ & _).
  exists (e ++ [OptStep CriticOpt]), vl, cgn. split.
  - unfold ppo_update. rewrite Hc. cbn [bind].
    destruct (Z.ltb_spec gs (warmup_steps self)); [reflexivity | lia].
  - apply quiet_app; [exact Hq | repeat constructor].
Qed.

Lemma run_updates_warmup (smps : list (sample Obs Act)) gs :
  divisors_nonzero self ->
  gs < warmup_steps self ->
  forall h,
  exists e ds,
    run_updates self smps gs h = Ok (h ++ e, ds)
    /\ List.length ds = List.length smps
    /\ quiet e
    /\ Forall policy_slots_zero ds.
Proof.
  intros Hd Hw. induction smps as [| smp rest IH]; intros h.
  - exists [], []. rewrite app_nil_r. repeat split; constructor.
  - cbn [run_updates].
    destruct (ppo_update_warmup h smp gs Hd Hw) as (e1 & vl & cgn & -> & Hq1).
    cbn [bind].
    destruct (IH (h ++ e1)) as (e2 & ds & -> & Hl & Hq2 & Hz). cbn [bind].
    eexists (e1 ++ e2), (_ :: ds). split; [| split; [| split]].
    + rewrite <- app_assoc. reflexivity.
    + cbn [List.length]. rewrite Hl. reflexivity.
    + apply quiet_app; assumption.
    + constructor; [repeat split | exact Hz].
Qed.

Lemma total_of_zeros (vs : list pyval) :
  Forall (fun v => v = PyInt 0) vs -> total vs = PyFloat (Fin 0).
Proof.
  unfold total. induction 1 as [| v vs -> _ IH]; [reflexivity |].
  cbn [fold_left].
  replace (py_add (PyFloat (Fin 0)) (PyInt 0)) with (PyFloat (Fin 0));
    [exact IH |].
  cbn [py_add of_Z Float.add]. do 2 f_equal. lra.
Qed.

Lemma mean_of_zeros (vs : list pyval) :
  vs <> [] -> Forall (fun v => v = PyInt 0) vs ->
  mean_of vs = Ok (PyFloat (Fin 0)).
Proof.
  intros Hne Hz. unfold mean_of. rewrite (total_of_zeros vs Hz).
  unfold py_div_int.
  assert (Hn : Z.of_nat (List.length vs) <> 0).
  { destruct vs; [contradiction | cbn [List.length]; lia]. }
  destruct (Z.eqb_spec (Z.of_nat (List.length vs)) 0); [contradiction |].
  unfold of_Z. rewrite div_Fin.
  - do 3 f_equal. unfold Rdiv. ring.
  - intros H0. apply eq_IZR in H0. contradiction.
Qed.

(** X17.  Before [warmup_steps], with at least one minibatch, [train]
    reports exactly [0.0] under ["policy_loss"], ["policy_grad_norm"],
    ["entropy"] and ["approx_kl"], and nothing of the policy side has
    run: no forward or backward pass of the agents, no call on their
    gradients or optimizers. *)
Theorem train_in_warmup (h : history Agent) (buffer : Buffer)
    (global_steps : Z) :
  divisors_nonzero self ->
  global_steps < warmup_steps self ->
  fst (sampled self (Z.to_nat (ppo_epoch self)) buffer) <> [] ->
  exists e value_loss value_grad_norm,
    train self h buffer global_steps
    = Ok (h ++ e, snd (sampled self (Z.to_nat (ppo_epoch self)) buffer),
          train_info_of value_loss value_grad_norm
                        (PyFloat (Fin 0)) (PyFloat (Fin 0))
                        (PyFloat (Fin 0)) (PyFloat (Fin 0)))
    /\ quiet e.
Proof.
  intros Hd Hw Hne.
  rewrite train_as_reference. unfold train_reference.
  destruct (sampled self (Z.to_nat (ppo_epoch self)) buffer)
    as [smps buffer'].
  cbn [fst snd] in *.
  destruct (run_updates_warmup smps global_steps Hd Hw h)
    as (e & ds & -> & Hl & Hq & Hz).
  cbn [bind].
  assert (Hds : ds <> []).
  { destruct ds; [| discriminate]. destruct smps; [contradiction |].
    discriminate Hl. }
  assert (Hmap : forall f : diagnostics -> pyval, map f ds <> []).
  { intros f. destruct ds; [contradiction | discriminate]. }
  destruct (mean_of_ok _ (Hmap d_value_loss)) as (q1 & ->).
  destruct (mean_of_ok _ (Hmap d_value_grad_norm)) as (q2 & ->).
  cbn [bind].
  rewrite !mean_of_zeros;
    try apply Hmap;
    try (apply Forall_map; eapply Forall_impl; [| exact Hz];
         intros d (H3 & H4 & H5 & H6); assumption).
  cbn [bind]. exists e, q1, q2. split; [reflexivity | exact Hq].
Qed.

End TrainEffects.

(** ** Saving and loading the optimizers *)

Section CheckpointFacts.
Import Checkpoint.

Lemma uint_of_zeros (n : nat) (s : string) (d : Decimal.uint) :
  DecimalString.NilEmpty.uint_of_string s = Some d ->
  exists d', DecimalString.NilEmpty.uint_of_string (zeros n ++ s) = Some d'
             /\ Z.of_uint d' = Z.of_uint d.
Proof.
  intros Hs. induction n as [| n (d' & Hd & Hz)].
  - exists d. split; [exact Hs | reflexivity].
  - exists (Decimal.D0 d'). split.
    + cbn [zeros String.append DecimalString.NilEmpty.uint_of_string]. rewrite Hd.
      reflexivity.
    + exact Hz.
Qed.

Lemma uint_no_minus (s : string) (d : Decimal.uint) (c : Ascii.ascii) :
  DecimalString.NilEmpty.uint_of_string (String c s) = Some d ->
  Ascii.eqb c "-"%char = false.
Proof.
  cbn [DecimalString.NilEmpty.uint_of_string].
  destruct (DecimalString.NilEmpty.uint_of_string s); [| discriminate].
  destruct (Ascii.eqb_spec c "-") as [-> | _]; [discriminate | reflexivity].
Qed.

Lemma digits_of_nonneg (n : Z) :
  0 <= n ->
  exists d, DecimalString.NilEmpty.uint_of_string (DecimalString.NilEmpty.string_of_int (Z.to_int n))
            = Some d
            /\ Z.of_uint d = n.
Proof.
  intros Hn. destruct n as [| p | p]; [| | lia].
  - eexists. split; reflexivity.
  - exists (Pos.to_uint p). cbn [Z.to_int DecimalString.NilEmpty.string_of_int].
    split; [apply DecimalString.NilEmpty.usu |].
    exact (DecimalZ.of_to (Z.pos p)).
Qed.

(** The formatted number reads back as the number. *)
Lemma parse_format (z : Z) : parse_int (format_04d z) = Some z.
Proof.
  unfold parse_int, format_04d.
  destruct (digits_of_nonneg (Z.abs z) (Z.abs_nonneg z)) as (d & Hd & Hz).
  set (ds := DecimalString.NilEmpty.string_of_int (Z.to_int (Z.abs z))) in *.
  destruct (Z.ltb_spec z 0) as [Hneg | Hpos].
  - set (k := (4 - _ - _)%nat).
    destruct (uint_of_zeros k ds d Hd) as (d' & Hd' & Hz').
    cbn [String.append DecimalString.NilEmpty.int_of_string].
    rewrite Ascii.eqb_refl, Hd'. cbn [option_map Z.of_int].
    rewrite Hz', Hz. f_equal. lia.
  - set (k := (4 - _ - _)%nat).
    destruct (uint_of_zeros k ds d Hd) as (d' & Hd' & Hz').
    cbn [String.append].
    destruct (zeros k ++ ds)%string as [| c s] eqn:E.
    + cbn in Hd'. injection Hd' as <-. cbn in Hz'.
      cbn. f_equal. lia.
    + unfold DecimalString.NilEmpty.int_of_string.
      rewrite (uint_no_minus s d' c Hd'), Hd'. cbn [option_map Z.of_int].
      rewrite Hz', Hz. f_equal. lia.
Qed.

Lemma format_04d_injective (z1 z2 : Z) :
  format_04d z1 = format_04d z2 -> z1 = z2.
Proof.
  intros H. pose proof (parse_format z1) as H1.
  rewrite H, parse_format in H1. congruence.
Qed.

End CheckpointFacts.

Section DictFacts.
Context {V : Type}.

Lemma dict_get_other (d : dict V) k k' (v : V) :
  k <> k' -> dict_get (dict_set d k v) k' = dict_get d k'.
Proof.
  intros Hne. induction d as [| [k0 v0] d IH]; cbn [dict_set dict_get].
  - destruct (String.eqb_spec k' k); [congruence | reflexivity].
  - destruct (String.eqb_spec k k0) as [-> | Hk]; cbn [dict_get].
    + destruct (String.eqb_spec k' k0); [congruence | reflexivity].
    + destruct (String.eqb_spec k' k0); [reflexivity | exact IH].
Qed.

Lemma dict_get_notin (d : dict V) k :
  ~ In k (dict_keys d) -> dict_get d k = Raise KeyError.
Proof.
  induction d as [| [k0 v0] d IH]; [reflexivity |].
  cbn [dict_keys map fst In dict_get]. intros Hn.
  destruct (String.eqb_spec k k0) as [-> | _]; [tauto |].
  apply IH. unfold dict_keys. tauto.
Qed.

Lemma dict_get_in (d : dict V) k :
  In k (dict_keys d) -> exists v, dict_get d k = Ok v.
Proof.
  induction d as [| [k0 v0] d IH]; [intros [] |].
  cbn [dict_keys map fst In dict_get]. intros Hin.
  destruct (String.eqb_spec k k0) as [-> | Hne]; [eauto |].
  apply IH. destruct Hin as [-> | Hin]; [contradiction | exact Hin].
Qed.

Lemma dict_set_fresh (d : dict V) k v :
  ~ In k (dict_keys d) -> dict_set d k v = d ++ [(k, v)].
Proof.
  induction d as [| [k0 v0] d IH]; [reflexivity |].
  cbn [dict_keys map fst In dict_set]. intros Hn.
  destruct (String.eqb_spec k k0) as [-> | _]; [tauto |].
  rewrite <- app_comm_cons. f_equal. apply IH. unfold dict_keys. tauto.
Qed.

Lemma dict_set_app_fresh (d1 d2 : dict V) k v :
  ~ In k (dict_keys d1) -> dict_set (d1 ++ d2) k v = d1 ++ dict_set d2 k v.
Proof.
  induction d1 as [| [k0 v0] d1 IH]; [reflexivity |].
  rewrite <- app_comm_cons.
  cbn [dict_keys map fst In dict_set]. intros Hn.
  destruct (String.eqb_spec k k0) as [-> | _]; [tauto |].
  rewrite <- app_comm_cons. f_equal. apply IH. unfold dict_keys. tauto.
Qed.

Lemma dict_keys_app (d1 d2 : dict V) :
  dict_keys (d1 ++ d2) = dict_keys d1 ++ dict_keys d2.
Proof. apply map_app. Qed.

End DictFacts.

Section StringFacts.

Lemma length_append (a b : string) :
  String.length (a ++ b) = (String.length a + String.length b)%nat.
Proof. induction a as [| c a IH]; cbn; [reflexivity | rewrite IH; reflexivity]. Qed.

Lemma append_assoc (a b c : string) :
  ((a ++ b) ++ c)%string = (a ++ b ++ c)%string.
Proof. induction a as [| x a IH]; cbn; [reflexivity | rewrite IH; reflexivity]. Qed.

Lemma append_inv_head (a b c : string) :
  (a ++ b)%string = (a ++ c)%string -> b = c.
Proof.
  induction a as [| x a IH]; cbn; [exact (fun H => H) |].
  intros H. injection H as H. exact (IH H).
Qed.

Lemma append_inv_tail (a b t : string) :
  (a ++ t)%string = (b ++ t)%string -> a = b.
Proof.
  revert b. induction a as [| x a IH]; intros [| y b] H; cbn in H.
  - reflexivity.
  - exfalso. apply (f_equal String.length) in H.
    cbn in H. rewrite length_append in H. lia.
  - exfalso. apply (f_equal String.length) in H.
    cbn in H. rewrite length_append in H. lia.
  - injection H as -> H. f_equal. exact (IH b H).
Qed.

End StringFacts.

Section CheckpointPaths.
Import Checkpoint.

Lemma ends_with_slash_app (a b : string) :
  b <> EmptyString -> ends_with_slash (a ++ b) = ends_with_slash b.
Proof.
  intros Hb. induction a as [| c a IH]; [reflexivity |].
  cbn [String.append ends_with_slash].
  destruct (a ++ b)%string as [| c' s] eqn:E; [| exact IH].
  exfalso. apply (f_equal String.length) in E.
  rewrite length_append in E. destruct b; [contradiction |].
  cbn in E. lia.
Qed.

Lemma uint_no_slash (s : string) (d : Decimal.uint) :
  DecimalString.NilEmpty.uint_of_string s = Some d -> ends_with_slash s = false.
Proof.
  revert d. induction s as [| c s IH]; intros d; [reflexivity |].
  cbn [DecimalString.NilEmpty.uint_of_string ends_with_slash].
  destruct (DecimalString.NilEmpty.uint_of_string s) as [d' |] eqn:E; [| discriminate].
  intros H. destruct s as [| c' s'].
  - destruct (Ascii.eqb_spec c "/"%char) as [-> | _];
      [discriminate | reflexivity].
  - exact (IH d' eq_refl).
Qed.

Lemma format_no_slash (z : Z) : ends_with_slash (format_04d z) = false.
Proof.
  pose proof (parse_format z) as H. unfold parse_int in H.
  destruct (format_04d z) as [| c s]; [reflexivity |].
  unfold DecimalString.NilEmpty.int_of_string in H.
  destruct (Ascii.eqb_spec c "-"%char) as [-> | _].
  - destruct (DecimalString.NilEmpty.uint_of_string s) as [d |] eqn:E; [| discriminate].
    destruct s as [| c' s']; [reflexivity |].
    exact (uint_no_slash _ d E).
  - destruct (DecimalString.NilEmpty.uint_of_string (String c s)) as [d |] eqn:E;
      [| discriminate].
    exact (uint_no_slash _ d E).
Qed.

Lemma exp_path_shape (save_dir : string) (steps : Z) :
  exp_path_of save_dir steps
  = (dir_prefix save_dir ++ "steps_" ++ format_04d steps)%string.
Proof.
  unfold exp_path_of, path_join, dir_prefix.
  cbn [String.append starts_with_slash].
  destruct (_ || _); [reflexivity |].
  rewrite append_assoc. reflexivity.
Qed.

Lemma file_path_shape (save_dir : string) (steps : Z) :
  path_join (exp_path_of save_dir steps) "optimizers.pt"
  = (dir_prefix save_dir ++ "steps_" ++ format_04d steps
       ++ "/optimizers.pt")%string.
Proof.
  rewrite exp_path_shape. unfold path_join.
  cbn [starts_with_slash].
  replace (Ascii.eqb "o"%char "/"%char) with false by reflexivity.
  assert (Hlen : (String.length
                    (dir_prefix save_dir ++ "steps_" ++ format_04d steps)
                  =? 0)%nat = false).
  { apply Nat.eqb_neq. rewrite length_append. cbn. lia. }
  assert (Hend : ends_with_slash
                   (dir_prefix save_dir ++ "steps_" ++ format_04d steps)
                 = false).
  { rewrite ends_with_slash_app by discriminate.
    destruct (format_04d steps) as [| c s] eqn:E; [reflexivity |].
    change ("steps_" ++ String c s)%string
      with ("steps_" ++ (String c s))%string.
    rewrite (ends_with_slash_app "steps_" (String c s)) by discriminate.
    rewrite <- E. apply format_no_slash. }
  rewrite Hlen, Hend. cbn [orb].
  rewrite !append_assoc. reflexivity.
Qed.

Lemma file_path_injective (save_dir : string) (s1 s2 : Z) :
  path_join (exp_path_of save_dir s1) "optimizers.pt"
  = path_join (exp_path_of save_dir s2) "optimizers.pt" ->
  s1 = s2.
Proof.
  rewrite !file_path_shape. intros H.
  apply append_inv_head in H. apply append_inv_head in H.
  apply append_inv_tail in H. apply format_04d_injective. exact H.
Qed.

End CheckpointPaths.

Section CheckpointStore.
Import Checkpoint.
Variable OptState : Type.

Lemma state_dicts_fold (d : dict OptState) : forall acc,
  NoDup (dict_keys (acc ++ d)) ->
  fold_left (fun acc kv => dict_set acc (fst kv) (snd kv)) d acc = acc ++ d.
Proof.
  induction d as [| [k v] d IH]; intros acc Hnd.
  - cbn [fold_left]. rewrite app_nil_r. reflexivity.
  - cbn [fold_left fst snd].
    assert (Hk : ~ In k (dict_keys acc)).
    { rewrite dict_keys_app in Hnd. cbn [dict_keys map fst] in Hnd.
      apply NoDup_remove_2 in Hnd. intros Hin. apply Hnd.
      apply in_or_app. left. exact Hin. }
    rewrite (dict_set_fresh acc k v Hk), IH.
    + rewrite <- app_assoc. reflexivity.
    + rewrite <- app_assoc. exact Hnd.
Qed.

Lemma state_dicts_id (d : dict OptState) :
  NoDup (dict_keys d) -> state_dicts d = d.
Proof. intros H. apply (state_dicts_fold d []). exact H. Qed.

Lemma load_states_same_keys (todo : list (string * OptState)) :
  forall done todo',
    map fst todo = map fst todo' ->
    NoDup (dict_keys (done ++ todo)) ->
    load_states todo (done ++ todo') = (done ++ todo, None).
Proof.
  induction todo as [| [k v] todo IH]; intros done [| [k' v'] todo'] Hk Hnd;
    try discriminate.
  - reflexivity.
  - cbn [map fst] in Hk. injection Hk as <- Hk.
    assert (Hfresh : ~ In k (dict_keys done)).
    { rewrite dict_keys_app in Hnd. cbn [dict_keys map fst] in Hnd.
      apply NoDup_remove_2 in Hnd. intros Hin. apply Hnd.
      apply in_or_app. left. exact Hin. }
    cbn [load_states].
    destruct (dict_get_in (done ++ (k, v') :: todo') k) as (x & ->).
    { rewrite dict_keys_app. apply in_or_app. right. left. reflexivity. }
    rewrite (dict_set_app_fresh done _ k v Hfresh).
    cbn [dict_set]. rewrite String.eqb_refl.
    change (done ++ (k, v) :: todo') with (done ++ [(k, v)] ++ todo').
    rewrite app_assoc. rewrite IH.
    + rewrite <- app_assoc. reflexivity.
    + exact Hk.
    + rewrite <- app_assoc. exact Hnd.
Qed.

Lemma load_states_known (items : list (string * OptState)) :
  forall states,
    NoDup (dict_keys items) ->
    (forall k, In k (dict_keys items) -> In k (dict_keys states)) ->
    exists states',
      load_states items states = (states', None)
      /\ dict_keys states' = dict_keys states
      /\ (forall k v, In (k, v) items -> dict_get states' k = Ok v)
      /\ (forall k, ~ In k (dict_keys items) ->
                    dict_get states' k = dict_get states k).
Proof.
  induction items as [| [k v] items IH]; intros states Hnd Hin.
  - exists states. repeat split. intros k v [].
  - cbn [load_states].
    destruct (dict_get_in states k) as (x & ->).
    { apply Hin. left. reflexivity. }
    assert (Hkeys : dict_keys (dict_set states k v) = dict_keys states).
    { rewrite dict_keys_set.
      destruct (in_dec string_dec k (dict_keys states)) as [_ | Hn];
        [reflexivity |].
      exfalso. apply Hn. apply Hin. left. reflexivity. }
    inversion Hnd as [| ? ? Hk Hnd']; subst.
    destruct (IH (dict_set states k v) Hnd') as (s' & Hl & Hks & Hget & Hkeep).
    { intros k0 H0. rewrite Hkeys. apply Hin. right. exact H0. }
    exists s'. split; [exact Hl |]. split; [congruence |]. split.
    + intros k0 v0 [H0 | H0].
      * injection H0 as <- <-. rewrite (Hkeep k Hk). apply dict_get_set.
      * exact (Hget k0 v0 H0).
    + intros k0 Hn. rewrite Hkeep.
      * apply dict_get_other. intros ->. apply Hn. left. reflexivity.
      * intros H0. apply Hn. right. exact H0.
Qed.

Lemma load_states_app (l1 l2 : list (string * OptState)) : forall states,
  load_states (l1 ++ l2) states
  = match load_states l1 states with
    | (s1, None) => load_states l2 s1
    | (s1, Some e) => (s1, Some e)
    end.
Proof.
  induction l1 as [| [k v] l1 IH]; intros states.
  - cbn [app load_states]. reflexivity.
  - cbn [app load_states]. destruct (dict_get states k); [apply IH |].
    reflexivity.
Qed.

(** X18.  Round trip: the file [save_optimizers] writes for [steps],
    loaded into a trainer with the same roles, whatever the states of its
    optimizers, restores the saved state of every policy optimizer and of
    the critic optimizer. *)
Theorem save_then_load (o o' : optimizers OptState) (w : world OptState)
    (save_dir : string) (steps : Z) :
  NoDup (dict_keys (policy_states o)) ->
  dict_keys (policy_states o') = dict_keys (policy_states o) ->
  let w1 := save_optimizers o w save_dir steps in
  let path := path_join (exp_path_of save_dir steps) "optimizers.pt" in
  load_optimizers o' w1 path
  = (o, print w1 ("[TPPOTrainer] optimizer states loaded <- " ++ path)%string,
     None).
Proof.
  intros Hnd Hkeys. cbv zeta.
  unfold load_optimizers, save_optimizers.
  cbn [files print torch_save makedirs]. rewrite dict_get_set.
  cbn [policy_opt_states critic_opt_state].
  rewrite (state_dicts_id _ Hnd).
  pose proof (load_states_same_keys (policy_states o) [] (policy_states o')
                (eq_sym Hkeys) Hnd) as Hl.
  cbn [app] in Hl. rewrite Hl. destruct o; reflexivity.
Qed.

(** X19.  A checkpoint with a role the trainer has no optimizer for
    makes [load_optimizers] raise [KeyError] at that role: the states of
    the roles before it are loaded already and stay loaded, the other
    policy optimizers and the critic optimizer keep their states, nothing
    is printed. *)
Theorem load_unknown_role (o : optimizers OptState) (w : world OptState)
    (path : string) (ckpt : checkpoint OptState)
    (front rest : list (string * OptState)) (role : string)
    (opt_state : OptState) :
  dict_get (files w) path = Ok ckpt ->
  policy_opt_states ckpt = front ++ (role, opt_state) :: rest ->
  NoDup (dict_keys front) ->
  (forall k, In k (dict_keys front) -> In k (dict_keys (policy_states o))) ->
  ~ In role (dict_keys (policy_states o)) ->
  exists states,
    load_optimizers o w path
    = ({| policy_states := states; critic_state := critic_state o |},
       w, Some (PyExn KeyError))
    /\ dict_keys states = dict_keys (policy_states o)
    /\ (forall k v, In (k, v) front -> dict_get states k = Ok v)
    /\ (forall k, ~ In k (dict_keys front) ->
                  dict_get states k = dict_get (policy_states o) k).
Proof.
  intros Hfile Hitems Hnd Hknown Hnew.
  destruct (load_states_known front (policy_states o) Hnd Hknown)
    as (states & Hl & Hk & Hget & Hkeep).
  exists states. split; [| split; [exact Hk | split; assumption]].
  unfold load_optimizers. rewrite Hfile, Hitems, load_states_app, Hl.
  cbn [load_states]. rewrite dict_get_notin by (rewrite Hk; exact Hnew).
  reflexivity.
Qed.

(** X20.  The checkpoint of step [steps] goes to
    [<save_dir>/steps_<steps as 4 digits>/optimizers.pt]; the number
    reads back from the formatted name, so different steps never share a
    file: after a second save for another step both checkpoints are on
    disk, and a second save for the same step replaces the first. *)
Theorem saves_by_step (o1 o2 : optimizers OptState) (w : world OptState)
    (save_dir : string) (steps1 steps2 : Z) :
  let file steps := path_join (exp_path_of save_dir steps) "optimizers.pt" in
  let saved o :=
    {| policy_opt_states := state_dicts (policy_states o);
       critic_opt_state := critic_state o |} in
  let w2 :=
    save_optimizers o2 (save_optimizers o1 w save_dir steps1) save_dir
                    steps2 in
  file steps1
  = (dir_prefix save_dir ++ "steps_" ++ format_04d steps1
       ++ "/optimizers.pt")%string
  /\ parse_int (format_04d steps1) = Some steps1
  /\ dict_get (files w2) (file steps2) = Ok (saved o2)
  /\ (steps1 <> steps2 -> dict_get (files w2) (file steps1) = Ok (saved o1)).
Proof.
  cbv zeta. split; [apply file_path_shape |].
  split; [apply parse_format |].
  unfold save_optimizers. cbn [files print torch_save makedirs].
  split; [apply dict_get_set |].
  intros Hne. rewrite dict_get_other.
  - apply dict_get_set.
  - intros H. apply file_path_injective in H. congruence.
Qed.

End CheckpointStore.

(** ** The accumulated KL and entropy over even chunks *)

Section KlRows.
Context {B : Backend}.

Lemma kl_tokens_rows a s n G toks lp :
  kl_tokens a (rows s n G) (rows s n toks) (rows s n lp)
  = rows s n (kl_tokens a G toks lp).
Proof.
  unfold kl_tokens, ratio_of.
  repeat (rewrite rows_tmap2 || rewrite rows_tmap
          || rewrite rows_select_agent).
  reflexivity.
Qed.

Lemma entropy_tokens_rows s n G :
  entropy_tokens (rows s n G) = rows s n (entropy_tokens G).
Proof. unfold entropy_tokens. rewrite rows_tmap. reflexivity. Qed.

End KlRows.

Section KlEven.
Context {B : Backend}.
Variable self : trainer.
Variables (c k : nat) (m : Z) (a : option Z).
Variables (obs : list Obs) (toks : tensor Z) (adv lp : tensor float)
          (mask : tensor Z) (h : history Agent).
Let G := get_token_logits h obs toks a.
Let K := kl_tokens a G toks lp.
Let E := entropy_tokens G.
Let M := select_agent a mask.
Hypothesis (Hc : (0 < c)%nat) (Hk : (0 < k)%nat) (Hm : m <> 0).
Hypothesis (Hrow : rowwise_logits h obs toks a).
Hypothesis (HfinK : finite_tensor K).
Hypothesis (HfinE : finite_tensor E).
Hypothesis (HlenK : List.length K = (k * c)%nat).
Hypothesis (HlenE : List.length E = (k * c)%nat).
Hypothesis (HlenM : List.length M = (k * c)%nat).
Hypothesis (Hsum : chunk_sums c k m M).

Lemma kl_chunk j rest e acc :
  (j < k)%nat ->
  Forall (fun ev => pass_event ev = true) e ->
  exists pl pl',
    policy_loop self (Z.of_nat j * Z.of_nat c :: rest) (Z.of_nat (k * c))
                (Z.of_nat c) a obs toks adv lp mask (h ++ e) acc
    = policy_loop self rest (Z.of_nat (k * c)) (Z.of_nat c) a obs toks adv
        lp mask
        (h ++ (e ++ [Forward Policy; Backward Policy pl]))
        {| total_approx_kl :=
             (total_approx_kl acc
              + Fin (policy_chunk_term c k m K M j))%fl;
           total_entropy :=
             (total_entropy acc + Fin (policy_chunk_term c k m E M j))%fl;
           policy_loss := pl' |}.
Proof.
  intros Hj He. cbn [policy_loop]. rewrite (chunk_bounds c k j Hj).
  unfold py_truediv.
  destruct (Z.eqb_spec (Z.of_nat (k * c)) 0); [nia |]. cbn [bind].
  rewrite (Hrow e _ _ He). fold G. rewrite !chunk_rows.
  rewrite cal_policy_loss_tokens. cbv zeta.
  fold (kl_tokens a (rows (j * c) c G) (rows (j * c) c toks)
                  (rows (j * c) c lp)).
  fold (entropy_tokens (rows (j * c) c G)).
  rewrite kl_tokens_rows, entropy_tokens_rows. fold K. fold E.
  rewrite <- (rows_select_agent a (j * c) c mask). fold M.
  rewrite (chunk_mean c k m K M j Hm HfinK Hsum Hj).
  rewrite (chunk_mean c k m E M j Hm HfinE Hsum Hj).
  cbn [Float.mul].
  replace (Z.of_nat j * Z.of_nat c + Z.of_nat c - Z.of_nat j * Z.of_nat c)
    with (Z.of_nat c) by lia.
  fold (chunk_weight c k).
  fold (policy_chunk_term c k m K M j).
  fold (policy_chunk_term c k m E M j).
  rewrite <- !app_assoc. eexists _, _. reflexivity.
Qed.

Lemma kl_rest n : forall j e acc x y,
  (j + n = k)%nat ->
  Forall (fun ev => pass_event ev = true) e ->
  total_approx_kl acc = Fin x ->
  total_entropy acc = Fin y ->
  exists h' acc',
    policy_loop self (map (fun i => Z.of_nat i * Z.of_nat c) (seq j n))
      (Z.of_nat (k * c)) (Z.of_nat c) a obs toks adv lp mask (h ++ e) acc
    = Ok (h', acc')
    /\ total_approx_kl acc'
       = Fin (x + rdot (skipn (j * c) K) (skipn (j * c) M) / IZR m
                  * chunk_weight c k)
    /\ total_entropy acc'
       = Fin (y + rdot (skipn (j * c) E) (skipn (j * c) M) / IZR m
                  * chunk_weight c k).
Proof.
  induction n as [| n IH]; intros j e acc x y Hj He Hx Hy.
  - exists (h ++ e), acc. split; [reflexivity |].
    replace j with k by lia.
    rewrite (rdot_rest_nil c k K M HlenK), (rdot_rest_nil c k E M HlenE).
    rewrite Hx, Hy. split; f_equal; lra.
  - cbn [seq map].
    destruct (kl_chunk j
                (map (fun i => Z.of_nat i * Z.of_nat c) (seq (S j) n))
                e acc ltac:(lia) He) as (pl & pl' & Hstep).
    rewrite Hstep. rewrite Hx, Hy. cbn [Float.add].
    destruct (IH (S j) (e ++ [Forward Policy; Backward Policy pl])
                 {| total_approx_kl :=
                      Fin (x + policy_chunk_term c k m K M j);
                    total_entropy :=
                      Fin (y + policy_chunk_term c k m E M j);
                    policy_loss := pl' |}
                 (x + policy_chunk_term c k m K M j)%R
                 (y + policy_chunk_term c k m E M j)%R ltac:(lia))
      as (h' & acc' & Hrun & Hkl & Hen).
    { apply Forall_app. split; [exact He |]. repeat constructor. }
    { reflexivity. }
    { reflexivity. }
    exists h', acc'. split; [exact Hrun |].
    rewrite Hkl, Hen.
    rewrite (rdot_split K M (j * c) c) by congruence.
    rewrite (rdot_split E M (j * c) c) by congruence.
    replace (j * c + c)%nat with (S j * c)%nat by lia.
    unfold policy_chunk_term, Rdiv. split; f_equal; ring.
Qed.

Lemma kl_even :
  exists h' acc,
    policy_loop self (py_range 0 (Z.of_nat (k * c)) (Z.of_nat c))
      (Z.of_nat (k * c)) (Z.of_nat c) a obs toks adv lp mask h
      {| total_approx_kl := Fin 0; total_entropy := Fin 0;
         policy_loss := Fin 0 |}
    = Ok (h', acc)
    /\ total_approx_kl acc = masked_mean K M
    /\ total_entropy acc = masked_mean E M.
Proof.
  rewrite (py_range_even c k Hc).
  destruct (kl_rest k 0%nat []
              {| total_approx_kl := Fin 0; total_entropy := Fin 0;
                 policy_loss := Fin 0 |} 0%R 0%R
              ltac:(lia) ltac:(constructor) eq_refl eq_refl)
    as (h' & acc & Hrun & Hkl & Hen).
  rewrite app_nil_r in Hrun. exists h', acc. split; [exact Hrun |].
  rewrite Hkl, Hen.
  rewrite (full_mean c k m K M Hc Hk Hm HfinK HlenM Hsum).
  rewrite (full_mean c k m E M Hc Hk Hm HfinE HlenM Hsum).
  cbn [Nat.mul skipn]. split; f_equal; lra.
Qed.

End KlEven.

Section KlAccumulation.
Context {B : Backend}.
Variable self : trainer.


End KlAccumulation.

(** ** The further properties on concrete inputs *)

Section ExtraRuns.
Import Demo.

Lemma well_configured_demo i w c b :
  c <> 0 -> well_configured (demo_trainer i w c b).
Proof.
  intros Hc. split; [apply divisors_demo; exact Hc |].
  split; [apply init_registers |].
  split; [discriminate | reflexivity].
Qed.

Lemma demo_ready i w b : well_configured (demo_trainer i w 1 b).
Proof. apply well_configured_demo. discriminate. Qed.

Lemma ratio_kl_finite (log_prob_infer log_prob_old : tensor float) :
  finite_tensor log_prob_infer -> finite_tensor log_prob_old ->
  finite_tensor (tmap token_kl (ratio_of log_prob_infer log_prob_old)).
Proof.
  intros Hi Ho. apply finite_of_flatten. apply Forall_forall. intros x Hx.
  rewrite flatten_tmap in Hx. apply in_map_iff in Hx.
  destruct Hx as (r & <- & Hr). unfold ratio_of in Hr.
  apply in_flatten_tmap2 in Hr. destruct Hr as (a & b & Ha & Hb & ->).
  pose proof (finite_flatten _ Hi) as Fi.
  pose proof (finite_flatten _ Ho) as Fo.
  rewrite Forall_forall in Fi, Fo.
  specialize (Fi a Ha). specialize (Fo b Hb).
  destruct a as [ra | |]; try discriminate.
  destruct b as [rb | |]; try discriminate.
  destruct (token_kl_finite ra rb) as (k & ->). reflexivity.
Qed.

Lemma chunks_partition_witness :
  List.concat (chunks_of [10; 20; 30; 40; 50] 5 2) = [10; 20; 30; 40; 50]
  /\ zsum (chunk_sizes 5 2) = 5
  /\ rsum (map (fun size => IZR size / IZR 5)%R (chunk_sizes 5 2)) = 1%R.
Proof.
  destruct (chunks_partition [10; 20; 30; 40; 50] 5 2
                             ltac:(reflexivity) ltac:(reflexivity))
    as (H1 & H2 & H3 & _).
  split; [exact H1 |]. split; [exact H2 |]. apply H3. reflexivity.
Defined.

Lemma chunk_count_witness :
  let T := demo_trainer 0 0 2 true in
  cp_batch_size_of T [] 5 = Ok ([], 5 / 2)
  /\ 1 <= 5 / 2
  /\ Z.of_nat (List.length (py_range 0 5 (5 / 2)))
     = 2 + (5 mod 2 + 5 / 2 - 1) / (5 / 2)
  /\ cp_batch_size_of T [] 1
     = Ok ([Print "gradient_cp_steps > batch_size, set cp_batch_size = 1"],
           1).
Proof.
  cbv zeta.
  destruct (chunk_count (B := backend) (demo_trainer 0 0 2 true) [] 5
                        ltac:(reflexivity) ltac:(discriminate))
    as [_ Hbig].
  destruct (chunk_count (B := backend) (demo_trainer 0 0 2 true) [] 1
                        ltac:(reflexivity) ltac:(discriminate))
    as [Hsmall _].
  destruct (Hbig ltac:(discriminate)) as (H1 & H2 & H3 & _).
  destruct (Hsmall ltac:(reflexivity)) as (H4 & _).
  split; [exact H1 |]. split; [exact H2 |]. split; [exact H3 | exact H4].
Defined.

Lemma ppo_update_trace_witness :
  let T := demo_trainer 0 1 1 true in
  exists warn e1 value_loss critic_grad_norm,
    map erase e1 = critic_trace T 1
    /\ ppo_update T [] near_sample 0
       = Ok ([] ++ warn ++ e1,
             (value_loss, PyFloat critic_grad_norm,
              PyInt 0, PyInt 0, PyInt 0, PyInt 0)).
Proof.
  cbv zeta.
  destruct (ppo_update_trace (B := backend) (demo_trainer 0 1 1 true) []
              near_sample 0 (demo_ready 0 1 true))
    as (warn & e1 & a & vl & cgn & _ & He1 & _ & [[_ Hrun] | [Hge _]]).
  - exists warn, e1, vl, cgn. split; [exact He1 | exact Hrun].
  - exfalso. apply Hge. reflexivity.
Defined.

Lemma rotation_round_robin_witness :
  let T := demo_trainer 3 0 1 true in
  exists k,
    0 <= k < 0 + 2
    /\ forall global_steps,
         k * 3 <= global_steps < (k + 1) * 3 ->
         agent_to_train_of T global_steps = Ok (Some 0).
Proof.
  cbv zeta.
  assert (HI : 0 < agent_iteration_interval (demo_trainer 3 0 1 true))
    by reflexivity.
  assert (Hj : 0 <= 0 < num_agent (demo_trainer 3 0 1 true))
    by (split; [discriminate | reflexivity]).
  destruct (rotation_round_robin (demo_trainer 3 0 1 true) 0 0 HI Hj)
    as (k & Hk & Hsel & _).
  exists k. split; [exact Hk | exact Hsel].
Defined.

Lemma empty_minibatch_witness :
  let T := demo_trainer 0 0 1 true in
  exists h critic_grad_norm policy_grad_norm,
    ppo_update T [] (mk_sample [] [] [] [] []) 0
    = Ok (h, (PyInt 0, PyFloat critic_grad_norm, PyFloat (Fin 0),
              PyTensor policy_grad_norm, PyFloat (Fin 0), PyFloat (Fin 0))).
Proof.
  cbv zeta.
  destruct (empty_minibatch (B := backend) (demo_trainer 0 0 1 true) []
              (mk_sample [] [] [] [] []) 0
              (demo_ready 0 0 true)
              eq_refl)
    as (a & cgn & _ & _ & Hrun).
  destruct (Hrun ltac:(discriminate)) as (_ & g & Hg).
  eexists _, cgn, g. exact Hg.
Defined.

Lemma all_pad_minibatch_witness :
  let T := demo_trainer 0 0 1 true in
  exists h critic_grad_norm policy_grad_norm,
    ppo_update T [] pad_sample 0
    = Ok (h, (PyFloat NaN, PyFloat critic_grad_norm, PyFloat NaN,
              PyTensor policy_grad_norm, PyFloat NaN, PyFloat NaN)).
Proof.
  cbv zeta.
  destruct (all_pad_minibatch (B := backend) (demo_trainer 0 0 1 true) []
              pad_sample 0
              (demo_ready 0 0 true)
              ltac:(reflexivity) ltac:(discriminate)
              ltac:(repeat constructor) ltac:(discriminate))
    as (e & a & cgn & g & _ & _ & Hrun & _).
  eexists _, cgn, g. exact Hrun.
Defined.

Lemma on_policy_loss_witness :
  let T := demo_trainer 0 0 1 true in
  let lp := tmap Fin [[[0%R]]] in
  cal_policy_loss T lp lp [[[Fin 1]]] [[[Fin 0]]] [[[1]]]
  = (masked_mean
       (tmap2 (fun s e => (s - Fin (entropy_coef T) * e)%fl)
              (tmap2 (fun (_ : R) A => (- A)%fl) [[[0%R]]] [[[Fin 1]]])
              [[[Fin 0]]])
       [[[1]]],
     masked_mean (tmap (fun _ : R => Fin 0) [[[0%R]]]) [[[1]]],
     masked_mean [[[Fin 0]]] [[[1]]])
  /\ masked_mean (tmap (fun _ : R => Fin 0) [[[0%R]]]) [[[1]]] = Fin 0.
Proof.
  cbv zeta.
  destruct (on_policy_loss (demo_trainer 0 0 1 true) [[[0%R]]] [[[Fin 1]]]
                           [[[Fin 0]]] [[[1]]])
    as (H1 & H2).
  - simpl. lra.
  - split; [exact H1 |]. apply H2. discriminate.
Defined.

Lemma value_clip_inactive_witness :
  let T := demo_trainer 0 0 1 true in
  let t := [[[(0.1, 0, 1)%R]]] in
  cal_value_loss T (tmap (fun x => Fin (fst (fst x))) t)
                 (tmap (fun x => Fin (snd (fst x))) t)
                 (tmap (fun x => Fin (snd x)) t) [[[1]]]
  = (masked_mean
       (tmap (fun e => if _use_huber_loss T
                       then huber_loss e (huber_delta T) else mse_loss e)
             (tmap2 Float.sub (tmap (fun x => Fin (snd x)) t)
                    (tmap (fun x => Fin (fst (fst x))) t)))
       [[[1]]]
     * Fin (value_loss_coef T))%fl.
Proof.
  cbv zeta.
  apply (value_clip_inactive (B := backend) (demo_trainer 0 0 1 true)
                             [[[(0.1, 0, 1)%R]]] [[[1]]]).
  intros v vp ret [H | []]. injection H as <- <- <-. simpl. lra.
Defined.

Lemma normalize_all_zero_witness :
  normalize_advantages [[[Fin 0; Fin 0]]] = [[[NaN; NaN]]].
Proof.
  apply (normalize_all_zero [[[Fin 0; Fin 0]]]).
  repeat (constructor; [left; reflexivity |]). constructor.
Defined.

Lemma normalized_statistics_witness :
  let adv := [[[1; 0]; [3; 0]]]%R in
  let nz := nonzero (flatten adv) in
  let out := flatten (normalize_advantages (tmap Fin adv)) in
  let pairs := combine (flatten adv) out in
  fsum (map snd (filter (fun q => negb (Reqb (fst q) 0)) pairs)) = Fin 0
  /\ (forall q, In q pairs -> fst q = 0%R ->
                snd q = Fin (- rmean nz / (rstd nz + 1e-8))%R)
  /\ List.length out = List.length (flatten adv).
Proof.
  cbv zeta. apply (normalized_statistics [[[1; 0]; [3; 0]]]%R).
  exists 1%R. split; [left; reflexivity | lra].
Defined.

Lemma train_steps_critic_per_minibatch_witness :
  let T := demo_trainer 0 0 1 true in
  let buffer : Buffer := [[near_sample]] in
  exists e train_info,
    train T [] buffer 0
    = Ok ([] ++ e, snd (sampled T (Z.to_nat (ppo_epoch T)) buffer),
          train_info)
    /\ dict_keys train_info
       = ["value_loss"; "value_grad_norm"; "policy_loss";
          "policy_grad_norm"; "entropy"; "approx_kl"]%string
    /\ critic_opt_steps e = 1%nat.
Proof.
  cbv zeta.
  apply (train_steps_critic_per_minibatch (B := backend)
           (demo_trainer 0 0 1 true) [] [[near_sample]] 0
           (demo_ready 0 0 true)).
  discriminate.
Defined.

Lemma train_in_warmup_witness :
  let T := demo_trainer 0 1 1 true in
  let buffer : Buffer := [[near_sample]] in
  exists e value_loss value_grad_norm,
    train T [] buffer 0
    = Ok ([] ++ e, snd (sampled T (Z.to_nat (ppo_epoch T)) buffer),
          train_info_of value_loss value_grad_norm
                        (PyFloat (Fin 0)) (PyFloat (Fin 0))
                        (PyFloat (Fin 0)) (PyFloat (Fin 0)))
    /\ quiet e.
Proof.
  cbv zeta.
  apply (train_in_warmup (B := backend) (demo_trainer 0 1 1 true) []
                         [[near_sample]] 0).
  - apply divisors_demo. discriminate.
  - reflexivity.
  - discriminate.
Defined.

Lemma save_then_load_witness :
  let o := {| Checkpoint.policy_states := [("reasoner"%string, 1);
                                           ("actor"%string, 2)];
              Checkpoint.critic_state := 3 |} in
  let o' := {| Checkpoint.policy_states := [("reasoner"%string, 0);
                                            ("actor"%string, 0)];
               Checkpoint.critic_state := 0 |} in
  let w := {| Checkpoint.directories := []; Checkpoint.files := [];
              Checkpoint.printed := [] |} in
  let w1 := Checkpoint.save_optimizers o w "ckpt" 7 in
  Checkpoint.load_optimizers o' w1 "ckpt/steps_0007/optimizers.pt"
  = (o,
     Checkpoint.print w1
       "[TPPOTrainer] optimizer states loaded <- ckpt/steps_0007/optimizers.pt",
     None).
Proof.
  cbv zeta.
  apply (save_then_load Z
           {| Checkpoint.policy_states := [("reasoner"%string, 1);
                                           ("actor"%string, 2)];
              Checkpoint.critic_state := 3 |}
           {| Checkpoint.policy_states := [("reasoner"%string, 0);
                                           ("actor"%string, 0)];
              Checkpoint.critic_state := 0 |}
           {| Checkpoint.directories := []; Checkpoint.files := [];
              Checkpoint.printed := [] |}
           "ckpt" 7).
  - constructor; [intros [H | []]; discriminate H |].
    constructor; [intros [] | constructor].
  - reflexivity.
Defined.

Lemma load_unknown_role_witness :
  let ckpt := {| Checkpoint.policy_opt_states := [("reasoner"%string, 1);
                                                  ("planner"%string, 2)];
                 Checkpoint.critic_opt_state := 3 |} in
  let o := {| Checkpoint.policy_states := [("reasoner"%string, 0);
                                           ("actor"%string, 0)];
              Checkpoint.critic_state := 0 |} in
  let w := {| Checkpoint.directories := [];
              Checkpoint.files := [("optimizers.pt"%string, ckpt)];
              Checkpoint.printed := [] |} in
  exists states,
    Checkpoint.load_optimizers o w "optimizers.pt"
    = ({| Checkpoint.policy_states := states;
          Checkpoint.critic_state := 0 |},
       w, Some (Checkpoint.PyExn KeyError))
    /\ dict_get states "reasoner" = Ok 1
    /\ dict_get states "actor" = Ok 0.
Proof.
  cbv zeta.
  destruct (load_unknown_role Z
              {| Checkpoint.policy_states := [("reasoner"%string, 0);
                                              ("actor"%string, 0)];
                 Checkpoint.critic_state := 0 |}
              {| Checkpoint.directories := [];
                 Checkpoint.files :=
                   [("optimizers.pt"%string,
                     {| Checkpoint.policy_opt_states :=
                          [("reasoner"%string, 1); ("planner"%string, 2)];
                        Checkpoint.critic_opt_state := 3 |})];
                 Checkpoint.printed := [] |}
              "optimizers.pt"
              {| Checkpoint.policy_opt_states :=
                   [("reasoner"%string, 1); ("planner"%string, 2)];
                 Checkpoint.critic_opt_state := 3 |}
              [("reasoner"%string, 1)] [] "planner" 2)
    as (states & Hrun & _ & Hfront & Hkeep).
  - reflexivity.
  - reflexivity.
  - constructor; [intros [] | constructor].
  - intros k [<- | []]. left. reflexivity.
  - intros [H | [H | []]]; discriminate H.
  - exists states. split; [exact Hrun |]. split.
    + apply Hfront. left. reflexivity.
    + rewrite Hkeep; [reflexivity |]. intros [H | []]. discriminate H.
Defined.


End ExtraRuns.
